(** * PipelineRun reconciliation of ks-devops, embedded and verified

    The development follows the controller package
    ([pipelinerun_controller.go] and the synchronizer beside it) and the
    builders of [pkg/kapis/devops/v1alpha3/pipelinerun/util.go].

    - Go values are Rocq values: structs are records, [map[string]string]
      is [option (gmap string string)] (a Go map may be [nil], and
      [reflect.DeepEqual] tells a nil map from an empty one), pointers that
      may be [nil] are options, [interface{}] payloads are the type [any].
    - A Go function that returns [(T, error)] returns a [result T]; an
      [error] alone is an [option error].  A run-time panic is an outcome of
      its own.
    - Every call on a collaborator (the object store, the Jenkins client,
      the event recorder, the sleeps of the retry loop) is appended, with
      its answer, to the trace of the world, so that orderings and "no call
      was made" are statements about lists. *)

From Stdlib Require Import ZArith List Lia Ascii.
From stdpp Require Import base strings list gmap pretty.

Local Open Scope Z_scope.

(** ** Errors *)

(** The reason an API error carries ([metav1.StatusReason]); plain Go errors
    ([errors.New], [fmt.Errorf], the errors of the Jenkins client) have no
    reason. *)
Inductive StatusReason : Type :=
| StatusReasonNone
| StatusReasonNotFound
| StatusReasonConflict
| StatusReasonAlreadyExists.

Record error : Type := mkError {
  err_reason : StatusReason;
  err_msg : string            (* what [err.Error()] returns *)
}.

#[global] Instance StatusReason_eq_dec : EqDecision StatusReason.
Proof. solve_decision. Defined.
#[global] Instance error_eq_dec : EqDecision error.
Proof. solve_decision. Defined.

(** [errors.New] and [fmt.Errorf] with the message already formatted. *)
Definition errors_New (msg : string) : error := mkError StatusReasonNone msg.

Definition IsNotFound (e : error) : bool :=
  bool_decide (err_reason e = StatusReasonNotFound).
Definition IsConflict (e : error) : bool :=
  bool_decide (err_reason e = StatusReasonConflict).

(** [client.IgnoreNotFound]: a not-found error becomes [nil]. *)
Definition IgnoreNotFound (err : option error) : option error :=
  match err with
  | Some e => if IsNotFound e then None else Some e
  | None => None
  end.

Inductive result (A : Type) : Type :=
| Ok (a : A)
| Fail (e : error).
Arguments Ok {A} a.
Arguments Fail {A} e.

(** ** Strings *)

(** [strings.Contains s substr]. *)
Definition strings_Contains (s substr : string) : bool :=
  match String.index 0 substr s with
  | Some _ => true
  | None => false
  end.

(** ** Dynamic values

    What [encoding/json] decodes into an [interface{}]: the branch of a
    remote run arrives this way.  A number is decoded into a [float64]; the
    numbers here are the integers that a [float64] holds exactly (those of
    a magnitude up to [2 ^ 53]), which is what run payloads hold.  Maps keep
    their entries in key order, the order in which [fmt] prints them. *)
#[warnings="-register-all"]
Inductive any : Type :=
| AnyNil
| AnyBool (b : bool)
| AnyNumber (z : Z)
| AnyString (s : string)
| AnySlice (l : list any)
| AnyMap (m : list (string * any)).

(** [m[key]] on a [map[string]interface{}]: the zero value [nil] when the
    key is absent. *)
Fixpoint any_map_index (m : list (string * any)) (key : string) : any :=
  match m with
  | [] => AnyNil
  | (k, v) :: rest => if String.eqb k key then v else any_map_index rest key
  end.

(** The digits of a numeral without the zeros at its end. *)
Fixpoint trim_zeros (s : string) : string :=
  match s with
  | EmptyString => ""
  | String c rest =>
      match trim_zeros rest with
      | EmptyString => if Ascii.eqb c "0"%char then "" else String c ""
      | t => String c t
      end
  end.

(** [%v] of a [float64] that holds the integer [z]: [strconv.FormatFloat]
    with the format ['g'] and the shortest precision.  Below a decimal
    exponent of 6 this is the plain numeral; from there on it is the [%e]
    form, the significant digits with a point after the first one and an
    exponent of at least two digits ([1e+06], [1.234567e+06]). *)
Definition fmt_float (z : Z) : string :=
  if Z.abs z <? 1000000 then pretty z
  else
    let digits := pretty (Z.abs z) in
    let exp := (String.length digits - 1)%nat in
    let mantissa :=
      match trim_zeros digits with
      | EmptyString => digits
      | String d EmptyString => String d ""
      | String d rest => String d ("." +:+ rest)
      end in
    (if z <? 0 then "-" else "") +:+ mantissa +:+ "e+"
    +:+ (if (exp <? 10)%nat then "0" else "") +:+ pretty exp.

(** [fmt.Sprint] of one operand (the [%v] verb). *)
Fixpoint fmt_Sprint (v : any) : string :=
  match v with
  | AnyNil => "<nil>"
  | AnyBool true => "true"
  | AnyBool false => "false"
  | AnyNumber z => fmt_float z
  | AnyString s => s
  | AnySlice l =>
      "[" +:+
      (fix elems (l : list any) : string :=
         match l with
         | [] => ""
         | [x] => fmt_Sprint x
         | x :: rest => fmt_Sprint x +:+ " " +:+ elems rest
         end) l +:+ "]"
  | AnyMap m =>
      "map[" +:+
      (fix entries (m : list (string * any)) : string :=
         match m with
         | [] => ""
         | [(k, x)] => k +:+ ":" +:+ fmt_Sprint x
         | (k, x) :: rest => k +:+ ":" +:+ fmt_Sprint x +:+ " " +:+ entries rest
         end) m +:+ "]"
  end.

(** ** Time

    An instant is a number of nanoseconds; [0] is Go's zero [time.Time].  A
    pointer to a [metav1.Time] is an [option Time]. *)
Definition Time : Type := Z.
Definition Duration : Type := Z.
Definition Millisecond : Duration := 1000000.
Definition Second : Duration := 1000000000.

(** [IsZero] of a [metav1.Time] pointer: [nil] counts as zero. *)
Definition Time_IsZero (t : option Time) : bool :=
  match t with
  | None => true
  | Some t => bool_decide (t = 0)
  end.

(** ** API types

    Modelled from the spec: the types and constants of the API package
    [pkg/api/devops/v1alpha3] and the Kubernetes metadata they embed are not
    among the sources at hand.  The records follow the data model of the
    spec (run record, pipeline definition) and keep the Go field names that
    the controller reads and writes. *)

Record OwnerReference : Type := mkOwnerReference {
  owner_APIVersion : string;
  owner_Kind : string;
  owner_Name : string;
  owner_UID : string;
  owner_Controller : option bool;
  owner_BlockOwnerDeletion : option bool
}.

Record TypeMeta : Type := mkTypeMeta {
  tm_Kind : string;
  tm_APIVersion : string
}.

Record ObjectMeta : Type := mkObjectMeta {
  Name : string;
  GenerateName : string;
  Namespace : string;
  UID : string;
  Labels : option (gmap string string);
  Annotations : option (gmap string string);
  OwnerReferences : list OwnerReference;
  Finalizers : list string;
  DeletionTimestamp : option Time
}.

Record ObjectReference : Type := mkObjectReference {
  ref_Kind : string;
  ref_Name : string;
  ref_Namespace : string
}.

Record PipelineSpec : Type := mkPipelineSpec {
  Type_ : string;             (* the pipeline type, [Type] in Go *)
  Definition_ : string        (* the rest of the definition, never inspected here *)
}.

Record SCM : Type := mkSCM {
  RefName : string;
  RefType : string
}.

(** [v1alpha3.Parameter] ([Parameter] is reserved in Rocq). *)
Record RunParameter : Type := mkRunParameter {
  param_Name : string;
  param_Value : string
}.

Record PipelineRunSpec : Type := mkPipelineRunSpec {
  PipelineRef : option ObjectReference;
  PipelineSpec_ : option PipelineSpec;
  Parameters : list RunParameter;
  SCM_ : option SCM
}.

Record Condition : Type := mkCondition {
  cond_Type : string;
  cond_Status : string;
  cond_Reason : string;
  cond_Message : string;
  cond_LastTransitionTime : Time;
  cond_LastProbeTime : Time
}.

Record PipelineRunStatus : Type := mkPipelineRunStatus {
  StartTime : option Time;
  CompletionTime : option Time;
  UpdateTime : option Time;
  Conditions : list Condition;
  Phase : string
}.

Record PipelineRun : Type := mkPipelineRun {
  pr_ObjectMeta : ObjectMeta;
  pr_Spec : PipelineRunSpec;
  pr_Status : PipelineRunStatus
}.

Record Pipeline : Type := mkPipeline {
  pl_TypeMeta : TypeMeta;
  pl_ObjectMeta : ObjectMeta;
  pl_Spec : PipelineSpec
}.

#[global] Instance Condition_eq_dec : EqDecision Condition.
Proof. solve_decision. Defined.
#[global] Instance PipelineRunStatus_eq_dec : EqDecision PipelineRunStatus.
Proof. solve_decision. Defined.

(** Keys and names.  The values are those of the API package as far as they
    are known; the proofs below use only that the keys are pairwise
    distinct. *)
Definition PipelineNameLabelKey : string := "devops.kubesphere.io/pipeline".
Definition SCMRefNameLabelKey : string := "devops.kubesphere.io/scm-ref-name".
Definition PipelineRunOrphanKey : string := "devops.kubesphere.io/pipelinerun-orphan".
Definition JenkinsPipelineRunIDKey : string := "devops.kubesphere.io/jenkins-pipelinerun-id".
Definition JenkinsPipelineRunStatusKey : string := "devops.kubesphere.io/jenkins-pipelinerun-status".
Definition JenkinsPipelineRunStagesStatusKey : string :=
  "devops.kubesphere.io/jenkins-pipelinerun-stages-status".
Definition PipelineRequestToSyncRunsAnnoKey : string :=
  "devops.kubesphere.io/request-to-sync-pipelineruns".
Definition PipelineRunFinalizerName : string := "pipelinerun.finalizers.kubesphere.io".
Definition MultiBranchPipelineType : string := "multi-branch-pipeline".
Definition NoScmPipelineType : string := "pipeline".

(** Condition types, condition statuses and phases. *)
Definition ConditionSucceeded : string := "Succeeded".
Definition ConditionUnknown : string := "Unknown".
Definition Unknown : string := "Unknown".
Definition Running : string := "Running".

(** Event types and reasons. *)
Definition EventTypeNormal : string := "Normal".
Definition EventTypeWarning : string := "Warning".
Definition Started : string := "Started".
Definition Updated : string := "Updated".
Definition TriggerFailed : string := "TriggerFailed".
Definition RetrieveFailed : string := "RetrieveFailed".

(** Field updates ([x.F = v] in Go). *)
Definition meta_set_Name (v : string) (m : ObjectMeta) : ObjectMeta :=
  mkObjectMeta v (GenerateName m) (Namespace m) (UID m) (Labels m) (Annotations m)
    (OwnerReferences m) (Finalizers m) (DeletionTimestamp m).
Definition meta_set_Labels (v : option (gmap string string)) (m : ObjectMeta) : ObjectMeta :=
  mkObjectMeta (Name m) (GenerateName m) (Namespace m) (UID m) v (Annotations m)
    (OwnerReferences m) (Finalizers m) (DeletionTimestamp m).
Definition meta_set_Annotations (v : option (gmap string string)) (m : ObjectMeta) : ObjectMeta :=
  mkObjectMeta (Name m) (GenerateName m) (Namespace m) (UID m) (Labels m) v
    (OwnerReferences m) (Finalizers m) (DeletionTimestamp m).
Definition meta_set_Finalizers (v : list string) (m : ObjectMeta) : ObjectMeta :=
  mkObjectMeta (Name m) (GenerateName m) (Namespace m) (UID m) (Labels m) (Annotations m)
    (OwnerReferences m) v (DeletionTimestamp m).

Definition pr_set_ObjectMeta (v : ObjectMeta) (pr : PipelineRun) : PipelineRun :=
  mkPipelineRun v (pr_Spec pr) (pr_Status pr).
Definition pr_set_Status (v : PipelineRunStatus) (pr : PipelineRun) : PipelineRun :=
  mkPipelineRun (pr_ObjectMeta pr) (pr_Spec pr) v.
Definition pr_set_Labels (v : option (gmap string string)) (pr : PipelineRun) : PipelineRun :=
  pr_set_ObjectMeta (meta_set_Labels v (pr_ObjectMeta pr)) pr.
Definition pr_set_Annotations (v : option (gmap string string)) (pr : PipelineRun) : PipelineRun :=
  pr_set_ObjectMeta (meta_set_Annotations v (pr_ObjectMeta pr)) pr.
Definition pr_set_Finalizers (v : list string) (pr : PipelineRun) : PipelineRun :=
  pr_set_ObjectMeta (meta_set_Finalizers v (pr_ObjectMeta pr)) pr.

Definition pl_set_Annotations (v : option (gmap string string)) (p : Pipeline) : Pipeline :=
  mkPipeline (pl_TypeMeta p) (meta_set_Annotations v (pl_ObjectMeta p)) (pl_Spec p).

Definition status_set_StartTime (v : option Time) (s : PipelineRunStatus) : PipelineRunStatus :=
  mkPipelineRunStatus v (CompletionTime s) (UpdateTime s) (Conditions s) (Phase s).
Definition status_set_UpdateTime (v : option Time) (s : PipelineRunStatus) : PipelineRunStatus :=
  mkPipelineRunStatus (StartTime s) (CompletionTime s) v (Conditions s) (Phase s).
Definition status_set_Conditions (v : list Condition) (s : PipelineRunStatus) : PipelineRunStatus :=
  mkPipelineRunStatus (StartTime s) (CompletionTime s) (UpdateTime s) v (Phase s).
Definition status_set_Phase (v : string) (s : PipelineRunStatus) : PipelineRunStatus :=
  mkPipelineRunStatus (StartTime s) (CompletionTime s) (UpdateTime s) (Conditions s) v.

(** Reads and writes of a [map[string]string] that may be [nil]. *)
Definition map_lookup (m : option (gmap string string)) (k : string) : option string :=
  match m with
  | Some m => m !! k
  | None => None
  end.
(** [m[k]]: the zero value when the key is absent. *)
Definition map_index (m : option (gmap string string)) (k : string) : string :=
  default "" (map_lookup m k).
(** [if m == nil { m = make(map[string]string) }]. *)
Definition map_make_if_nil (m : option (gmap string string)) : gmap string string :=
  default ∅ m.

(** An object key is a namespace and a name ([types.NamespacedName]). *)
Abbreviation ObjectKey := (string * string)%type.
Definition NamespacedName_String (key : ObjectKey) : string := key.1 +:+ "/" +:+ key.2.
Definition pr_key (pr : PipelineRun) : ObjectKey :=
  (Namespace (pr_ObjectMeta pr), Name (pr_ObjectMeta pr)).
Definition pl_key (p : Pipeline) : ObjectKey :=
  (Namespace (pl_ObjectMeta p), Name (pl_ObjectMeta p)).

(** Modelled from the spec: the methods of the run record are in the API
    package.  A run has started when the external run identifier annotation
    is there ("Started, polling (external run identifier present)"). *)
Definition GetPipelineRunID (pr : PipelineRun) : string * bool :=
  match map_lookup (Annotations (pr_ObjectMeta pr)) JenkinsPipelineRunIDKey with
  | Some id => (id, true)
  | None => ("", false)
  end.
Definition HasStarted (pr : PipelineRun) : bool := (GetPipelineRunID pr).2.

(** Modelled from the spec: a run is multi-branch when the embedded copy of
    the pipeline's spec says so. *)
Definition IsMultiBranchPipeline (prSpec : PipelineRunSpec) : bool :=
  match PipelineSpec_ prSpec with
  | Some ps => String.eqb (Type_ ps) MultiBranchPipelineType
  | None => false
  end.

(** Modelled from the spec: "mark the record orphan" is a label on the
    record. *)
Definition LabelAsAnOrphan (pr : PipelineRun) : PipelineRun :=
  pr_set_Labels
    (Some (<[PipelineRunOrphanKey := "true"]> (map_make_if_nil (Labels (pr_ObjectMeta pr))))) pr.

(** Modelled from the spec: "add/refresh a skip condition": a condition of
    the same type is replaced, the new one goes last. *)
Definition AddCondition (c : Condition) (s : PipelineRunStatus) : PipelineRunStatus :=
  status_set_Conditions
    (filter (λ c', cond_Type c' ≠ cond_Type c) (Conditions s) ++ [c]) s.

(** Modelled from the spec: the string slices of [pkg/utils/sliceutil]. *)
Definition sliceutil_RemoveString (slice : list string) (remove : string → bool) : list string :=
  filter (λ item, remove item = false) slice.
Definition sliceutil_HasString (slice : list string) (str : string) : bool :=
  bool_decide (str ∈ slice).

(** ** The Jenkins client

    The types of [github.com/jenkins-zh/jenkins-client/pkg/job] that the
    controller passes around.  Of a remote run only the identifier and the
    branch are read here; the result and the state travel to the
    annotations and the status through the helpers further down. *)
Record job_PipelineRun : Type := mkJobPipelineRun {
  run_ID : string;
  run_Branch : any;
  run_Result : string;
  run_State : string
}.

Record job_Node : Type := mkJobNode {
  node_ID : string;
  node_DisplayName : string;
  node_Result : string;
  node_State : string
}.

Record job_Parameter : Type := mkJobParameter {
  jp_Name : string;
  jp_Value : string
}.

Record BuildOption : Type := mkBuildOption {
  bo_Pipelines : list string;
  bo_Parameters : list job_Parameter;
  bo_Branch : string
}.

Record GetBuildOption : Type := mkGetBuildOption {
  gb_RunID : string;
  gb_Pipelines : list string;
  gb_Branch : string
}.

Record GetNodesOption : Type := mkGetNodesOption {
  gn_Pipelines : list string;
  gn_Branch : string;
  gn_RunID : string
}.

(** [strconv.Atoi]: an optional sign and decimal digits, within the range of
    a 64-bit [int]. *)
Definition digit_value (c : ascii) : option Z :=
  let n := Z.of_nat (nat_of_ascii c) in
  if (48 <=? n) && (n <=? 57) then Some (n - 48) else None.

Fixpoint parse_digits (acc : Z) (s : string) : option Z :=
  match s with
  | EmptyString => Some acc
  | String c rest =>
      match digit_value c with
      | Some d => parse_digits (acc * 10 + d) rest
      | None => None
      end
  end.

Definition strconv_Atoi (s : string) : result Z :=
  let syntax := errors_New ("strconv.Atoi: parsing " +:+ s +:+ ": invalid syntax") in
  let range := errors_New ("strconv.Atoi: parsing " +:+ s +:+ ": value out of range") in
  let '(negative, digits) :=
    match s with
    | String "-"%char rest => (true, rest)
    | String "+"%char rest => (false, rest)
    | _ => (false, s)
    end in
  match digits with
  | EmptyString => Fail syntax
  | _ =>
      match parse_digits 0 digits with
      | None => Fail syntax
      | Some n =>
          let v := if negative : bool then - n else n in
          if (- 2 ^ 63 <=? v) && (v <=? 2 ^ 63 - 1) then Ok v else Fail range
      end
  end.

(** ** The world: object store, clock and trace *)

(** One call on a collaborator, with the answer it got. *)
Inductive Call : Type :=
| CallGetRun (key : ObjectKey) (answer : result PipelineRun)
| CallGetPipeline (key : ObjectKey) (answer : result Pipeline)
| CallListRuns (namespace : string) (selector : gmap string string)
    (answer : result (list PipelineRun))
| CallCreateRun (pr : PipelineRun) (answer : result PipelineRun)
| CallUpdateRun (pr : PipelineRun) (answer : option error)
| CallUpdateRunStatus (pr : PipelineRun) (answer : option error)
| CallUpdatePipeline (p : Pipeline) (answer : option error)
| CallBuild (option_ : BuildOption) (answer : result job_PipelineRun)
| CallGetBuild (option_ : GetBuildOption) (answer : result job_PipelineRun)
| CallGetNodes (option_ : GetNodesOption) (answer : result (list job_Node))
| CallDeleteHistory (jobName : string) (buildNum : Z) (answer : option error)
| CallGetPipelineRuns (name namespace : string) (answer : result (list job_PipelineRun))
| CallEvent (object : ObjectKey) (eventtype reason message : string)
| CallSleep (d : Duration).

Record World : Type := mkWorld {
  w_runs : gmap (string * string) PipelineRun;
  w_pipelines : gmap (string * string) Pipeline;
  w_clock : Time;
  w_generated : nat;          (* how many names the store has generated *)
  w_trace : list Call
}.

Definition record_call (c : Call) (w : World) : World :=
  mkWorld (w_runs w) (w_pipelines w) (w_clock w) (w_generated w) (w_trace w ++ [c]).
Definition set_runs (runs : gmap (string * string) PipelineRun) (w : World) : World :=
  mkWorld runs (w_pipelines w) (w_clock w) (w_generated w) (w_trace w).
Definition set_pipelines (ps : gmap (string * string) Pipeline) (w : World) : World :=
  mkWorld (w_runs w) ps (w_clock w) (w_generated w) (w_trace w).
Definition set_clock (t : Time) (w : World) : World :=
  mkWorld (w_runs w) (w_pipelines w) t (w_generated w) (w_trace w).
Definition set_generated (n : nat) (w : World) : World :=
  mkWorld (w_runs w) (w_pipelines w) (w_clock w) n (w_trace w).

(** A computation either finishes with a value or panics; the world it
    leaves behind holds every effect up to that point. *)
Inductive outcome (A : Type) : Type :=
| Done (a : A)
| Panicked.
Arguments Done {A} a.
Arguments Panicked {A}.

Definition M (A : Type) : Type := World → outcome A * World.

#[global] Instance M_ret : MRet M := λ A a w, (Done a, w).
#[global] Instance M_bind : MBind M := λ A B f m w,
  match m w with
  | (Done a, w') => f a w'
  | (Panicked, w') => (Panicked, w')
  end.
(** A nil dereference, a failed type assertion. *)
Definition panic {A : Type} : M A := λ w, (Panicked, w).

(** The calls a computation has added to the trace. *)
Definition new_calls (w w' : World) : list Call :=
  drop (length (w_trace w)) (w_trace w').

(** [time.Now()]: the clock is read and moves on. *)
Definition time_Now : M Time := λ w, (Done (w_clock w), set_clock (w_clock w + 1) w).

(** [time.Sleep]. *)
Definition time_Sleep (d : Duration) : M unit :=
  λ w, (Done tt, record_call (CallSleep d) (set_clock (w_clock w + d) w)).

(** ** Collaborators

    The object store and the Jenkins server are outside the package.  What
    they answer is decided by oracles that see the history of calls so far:
    any deterministic environment, with its faults and its concurrent
    writers, is an instance.  The content of the store is concrete. *)

(** The object-store client ([client.Client]).  [api_fault] says whether the
    next request fails (a conflict raised by a concurrent writer, a network
    error) before the store looks at it. *)
Record Client : Type := mkClient {
  api_fault : list Call → option error
}.

(** The Jenkins connection ([core.JenkinsCore]) with the answers of the
    server behind it. *)
Record JenkinsCore : Type := mkJenkinsCore {
  jenkins_Build : list Call → BuildOption → result job_PipelineRun;
  jenkins_GetBuild : list Call → GetBuildOption → result job_PipelineRun;
  jenkins_GetNodes : list Call → GetNodesOption → result (list job_Node);
  jenkins_DeleteHistory : list Call → string → Z → option error;
  jenkins_GetPipelineRuns : list Call → string → string → result (list job_PipelineRun)
}.

Definition NewNotFound (kind : string) (key : ObjectKey) : error :=
  mkError StatusReasonNotFound (kind +:+ " " +:+ NamespacedName_String key +:+ " not found").
Definition NewAlreadyExists (kind : string) (key : ObjectKey) : error :=
  mkError StatusReasonAlreadyExists
    (kind +:+ " " +:+ NamespacedName_String key +:+ " already exists").

(** [c.Get(ctx, key, &pr)]. *)
Definition Client_GetRun (c : Client) (key : ObjectKey) : M (result PipelineRun) := λ w,
  let answer :=
    match api_fault c (w_trace w) with
    | Some e => Fail e
    | None =>
        match w_runs w !! key with
        | Some pr => Ok pr
        | None => Fail (NewNotFound "pipelineruns" key)
        end
    end in
  (Done answer, record_call (CallGetRun key answer) w).

Definition Client_GetPipeline (c : Client) (key : ObjectKey) : M (result Pipeline) := λ w,
  let answer :=
    match api_fault c (w_trace w) with
    | Some e => Fail e
    | None =>
        match w_pipelines w !! key with
        | Some p => Ok p
        | None => Fail (NewNotFound "pipelines" key)
        end
    end in
  (Done answer, record_call (CallGetPipeline key answer) w).

(** [client.MatchingLabels]: every pair of the selector is a label. *)
Definition matches_labels (selector : gmap string string) (pr : PipelineRun) : bool :=
  bool_decide (map_Forall (λ k v, map_lookup (Labels (pr_ObjectMeta pr)) k = Some v) selector).

(** [c.List(ctx, &prList, client.InNamespace(ns), client.MatchingLabels(sel))]. *)
Definition Client_ListRuns (c : Client) (namespace : string) (selector : gmap string string)
  : M (result (list PipelineRun)) := λ w,
  let answer :=
    match api_fault c (w_trace w) with
    | Some e => Fail e
    | None =>
        Ok (filter (λ pr, Namespace (pr_ObjectMeta pr) = namespace
                          ∧ matches_labels selector pr = true)
              (map_to_list (w_runs w)).*2)
    end in
  (Done answer, record_call (CallListRuns namespace selector answer) w).

(** [c.Create(ctx, pr)].  A record without a name gets one from its
    [GenerateName]; the store answers with the record as stored. *)
Definition Client_CreateRun (c : Client) (pr : PipelineRun) : M (result PipelineRun) := λ w,
  match api_fault c (w_trace w) with
  | Some e => (Done (Fail e), record_call (CallCreateRun pr (Fail e)) w)
  | None =>
      let named :=
        if String.eqb (Name (pr_ObjectMeta pr)) ""
        then pr_set_ObjectMeta
               (meta_set_Name (GenerateName (pr_ObjectMeta pr) +:+ pretty (w_generated w))
                  (pr_ObjectMeta pr)) pr
        else pr in
      let w := if String.eqb (Name (pr_ObjectMeta pr)) ""
               then set_generated (S (w_generated w)) w else w in
      match w_runs w !! pr_key named with
      | Some _ =>
          let e := NewAlreadyExists "pipelineruns" (pr_key named) in
          (Done (Fail e), record_call (CallCreateRun pr (Fail e)) w)
      | None =>
          (Done (Ok named),
           record_call (CallCreateRun pr (Ok named))
             (set_runs (<[pr_key named := named]> (w_runs w)) w))
      end
  end.

(** [c.Update(ctx, &pr)]: status is a subresource, so everything but the
    status is written. *)
Definition Client_UpdateRun (c : Client) (pr : PipelineRun) : M (option error) := λ w,
  let '(answer, w) :=
    match api_fault c (w_trace w) with
    | Some e => (Some e, w)
    | None =>
        match w_runs w !! pr_key pr with
        | None => (Some (NewNotFound "pipelineruns" (pr_key pr)), w)
        | Some stored =>
            (None, set_runs (<[pr_key pr := pr_set_Status (pr_Status stored) pr]> (w_runs w)) w)
        end
    end in
  (Done answer, record_call (CallUpdateRun pr answer) w).

(** [c.Status().Update(ctx, &pr)]: only the status is written. *)
Definition Client_StatusUpdateRun (c : Client) (pr : PipelineRun) : M (option error) := λ w,
  let '(answer, w) :=
    match api_fault c (w_trace w) with
    | Some e => (Some e, w)
    | None =>
        match w_runs w !! pr_key pr with
        | None => (Some (NewNotFound "pipelineruns" (pr_key pr)), w)
        | Some stored =>
            (None, set_runs (<[pr_key pr := pr_set_Status (pr_Status pr) stored]> (w_runs w)) w)
        end
    end in
  (Done answer, record_call (CallUpdateRunStatus pr answer) w).

Definition Client_UpdatePipeline (c : Client) (p : Pipeline) : M (option error) := λ w,
  let '(answer, w) :=
    match api_fault c (w_trace w) with
    | Some e => (Some e, w)
    | None =>
        match w_pipelines w !! pl_key p with
        | None => (Some (NewNotFound "pipelines" (pl_key p)), w)
        | Some _ => (None, set_pipelines (<[pl_key p := p]> (w_pipelines w)) w)
        end
    end in
  (Done answer, record_call (CallUpdatePipeline p answer) w).

(** [recorder.Eventf] with the message already formatted. *)
Definition Eventf (object : ObjectKey) (eventtype reason message : string) : M unit :=
  λ w, (Done tt, record_call (CallEvent object eventtype reason message) w).

(** The calls of [job.BlueOceanClient] and [job.Client]. *)
Definition BlueOcean_Build (jc : JenkinsCore) (o : BuildOption) : M (result job_PipelineRun) :=
  λ w, let answer := jenkins_Build jc (w_trace w) o in
       (Done answer, record_call (CallBuild o answer) w).
Definition BlueOcean_GetBuild (jc : JenkinsCore) (o : GetBuildOption)
  : M (result job_PipelineRun) :=
  λ w, let answer := jenkins_GetBuild jc (w_trace w) o in
       (Done answer, record_call (CallGetBuild o answer) w).
Definition BlueOcean_GetNodes (jc : JenkinsCore) (o : GetNodesOption)
  : M (result (list job_Node)) :=
  λ w, let answer := jenkins_GetNodes jc (w_trace w) o in
       (Done answer, record_call (CallGetNodes o answer) w).
Definition BlueOcean_GetPipelineRuns (jc : JenkinsCore) (name namespace : string)
  : M (result (list job_PipelineRun)) :=
  λ w, let answer := jenkins_GetPipelineRuns jc (w_trace w) name namespace in
       (Done answer, record_call (CallGetPipelineRuns name namespace answer) w).
Definition job_DeleteHistory (jc : JenkinsCore) (jobName : string) (buildNum : Z)
  : M (option error) :=
  λ w, let answer := jenkins_DeleteHistory jc (w_trace w) jobName buildNum in
       (Done answer, record_call (CallDeleteHistory jobName buildNum answer) w).

(** [retry.RetryOnConflict]: the function runs up to [steps] times, with a
    sleep between two runs, as long as it fails with a conflict; the last
    conflict is what the caller gets when the steps are used up.  The
    jitter of the sleep is left out. *)
Fixpoint RetryOnConflict (steps : nat) (d : Duration) (fn : M (option error))
  : M (option error) :=
  match steps with
  | O => mret None
  | S n =>
      err ← fn;
      match err with
      | None => mret None
      | Some e =>
          if IsConflict e
          then match n with
               | O => mret (Some e)
               | S _ => time_Sleep d;; RetryOnConflict n d fn
               end
          else mret (Some e)
      end
  end.

(** [retry.DefaultRetry]: five steps, ten milliseconds. *)
Definition DefaultRetry_Steps : nat := 5.
Definition DefaultRetry_Duration : Duration := 10 * Millisecond.

(** ** The record and request builders ([util.go]) *)

(** [devops.RunPayload]: the parameters of a run request, with values as
    they come out of JSON. *)
Record RunPayload : Type := mkRunPayload {
  payload_Parameters : list (string * any)
}.

Definition any_is_empty_string (v : any) : bool :=
  match v with
  | AnyString s => String.eqb s ""
  | _ => false
  end.

Definition convertParameters (payload : option RunPayload) : list RunParameter :=
  match payload with
  | None => []
  | Some payload =>
      omap (λ parameter : string * any,
              if String.eqb parameter.1 "" || any_is_empty_string parameter.2
              then None
              else Some (mkRunParameter parameter.1 (fmt_Sprint parameter.2)))
        (payload_Parameters payload)
  end.

(** [CreateScm] creates the SCM of a run of a multi-branch pipeline. *)
Definition CreateScm (ps : PipelineSpec) (branch : string) : result (option SCM) :=
  if String.eqb (Type_ ps) MultiBranchPipelineType
  then if String.eqb branch ""
       then Fail (errors_New "missing branch name for running a multi-branch Pipeline")
       else Ok (Some (mkSCM branch ""))
  else Ok None.

Definition getPipelineRef (pipeline : Pipeline) : ObjectReference :=
  mkObjectReference (tm_Kind (pl_TypeMeta pipeline))
    (Name (pl_ObjectMeta pipeline)) (Namespace (pl_ObjectMeta pipeline)).

(** [schema.GroupVersion] and [schema.GroupVersionKind]. *)
Record GroupVersion : Type := mkGroupVersion {
  gv_Group : string;
  gv_Version : string
}.

Record GroupVersionKind : Type := mkGroupVersionKind {
  gvk_Group : string;
  gvk_Version : string;
  gvk_Kind : string
}.

(** [strings.Count(s, "/")]. *)
Fixpoint count_slashes (s : string) : nat :=
  match s with
  | EmptyString => O
  | String c rest => ((if Ascii.eqb c "/"%char then 1 else 0) + count_slashes rest)%nat
  end.

(** [gv[:i]] and [gv[i+1:]] for the index [i] of the first slash. *)
Fixpoint cut_at_slash (s : string) : string * string :=
  match s with
  | EmptyString => ("", "")
  | String c rest =>
      if Ascii.eqb c "/"%char then ("", rest)
      else let '(before, after) := cut_at_slash rest in (String c before, after)
  end.

(** [schema.ParseGroupVersion]: [version] or [group/version]; an API version
    with more than one slash is refused. *)
Definition ParseGroupVersion (gv : string) : result GroupVersion :=
  if String.eqb gv "" || String.eqb gv "/" then Ok (mkGroupVersion "" "")
  else match count_slashes gv with
       | O => Ok (mkGroupVersion "" gv)
       | S O => let '(group, version) := cut_at_slash gv in Ok (mkGroupVersion group version)
       | _ => Fail (errors_New ("unexpected GroupVersion string: " +:+ gv))
       end.

(** [schema.FromAPIVersionAndKind]: an API version that does not parse
    leaves the group and the version empty. *)
Definition FromAPIVersionAndKind (apiVersion kind : string) : GroupVersionKind :=
  match ParseGroupVersion apiVersion with
  | Ok gv => mkGroupVersionKind (gv_Group gv) (gv_Version gv) kind
  | Fail _ => mkGroupVersionKind "" "" kind
  end.

(** [GroupVersion.String]. *)
Definition GroupVersion_String (gv : GroupVersion) : string :=
  if String.eqb (gv_Group gv) "" then gv_Version gv
  else gv_Group gv +:+ "/" +:+ gv_Version gv.

(** [pipeline.GroupVersionKind()], read from the type meta of the object. *)
Definition Pipeline_GroupVersionKind (pipeline : Pipeline) : GroupVersionKind :=
  FromAPIVersionAndKind (tm_APIVersion (pl_TypeMeta pipeline)) (tm_Kind (pl_TypeMeta pipeline)).

(** [metav1.NewControllerRef(owner, gvk)]. *)
Definition metav1_NewControllerRef (owner : Pipeline) (gvk : GroupVersionKind)
  : OwnerReference :=
  mkOwnerReference (GroupVersion_String (mkGroupVersion (gvk_Group gvk) (gvk_Version gvk)))
    (gvk_Kind gvk) (Name (pl_ObjectMeta owner)) (UID (pl_ObjectMeta owner))
    (Some true) (Some true).

(** [metav1.NewControllerRef(pipeline, pipeline.GroupVersionKind())]. *)
Definition NewControllerRef (pipeline : Pipeline) : OwnerReference :=
  metav1_NewControllerRef pipeline (Pipeline_GroupVersionKind pipeline).

(** [CreatePipelineRun] creates a bare run record. *)
Definition CreatePipelineRun (pipeline : Pipeline) (payload : option RunPayload)
    (scm : option SCM) : PipelineRun :=
  mkPipelineRun
    (mkObjectMeta "" (Name (pl_ObjectMeta pipeline) +:+ "-")
       (Namespace (pl_ObjectMeta pipeline)) "" None (Some ∅)
       [NewControllerRef pipeline] [] None)
    (mkPipelineRunSpec (Some (getPipelineRef pipeline)) (Some (pl_Spec pipeline))
       (convertParameters payload) scm)
    (mkPipelineRunStatus None None None [] "").

(** ** The run reconciler *)

(** [ctrl.Result]. *)
Record Result : Type := mkResult {
  Requeue : bool;
  RequeueAfter : Duration
}.
Definition Result_zero : Result := mkResult false 0.

Record Reconciler : Type := mkReconciler {
  r_Client : Client;
  r_JenkinsCore : JenkinsCore
}.

(** Modelled from the spec: four helpers of the controller package and of
    the API package are not among the sources at hand and are taken as
    they come: the eligibility predicate [Buildable] of a run record ("a
    caller-supplied eligibility predicate"), the conversion of the run's
    parameters into those of the Jenkins client, the translation of a remote
    run into the local status (it may read the clock), and the JSON
    serialization of the two snapshots. *)
Record Helpers : Type := mkHelpers {
  Buildable : PipelineRun → bool;
  parameterConverter_convert : list RunParameter → list job_Parameter;
  pipelineBuildApplier_apply : Time → job_PipelineRun → PipelineRunStatus → PipelineRunStatus;
  json_Marshal_run : job_PipelineRun → result string;
  json_Marshal_nodes : list job_Node → result string
}.

(** [getJenkinsBuildNumber] returns the build number of the Jenkins build
    behind a run record, a negative value if there is no valid one. *)
Definition getJenkinsBuildNumber (pipelineRun : PipelineRun) : Z :=
  let '(buildNum, buildNumExist) := GetPipelineRunID pipelineRun in
  if negb buildNumExist then -1
  else match strconv_Atoi buildNum with
       | Ok num => num
       | Fail _ => -1
       end.

Definition getSCMRefName (prSpec : PipelineRunSpec) : result string :=
  if IsMultiBranchPipeline prSpec
  then match SCM_ prSpec with
       | None => Fail (errors_New "failed to obtain SCM reference name for multi-branch Pipeline")
       | Some scm =>
           if String.eqb (RefName scm) ""
           then Fail (errors_New "failed to obtain SCM reference name for multi-branch Pipeline")
           else Ok (RefName scm)
       end
  else Ok "".

Section Controller.

Variable hp : Helpers.

Definition deleteJenkinsJobHistory (r : Reconciler) (pipelineRun : PipelineRun)
  : M (option error) :=
  let buildNum := getJenkinsBuildNumber pipelineRun in
  if buildNum <? 0 then mret None
  else
    match PipelineRef (pr_Spec pipelineRun) with
    | None => panic             (* [pipelineRun.Spec.PipelineRef.Name] on a nil reference *)
    | Some ref =>
        let jobName := "job/" +:+ Namespace (pr_ObjectMeta pipelineRun)
                       +:+ "/job/" +:+ ref_Name ref in
        err ← job_DeleteHistory (r_JenkinsCore r) jobName buildNum;
        match err with
        | None => mret None
        | Some e =>
            if strings_Contains (err_msg e) "not found resources"
            then mret None
            else mret (Some (errors_New
                   ("failed to delete Jenkins job: " +:+ jobName +:+ ", build: "
                    +:+ pretty buildNum +:+ ", error: " +:+ err_msg e)))
        end
    end.

Definition triggerJenkinsJob (r : Reconciler) (devopsProjectName pipelineName : string)
    (prSpec : PipelineRunSpec) : M (result job_PipelineRun) :=
  match getSCMRefName prSpec with
  | Fail err => mret (Fail err)
  | Ok branch =>
      BlueOcean_Build (r_JenkinsCore r)
        (mkBuildOption [devopsProjectName; pipelineName]
           (parameterConverter_convert hp (Parameters prSpec)) branch)
  end.

Definition getPipelineRunResult (r : Reconciler) (devopsProjectName pipelineName : string)
    (pr : PipelineRun) : M (result job_PipelineRun) :=
  let '(runID, exists_) := GetPipelineRunID pr in
  if negb exists_
  then mret (Fail (errors_New "unable to get PipelineRun result due to not found run ID"))
  else
    match getSCMRefName (pr_Spec pr) with
    | Fail err => mret (Fail err)
    | Ok branch =>
        BlueOcean_GetBuild (r_JenkinsCore r)
          (mkGetBuildOption runID [devopsProjectName; pipelineName] branch)
    end.

Definition getPipelineNodes (r : Reconciler) (devopsProjectName pipelineName : string)
    (pr : PipelineRun) : M (result (list job_Node)) :=
  let '(runID, exists_) := GetPipelineRunID pr in
  if negb exists_
  then mret (Fail (errors_New "unable to get PipelineRun result due to not found run ID"))
  else
    match getSCMRefName (pr_Spec pr) with
    | Fail err => mret (Fail err)
    | Ok branch =>
        BlueOcean_GetNodes (r_JenkinsCore r)
          (mkGetNodesOption [devopsProjectName; pipelineName] branch runID)
    end.

Definition updateLabelsAndAnnotations (r : Reconciler) (pr : PipelineRun) : M (option error) :=
  got ← Client_GetRun (r_Client r) (pr_key pr);
  match got with
  | Fail err => mret (Some err)
  | Ok prToUpdate =>
      if bool_decide (Labels (pr_ObjectMeta pr) = Labels (pr_ObjectMeta prToUpdate))
         && bool_decide (Annotations (pr_ObjectMeta pr) = Annotations (pr_ObjectMeta prToUpdate))
      then mret None
      else
        let prToUpdate := pr_set_Labels (Labels (pr_ObjectMeta pr)) prToUpdate in
        let prToUpdate := pr_set_Annotations (Annotations (pr_ObjectMeta pr)) prToUpdate in
        (* make sure all PipelineRuns have the finalizer *)
        let prToUpdate :=
          if negb (sliceutil_HasString (Finalizers (pr_ObjectMeta prToUpdate))
                     PipelineRunFinalizerName)
          then pr_set_Finalizers
                 (Finalizers (pr_ObjectMeta prToUpdate) ++ [PipelineRunFinalizerName])
                 prToUpdate
          else prToUpdate in
        Client_UpdateRun (r_Client r) prToUpdate
  end.

Definition updateStatus (r : Reconciler) (desiredStatus : PipelineRunStatus)
    (prKey : ObjectKey) : M (option error) :=
  RetryOnConflict DefaultRetry_Steps DefaultRetry_Duration
    (got ← Client_GetRun (r_Client r) prKey;
     match got with
     | Fail err => mret (Some err)
     | Ok prToUpdate =>
         if bool_decide (desiredStatus = pr_Status prToUpdate)
         then mret None
         else Client_StatusUpdateRun (r_Client r) (pr_set_Status desiredStatus prToUpdate)
     end).

Definition makePipelineRunOrphan (r : Reconciler) (pr : PipelineRun) : M (option error) :=
  (* make the PipelineRun as orphan *)
  let prToUpdate := LabelAsAnOrphan pr in
  err ← updateLabelsAndAnnotations r prToUpdate;
  match err with
  | Some e => mret (Some e)
  | None =>
      lastTransitionTime ← time_Now;
      lastProbeTime ← time_Now;
      let condition :=
        mkCondition ConditionSucceeded ConditionUnknown "SKIPPED"
          "skipped to reconcile this PipelineRun due to not found Pipeline reference in PipelineRun."
          lastTransitionTime lastProbeTime in
      let prToUpdate :=
        pr_set_Status
          (status_set_Phase Unknown (AddCondition condition (pr_Status prToUpdate)))
          prToUpdate in
      (* the status handed over is that of [pr], not that of [prToUpdate] *)
      updateStatus r (pr_Status pr) (pr_key pr)
  end.

(** The arm of [Reconcile] for a run that has started: the run data is
    retrieved from Jenkins and written back. *)
Definition Reconcile_started (r : Reconciler) (req : ObjectKey)
    (namespaceName pipelineName : string) (pr : PipelineRun) : M (Result * option error) :=
  pipelineBuild ← getPipelineRunResult r namespaceName pipelineName pr;
  match pipelineBuild with
  | Fail err =>
      Eventf (pr_key pr) EventTypeWarning RetrieveFailed
        ("Failed to retrieve running data from Jenkins, and error was " +:+ err_msg err);;
      mret (Result_zero, Some err)
  | Ok pipelineBuild =>
      prNodes ← getPipelineNodes r namespaceName pipelineName pr;
      match prNodes with
      | Fail err =>
          Eventf (pr_key pr) EventTypeWarning RetrieveFailed
            ("Failed to retrieve nodes detail from Jenkins, and error was " +:+ err_msg err);;
          mret (Result_zero, Some err)
      | Ok prNodes =>
          (* set the latest run result into annotations *)
          match json_Marshal_run hp pipelineBuild with
          | Fail err => mret (Result_zero, Some err)
          | Ok runResultJSON =>
              match json_Marshal_nodes hp prNodes with
              | Fail err => mret (Result_zero, Some err)
              | Ok prNodesJSON =>
                  let annotations := map_make_if_nil (Annotations (pr_ObjectMeta pr)) in
                  let annotations := <[JenkinsPipelineRunStatusKey := runResultJSON]> annotations in
                  let annotations :=
                    <[JenkinsPipelineRunStagesStatusKey := prNodesJSON]> annotations in
                  let pr := pr_set_Annotations (Some annotations) pr in
                  (* update PipelineRun *)
                  err ← updateLabelsAndAnnotations r pr;
                  match err with
                  | Some e => mret (mkResult false Second, Some e)
                  | None =>
                      now ← time_Now;
                      let status := pipelineBuildApplier_apply hp now pipelineBuild (pr_Status pr) in
                      err ← updateStatus r status req;
                      match err with
                      | Some e => mret (mkResult false Second, Some e)
                      | None =>
                          Eventf (pr_key pr) EventTypeNormal Updated
                            ("Updated running data for PipelineRun "
                             +:+ NamespacedName_String req);;
                          (* until the status is okay *)
                          mret (mkResult false (3 * Second), None)
                      end
                  end
              end
          end
      end
  end.

(** The arm of [Reconcile] for the first run: the Jenkins job is triggered. *)
Definition Reconcile_firstRun (r : Reconciler) (req : ObjectKey)
    (namespaceName pipelineName : string) (pr : PipelineRun) : M (Result * option error) :=
  pipelineBuild ← triggerJenkinsJob r namespaceName pipelineName (pr_Spec pr);
  match pipelineBuild with
  | Fail err =>
      Eventf (pr_key pr) EventTypeWarning TriggerFailed
        ("Failed to trigger PipelineRun " +:+ NamespacedName_String req
         +:+ ", and error was " +:+ err_msg err);;
      mret (Result_zero, Some err)
  | Ok pipelineBuild =>
      (* set Jenkins run ID *)
      let annotations := map_make_if_nil (Annotations (pr_ObjectMeta pr)) in
      let pr :=
        pr_set_Annotations
          (Some (<[JenkinsPipelineRunIDKey := run_ID pipelineBuild]> annotations)) pr in
      (* the Update method only updates fields except subresource: status *)
      err ← updateLabelsAndAnnotations r pr;
      match err with
      | Some e => mret (Result_zero, Some e)
      | None =>
          startTime ← time_Now;
          updateTime ← time_Now;
          let pr :=
            pr_set_Status
              (status_set_UpdateTime (Some updateTime)
                 (status_set_StartTime (Some startTime) (pr_Status pr))) pr in
          err ← updateStatus r (pr_Status pr) req;
          match err with
          | Some e => mret (Result_zero, Some e)
          | None =>
              Eventf (pr_key pr) EventTypeNormal Started
                ("Started PipelineRun " +:+ NamespacedName_String req);;
              (* requeue after 1 second *)
              mret (mkResult false (1 * Second), None)
          end
      end
  end.

(** The arm of [Reconcile] for a record that is being deleted. *)
Definition Reconcile_deleting (r : Reconciler) (pr : PipelineRun) : M (Result * option error) :=
  err ← deleteJenkinsJobHistory r pr;
  match err with
  | Some e => mret (Result_zero, Some e)
  | None =>
      let pr :=
        pr_set_Finalizers
          (sliceutil_RemoveString (Finalizers (pr_ObjectMeta pr))
             (λ item, String.eqb item PipelineRunFinalizerName)) pr in
      err ← Client_UpdateRun (r_Client r) pr;
      mret (Result_zero, err)
  end.

(** The statements of [Reconcile] that set the pipeline name and the SCM
    reference name into the labels. *)
Definition setPipelineLabels (pipelineName : string) (pr : PipelineRun) : PipelineRun :=
  let labels := map_make_if_nil (Labels (pr_ObjectMeta pr)) in
  let labels := <[PipelineNameLabelKey := pipelineName]> labels in
  let labels :=
    match getSCMRefName (pr_Spec pr) with
    | Ok refName =>
        if negb (String.eqb refName "")
        then <[SCMRefNameLabelKey := refName]> labels
        else labels
    | Fail _ => labels
    end in
  pr_set_Labels (Some labels) pr.

(** The part of [Reconcile] for a record that is not being deleted. *)
Definition Reconcile_building (r : Reconciler) (req : ObjectKey) (pr : PipelineRun)
  : M (Result * option error) :=
  if negb (Buildable hp pr)
  then (* the PipelineRun cannot allow building *)
    mret (Result_zero, None)
  else
    let orphan :=
      (* make the PipelineRun as orphan *)
      err ← makePipelineRunOrphan r pr;
      mret (Result_zero, err) in
    (* check PipelineRef *)
    match PipelineRef (pr_Spec pr) with
    | None => orphan
    | Some ref =>
        if String.eqb (ref_Name ref) "" then orphan
        else
          (* get pipeline *)
          gotPipeline ← Client_GetPipeline (r_Client r)
                          (Namespace (pr_ObjectMeta pr), ref_Name ref);
          match gotPipeline with
          | Fail err => mret (Result_zero, IgnoreNotFound (Some err))
          | Ok pipeline =>
              let namespaceName := Namespace (pl_ObjectMeta pipeline) in
              let pipelineName := Name (pl_ObjectMeta pipeline) in
              (* set Pipeline name and SCM ref name into labels *)
              let pr := setPipelineLabels pipelineName pr in
              (* check PipelineRun status *)
              if HasStarted pr
              then Reconcile_started r req namespaceName pipelineName pr
              else Reconcile_firstRun r req namespaceName pipelineName pr
          end
    end.

(** [Reconcile] moves the state of one run closer to the desired state. *)
Definition Reconcile (r : Reconciler) (req : ObjectKey) : M (Result * option error) :=
  (* get PipelineRun *)
  got ← Client_GetRun (r_Client r) req;
  match got with
  | Fail err => mret (Result_zero, IgnoreNotFound (Some err))
  | Ok pr =>
      (* DeletionTimestamp.IsZero() means the record has not been deleted *)
      if negb (Time_IsZero (DeletionTimestamp (pr_ObjectMeta pr)))
      then Reconcile_deleting r pr
      else Reconcile_building r req pr
  end.

(** ** The synchronizer *)

Definition PipelineRunSynced : string := "PipelineRunSynced".
Definition FailedPipelineRunSync : string := "FailedPipelineRunSync".

Record SyncReconciler : Type := mkSyncReconciler {
  sr_Client : Client;
  sr_JenkinsCore : JenkinsCore
}.

(** A type assertion [run.Branch.(map[string]interface{})] panics on a value
    of another dynamic type. *)
Definition createBarePipelineRun (pipeline : Pipeline) (run : job_PipelineRun)
  : outcome (result PipelineRun) :=
  let branch : outcome string :=
    match run_Branch run with
    | AnyNil => Done ""
    | AnyMap m => Done (fmt_Sprint (any_map_index m "url"))
    | _ => Panicked
    end in
  match branch with
  | Panicked => Panicked
  | Done branch =>
      match CreateScm (pl_Spec pipeline) branch with
      | Fail err => Done (Fail err)
      | Ok scm =>
          let pr := CreatePipelineRun pipeline None scm in
          (* the annotations of a fresh record are an empty, non-nil map *)
          let annotations := map_make_if_nil (Annotations (pr_ObjectMeta pr)) in
          Done (Ok (pr_set_Annotations
                      (Some (<[JenkinsPipelineRunIDKey := run_ID run]> annotations)) pr))
      end
  end.

Definition createPipelineRun (r : SyncReconciler) (pipeline : Pipeline)
    (run : job_PipelineRun) : M (result PipelineRun) :=
  match createBarePipelineRun pipeline run with
  | Panicked => panic
  | Done (Fail err) => mret (Fail err)
  | Done (Ok pipelineRun) => Client_CreateRun (sr_Client r) pipelineRun
  end.

Definition synchronizedSuccessfully (r : SyncReconciler) (key : ObjectKey)
  : M (option error) :=
  RetryOnConflict DefaultRetry_Steps DefaultRetry_Duration
    (got ← Client_GetPipeline (sr_Client r) key;
     match got with
     | Fail err => mret (Some err)
     | Ok pipelineToUpdate =>
         match map_lookup (Annotations (pl_ObjectMeta pipelineToUpdate))
                 PipelineRequestToSyncRunsAnnoKey with
         | None => mret None
         | Some _ =>
             (* remove the annotation *)
             let annotations :=
               delete PipelineRequestToSyncRunsAnnoKey
                 <$> Annotations (pl_ObjectMeta pipelineToUpdate) in
             (* update the Pipeline *)
             Client_UpdatePipeline (sr_Client r)
               (pl_set_Annotations annotations pipelineToUpdate)
         end
     end).

(** [prContainer]: the local runs by run identifier; a record without the
    annotation sits under the empty identifier. *)
Definition prContainer_of (items : list PipelineRun) : gmap string PipelineRun :=
  foldl (λ container pr,
           <[map_index (Annotations (pr_ObjectMeta pr)) JenkinsPipelineRunIDKey := pr]> container)
    ∅ items.

(** The loop of the synchronizer over the runs of Jenkins: a run that no
    local record carries is created; a failed creation is logged and
    skipped. *)
Fixpoint createMissingRuns (r : SyncReconciler) (pipeline : Pipeline)
    (prContainer : gmap string PipelineRun) (jenkinsRuns : list job_PipelineRun)
    (createdPipelineRuns : list PipelineRun) : M (list PipelineRun) :=
  match jenkinsRuns with
  | [] => mret createdPipelineRuns
  | jenkinsRun :: rest =>
      match prContainer !! run_ID jenkinsRun with
      | Some _ => createMissingRuns r pipeline prContainer rest createdPipelineRuns
      | None =>
          created ← createPipelineRun r pipeline jenkinsRun;
          match created with
          | Ok pipelineRun =>
              createMissingRuns r pipeline prContainer rest
                (createdPipelineRuns ++ [pipelineRun])
          | Fail _ => createMissingRuns r pipeline prContainer rest createdPipelineRuns
          end
      end
  end.

Definition SyncReconciler_Reconcile (r : SyncReconciler) (req : ObjectKey)
  : M (Result * option error) :=
  got ← Client_GetPipeline (sr_Client r) req;
  match got with
  | Fail err => mret (Result_zero, IgnoreNotFound (Some err))
  | Ok pipeline =>
      (* get all pipelineruns *)
      listed ← Client_ListRuns (sr_Client r) (Namespace (pl_ObjectMeta pipeline))
                 {[PipelineNameLabelKey := Name (pl_ObjectMeta pipeline)]};
      match listed with
      | Fail err => mret (Result_zero, Some err)
      | Ok items =>
          let prContainer := prContainer_of items in
          jenkinsRuns ← BlueOcean_GetPipelineRuns (sr_JenkinsCore r)
                          (Name (pl_ObjectMeta pipeline)) (Namespace (pl_ObjectMeta pipeline));
          match jenkinsRuns with
          | Fail err =>
              Eventf (pl_key pipeline) EventTypeWarning FailedPipelineRunSync "";;
              mret (Result_zero, Some err)
          | Ok jenkinsRuns =>
              createdPipelineRuns ← createMissingRuns r pipeline prContainer jenkinsRuns [];
              err ← synchronizedSuccessfully r req;
              match err with
              | Some e => mret (Result_zero, Some e)
              | None =>
                  Eventf (pl_key pipeline) EventTypeNormal PipelineRunSynced
                    ("Successfully synchronized "
                     +:+ pretty (length createdPipelineRuns)
                     +:+ " PipelineRuns(s). PipelineRuns/JenkinsRuns proportion is "
                     +:+ pretty (length items) +:+ "/" +:+ pretty (length jenkinsRuns));;
                  mret (Result_zero, None)
              end
          end
      end
  end.

End Controller.

(** ** Vocabulary of the statements *)

(** The kinds of calls. *)
Definition is_jenkins_call (c : Call) : bool :=
  match c with
  | CallBuild _ _ | CallGetBuild _ _ | CallGetNodes _ _
  | CallDeleteHistory _ _ _ | CallGetPipelineRuns _ _ _ => true
  | _ => false
  end.
Definition is_trigger_call (c : Call) : bool :=
  match c with CallBuild _ _ => true | _ => false end.
Definition is_metadata_write (c : Call) : bool :=
  match c with CallUpdateRun _ _ => true | _ => false end.
Definition is_status_write (c : Call) : bool :=
  match c with CallUpdateRunStatus _ _ => true | _ => false end.
Definition is_create (c : Call) : bool :=
  match c with CallCreateRun _ _ => true | _ => false end.
Definition is_sleep (c : Call) : bool :=
  match c with CallSleep _ => true | _ => false end.

(** A call that a collaborator answered with an error. *)
Definition call_failed (c : Call) : bool :=
  match c with
  | CallGetRun _ (Fail _) | CallGetPipeline _ (Fail _) | CallListRuns _ _ (Fail _)
  | CallCreateRun _ (Fail _) | CallUpdateRun _ (Some _) | CallUpdateRunStatus _ (Some _)
  | CallUpdatePipeline _ (Some _) | CallBuild _ (Fail _) | CallGetBuild _ (Fail _)
  | CallGetNodes _ (Fail _) | CallDeleteHistory _ _ (Some _)
  | CallGetPipelineRuns _ _ (Fail _) => true
  | _ => false
  end.


(** The store holds every record under the record's own key. *)
Definition store_wf (w : World) : Prop :=
  (∀ k pr, w_runs w !! k = Some pr → pr_key pr = k)
  ∧ (∀ k p, w_pipelines w !! k = Some p → pl_key p = k).

(** The external run identifier of a record, if the annotation is there. *)
Definition run_id (pr : PipelineRun) : option string :=
  map_lookup (Annotations (pr_ObjectMeta pr)) JenkinsPipelineRunIDKey.

(** The world has grown by calls of one kind. *)
Definition extends (P : Call → bool) (w w' : World) : Prop :=
  ∃ tr, w_trace w' = w_trace w ++ tr ∧ Forall (λ c, P c = true) tr.

(** The run records are what they were. *)
Definition same_runs (w w' : World) : Prop := w_runs w' = w_runs w.

(** The same records are there, each with the metadata and the spec it had. *)
Definition metadata_of (pr : PipelineRun) : ObjectMeta * PipelineRunSpec :=
  (pr_ObjectMeta pr, pr_Spec pr).
Definition same_metadata (w w' : World) : Prop :=
  ∀ k, metadata_of <$> (w_runs w' !! k) = metadata_of <$> (w_runs w !! k).

(** Every record that had an external run identifier still has that one. *)
Definition same_run_ids (w w' : World) : Prop :=
  ∀ k pr id, w_runs w !! k = Some pr → run_id pr = Some id →
    ∃ pr', w_runs w' !! k = Some pr' ∧ run_id pr' = Some id.

(** A computation keeps a relation when the world it leaves is related to
    the world it started from, whatever the outcome. *)
Definition keeps {A : Type} (R : relation World) (m : M A) : Prop :=
  ∀ w, R w (m w).2.

(** A computation that cannot panic. *)
Definition total {A : Type} (m : M A) : Prop :=
  ∀ w, ∃ a, (m w).1 = Done a.

(** ** Scenarios

    Concrete collaborators and records on which the procedures are run: the
    project [demo] with the single-branch pipeline [pipeline-a], a Jenkins
    server that numbers its builds from 7, and a store that is reliable or
    that refuses one request with a conflict. *)

Definition count_builds (tr : list Call) : nat :=
  length (List.filter is_trigger_call tr).

Definition demo_jenkins : JenkinsCore :=
  mkJenkinsCore
    (λ tr _, Ok (mkJobPipelineRun (pretty (7 + count_builds tr)%nat) AnyNil "" "QUEUED"))
    (λ _ o, Ok (mkJobPipelineRun (gb_RunID o) AnyNil "UNKNOWN" "RUNNING"))
    (λ _ _, Ok [mkJobNode "1" "build" "UNKNOWN" "RUNNING"])
    (λ _ _ _, Some (errors_New "unexpected status code: 404, not found resources"))
    (λ _ _ _, Ok [mkJobPipelineRun "5" AnyNil "SUCCESS" "FINISHED";
                  mkJobPipelineRun "6" AnyNil "FAILURE" "FINISHED";
                  mkJobPipelineRun "7" AnyNil "UNKNOWN" "RUNNING"]).

Definition demo_helpers : Helpers :=
  mkHelpers
    (λ pr, Time_IsZero (CompletionTime (pr_Status pr)))
    (map (λ p, mkJobParameter (param_Name p) (param_Value p)))
    (λ now run status,
       status_set_Phase
         (if String.eqb (run_State run) "FINISHED" then "Succeeded" else Running)
         (status_set_UpdateTime (Some now) status))
    (λ run, Ok (run_ID run +:+ ":" +:+ run_State run))
    (λ nodes, Ok (pretty (length nodes))).

(** A store that answers every request. *)
Definition reliable : Client := mkClient (λ _, None).

(** A store that refuses the request made after [n] calls with a conflict. *)
Definition conflict_after (n : nat) : Client :=
  mkClient (λ tr, if decide (length tr = n)
                  then Some (mkError StatusReasonConflict
                               "the object has been modified; please apply your changes to the latest version and try again")
                  else None).

Definition demo_reconciler : Reconciler := mkReconciler reliable demo_jenkins.

Definition pipeline_a : Pipeline :=
  mkPipeline (mkTypeMeta "Pipeline" "devops.kubesphere.io/v1alpha3")
    (mkObjectMeta "pipeline-a" "" "demo" "uid-pipeline-a" None
       (Some {[PipelineRequestToSyncRunsAnnoKey := "true"]}) [] [] None)
    (mkPipelineSpec NoScmPipelineType "").

(** A run of [demo/pipeline-a] that has not been triggered yet. *)
Definition run_1 : PipelineRun :=
  mkPipelineRun
    (mkObjectMeta "run-1" "" "demo" "uid-run-1" None None [] [] None)
    (mkPipelineRunSpec (Some (mkObjectReference "Pipeline" "pipeline-a" "demo"))
       (Some (pl_Spec pipeline_a)) [] None)
    (mkPipelineRunStatus None None None [] "").

Definition demo_world : World :=
  mkWorld {[("demo", "run-1") := run_1]} {[("demo", "pipeline-a") := pipeline_a]} 1000 0 [].

(** The same project after the pipeline definition has been removed. *)
Definition world_without_pipeline : World :=
  mkWorld {[("demo", "run-1") := run_1]} ∅ 1000 0 [].

(** A multi-branch pipeline and a run of it that names no branch. *)
Definition pipeline_mb : Pipeline :=
  mkPipeline (mkTypeMeta "Pipeline" "devops.kubesphere.io/v1alpha3")
    (mkObjectMeta "pipeline-mb" "" "demo" "uid-pipeline-mb" None None [] [] None)
    (mkPipelineSpec MultiBranchPipelineType "").

Definition run_mb : PipelineRun :=
  mkPipelineRun
    (mkObjectMeta "run-mb" "" "demo" "uid-run-mb" None None [] [] None)
    (mkPipelineRunSpec (Some (mkObjectReference "Pipeline" "pipeline-mb" "demo"))
       (Some (pl_Spec pipeline_mb)) [] None)
    (mkPipelineRunStatus None None None [] "").

Definition world_multibranch : World :=
  mkWorld {[("demo", "run-mb") := run_mb]} {[("demo", "pipeline-mb") := pipeline_mb]}
    1000 0 [].

(** A run of [demo/pipeline-a] with the build 7 behind it, that is being
    deleted. *)
Definition run_deleting : PipelineRun :=
  mkPipelineRun
    (mkObjectMeta "run-7" "" "demo" "uid-run-7"
       (Some {[PipelineNameLabelKey := "pipeline-a"]})
       (Some {[JenkinsPipelineRunIDKey := "7"]}) []
       [PipelineRunFinalizerName] (Some 900))
    (mkPipelineRunSpec (Some (mkObjectReference "Pipeline" "pipeline-a" "demo"))
       (Some (pl_Spec pipeline_a)) [] None)
    (mkPipelineRunStatus (Some 500) None (Some 600) [] Running).

Definition world_deleting : World :=
  mkWorld {[("demo", "run-7") := run_deleting]} {[("demo", "pipeline-a") := pipeline_a]}
    1000 0 [].

(** A run without a pipeline reference. *)
Definition run_orphan : PipelineRun :=
  mkPipelineRun
    (mkObjectMeta "run-x" "" "demo" "uid-run-x" None None [] [] None)
    (mkPipelineRunSpec None None [] None)
    (mkPipelineRunStatus None None None [] "").

Definition world_orphan : World :=
  mkWorld {[("demo", "run-x") := run_orphan]} ∅ 1000 0 [].

(** The build 7 of [demo/pipeline-a] has its record; the builds 5 and 6,
    started on the Jenkins side, have none. *)
Definition run_7 : PipelineRun :=
  mkPipelineRun
    (mkObjectMeta "run-7" "" "demo" "uid-run-7"
       (Some {[PipelineNameLabelKey := "pipeline-a"]})
       (Some {[JenkinsPipelineRunIDKey := "7"]}) []
       [PipelineRunFinalizerName] None)
    (mkPipelineRunSpec (Some (mkObjectReference "Pipeline" "pipeline-a" "demo"))
       (Some (pl_Spec pipeline_a)) [] None)
    (mkPipelineRunStatus (Some 500) None (Some 600) [] Running).

Definition world_sync : World :=
  mkWorld {[("demo", "run-7") := run_7]} {[("demo", "pipeline-a") := pipeline_a]} 1000 0 [].

Definition demo_synchronizer : SyncReconciler := mkSyncReconciler reliable demo_jenkins.

(** * Properties *)

(** ** Running computations *)

Lemma mbind_run {A B : Type} (m : M A) (f : A → M B) (w : World) :
  (m ≫= f) w = match m w with
               | (Done a, w1) => f a w1
               | (Panicked, w1) => (Panicked, w1)
               end.
Proof. reflexivity. Qed.

Lemma new_calls_app (w w' : World) (tr : list Call) :
  w_trace w' = w_trace w ++ tr → new_calls w w' = tr.
Proof. intros E. unfold new_calls. rewrite E. apply drop_app_length. Qed.

#[global] Instance extends_preorder (P : Call → bool) : PreOrder (extends P).
Proof.
  split.
  - intros w. exists []. split; [by rewrite app_nil_r | constructor].
  - intros w1 w2 w3 (tr1 & E1 & F1) (tr2 & E2 & F2). exists (tr1 ++ tr2). split.
    + by rewrite E2, E1, app_assoc.
    + by apply Forall_app.
Qed.

#[global] Instance same_runs_preorder : PreOrder same_runs.
Proof.
  split; [by intros w | intros w1 w2 w3 E1 E2]. unfold same_runs in *. congruence.
Qed.

#[global] Instance same_metadata_preorder : PreOrder same_metadata.
Proof.
  split; [by intros w k | intros w1 w2 w3 H1 H2 k]. by rewrite H2, H1.
Qed.

Lemma same_metadata_lookup (w w' : World) (k : ObjectKey) (pr : PipelineRun) :
  same_metadata w w' → w_runs w !! k = Some pr →
  ∃ pr', w_runs w' !! k = Some pr'
         ∧ pr_ObjectMeta pr' = pr_ObjectMeta pr ∧ pr_Spec pr' = pr_Spec pr.
Proof.
  intros H E. specialize (H k). rewrite E in H.
  destruct (w_runs w' !! k) as [pr'|]; [| done]. exists pr'.
  injection H as H1 H2. by rewrite H1, H2.
Qed.

Lemma same_metadata_lookup_inv (w w' : World) (k : ObjectKey) (pr' : PipelineRun) :
  same_metadata w w' → w_runs w' !! k = Some pr' →
  ∃ pr, w_runs w !! k = Some pr
        ∧ pr_ObjectMeta pr' = pr_ObjectMeta pr ∧ pr_Spec pr' = pr_Spec pr.
Proof.
  intros H E. specialize (H k). rewrite E in H.
  destruct (w_runs w !! k) as [pr|]; [| done]. exists pr.
  injection H as H1 H2. by rewrite H1, H2.
Qed.

#[global] Instance same_run_ids_preorder : PreOrder same_run_ids.
Proof.
  split.
  - intros w k pr id E Hid. by exists pr.
  - intros w1 w2 w3 H1 H2 k pr id E Hid.
    destruct (H1 k pr id E Hid) as (pr2 & E2 & Hid2). by apply (H2 k pr2 id).
Qed.

Lemma same_runs_metadata (w w' : World) : same_runs w w' → same_metadata w w'.
Proof. intros E k. unfold same_runs in E. by rewrite E. Qed.

Lemma same_metadata_run_ids (w w' : World) : same_metadata w w' → same_run_ids w w'.
Proof.
  intros H k pr id E Hid. destruct (same_metadata_lookup _ _ _ _ H E) as (pr' & E' & Em & _).
  exists pr'. split; [done |]. unfold run_id in *. by rewrite Em.
Qed.

Section Keeps.
Context (R : relation World) `{!PreOrder R}.

Lemma keeps_ret {A : Type} (a : A) : keeps R (mret a).
Proof. intros w. simpl. reflexivity. Qed.

Lemma keeps_panic {A : Type} : keeps R (@panic A).
Proof. intros w. simpl. reflexivity. Qed.

Lemma keeps_bind {A B : Type} (m : M A) (f : A → M B) :
  keeps R m → (∀ a, keeps R (f a)) → keeps R (m ≫= f).
Proof.
  intros Hm Hf w. rewrite mbind_run. specialize (Hm w).
  destruct (m w) as [[a|] w1]; simpl in *; [| done].
  etrans; [exact Hm | apply Hf].
Qed.

Lemma keeps_retry (n : nat) (d : Duration) (fn : M (option error)) :
  keeps R (time_Sleep d) → keeps R fn → keeps R (RetryOnConflict n d fn).
Proof.
  intros Hs Hfn. induction n as [|n IH]; simpl; [apply keeps_ret |].
  apply keeps_bind; [done |]. intros [e|]; [| apply keeps_ret].
  destruct (IsConflict e); [| apply keeps_ret].
  destruct n; [apply keeps_ret |]. apply keeps_bind; [done | intros _; exact IH].
Qed.
End Keeps.

Lemma keeps_weaken {A : Type} (R R' : relation World) (m : M A) :
  (∀ w w', R w w' → R' w w') → keeps R m → keeps R' m.
Proof. intros HR Hm w. apply HR, Hm. Qed.

Lemma total_ret {A : Type} (a : A) : total (mret a).
Proof. intros w. by exists a. Qed.

Lemma total_bind {A B : Type} (m : M A) (f : A → M B) :
  total m → (∀ a, total (f a)) → total (m ≫= f).
Proof.
  intros Hm Hf w. rewrite mbind_run. destruct (Hm w) as (a & Ea).
  destruct (m w) as [o w1]. simpl in Ea. subst o. apply Hf.
Qed.

Lemma total_retry (n : nat) (d : Duration) (fn : M (option error)) :
  total fn → total (RetryOnConflict n d fn).
Proof.
  intros Hfn. induction n as [|n IH]; simpl; [apply total_ret |].
  apply total_bind; [done |]. intros [e|]; [| apply total_ret].
  destruct (IsConflict e); [| apply total_ret].
  destruct n; [apply total_ret |]. apply total_bind; [| intros _; exact IH].
  intros w. by exists tt.
Qed.

(** ** The primitive calls *)

Lemma extends_record (P : Call → bool) (c : Call) (w w' : World) :
  P c = true → w_trace w' = w_trace w → extends P w (record_call c w').
Proof.
  intros Hc E. exists [c]. simpl. rewrite E. split; [done |]. by constructor.
Qed.

Lemma extends_silent (P : Call → bool) (w w' : World) :
  w_trace w' = w_trace w → extends P w w'.
Proof. intros E. exists []. rewrite E, app_nil_r. split; [done | constructor]. Qed.

Section Primitives.
Context (P : Call → bool).

Lemma time_Now_extends : keeps (extends P) time_Now.
Proof. intros w. by apply extends_silent. Qed.

Lemma time_Sleep_extends d : P (CallSleep d) = true → keeps (extends P) (time_Sleep d).
Proof. intros H w. by apply extends_record. Qed.

Lemma Eventf_extends object eventtype reason message :
  P (CallEvent object eventtype reason message) = true →
  keeps (extends P) (Eventf object eventtype reason message).
Proof. intros H w. by apply extends_record. Qed.

Lemma Client_GetRun_extends c key :
  (∀ a, P (CallGetRun key a) = true) → keeps (extends P) (Client_GetRun c key).
Proof. intros H w. by apply extends_record. Qed.

Lemma Client_GetPipeline_extends c key :
  (∀ a, P (CallGetPipeline key a) = true) → keeps (extends P) (Client_GetPipeline c key).
Proof. intros H w. by apply extends_record. Qed.

Lemma Client_ListRuns_extends c ns sel :
  (∀ a, P (CallListRuns ns sel a) = true) → keeps (extends P) (Client_ListRuns c ns sel).
Proof. intros H w. by apply extends_record. Qed.

Lemma Client_CreateRun_extends c pr :
  (∀ a, P (CallCreateRun pr a) = true) → keeps (extends P) (Client_CreateRun c pr).
Proof.
  intros H w. unfold Client_CreateRun.
  destruct (api_fault c (w_trace w)); [by apply extends_record |].
  repeat case_match; by apply extends_record.
Qed.

Lemma Client_UpdateRun_extends c pr :
  (∀ a, P (CallUpdateRun pr a) = true) → keeps (extends P) (Client_UpdateRun c pr).
Proof.
  intros H w. unfold Client_UpdateRun. repeat case_match; simplify_eq;
    by apply extends_record.
Qed.

Lemma Client_StatusUpdateRun_extends c pr :
  (∀ a, P (CallUpdateRunStatus pr a) = true) →
  keeps (extends P) (Client_StatusUpdateRun c pr).
Proof.
  intros H w. unfold Client_StatusUpdateRun. repeat case_match; simplify_eq;
    by apply extends_record.
Qed.

Lemma Client_UpdatePipeline_extends c p :
  (∀ a, P (CallUpdatePipeline p a) = true) → keeps (extends P) (Client_UpdatePipeline c p).
Proof.
  intros H w. unfold Client_UpdatePipeline. repeat case_match; simplify_eq;
    by apply extends_record.
Qed.

Lemma BlueOcean_Build_extends jc o :
  (∀ a, P (CallBuild o a) = true) → keeps (extends P) (BlueOcean_Build jc o).
Proof. intros H w. by apply extends_record. Qed.

Lemma BlueOcean_GetBuild_extends jc o :
  (∀ a, P (CallGetBuild o a) = true) → keeps (extends P) (BlueOcean_GetBuild jc o).
Proof. intros H w. by apply extends_record. Qed.

Lemma BlueOcean_GetNodes_extends jc o :
  (∀ a, P (CallGetNodes o a) = true) → keeps (extends P) (BlueOcean_GetNodes jc o).
Proof. intros H w. by apply extends_record. Qed.

Lemma BlueOcean_GetPipelineRuns_extends jc name ns :
  (∀ a, P (CallGetPipelineRuns name ns a) = true) →
  keeps (extends P) (BlueOcean_GetPipelineRuns jc name ns).
Proof. intros H w. by apply extends_record. Qed.

Lemma job_DeleteHistory_extends jc jobName buildNum :
  (∀ a, P (CallDeleteHistory jobName buildNum a) = true) →
  keeps (extends P) (job_DeleteHistory jc jobName buildNum).
Proof. intros H w. by apply extends_record. Qed.
End Primitives.

Create HintDb calls discriminated.
#[global] Hint Resolve time_Now_extends time_Sleep_extends Eventf_extends
  Client_GetRun_extends Client_GetPipeline_extends Client_ListRuns_extends
  Client_CreateRun_extends Client_UpdateRun_extends Client_StatusUpdateRun_extends
  Client_UpdatePipeline_extends BlueOcean_Build_extends BlueOcean_GetBuild_extends
  BlueOcean_GetNodes_extends BlueOcean_GetPipelineRuns_extends job_DeleteHistory_extends
  : calls.

(** ** Which calls each procedure makes *)

Definition is_deleting_call (c : Call) : bool :=
  match c with CallDeleteHistory _ _ _ | CallUpdateRun _ _ => true | _ => false end.
Definition is_metadata_io (c : Call) : bool :=
  match c with CallGetRun _ _ | CallUpdateRun _ _ => true | _ => false end.
Definition is_status_io (c : Call) : bool :=
  match c with CallGetRun _ _ | CallUpdateRunStatus _ _ | CallSleep _ => true | _ => false end.

Lemma extends_mono (P Q : Call → bool) (w w' : World) :
  (∀ c, P c = true → Q c = true) → extends P w w' → extends Q w w'.
Proof.
  intros HPQ (tr & E & F). exists tr. split; [done |].
  eapply Forall_impl; [exact F | done].
Qed.

Ltac calls_prim :=
  first [ apply time_Now_extends
        | apply time_Sleep_extends | apply Eventf_extends
        | apply Client_GetRun_extends | apply Client_GetPipeline_extends
        | apply Client_ListRuns_extends | apply Client_CreateRun_extends
        | apply Client_UpdateRun_extends | apply Client_StatusUpdateRun_extends
        | apply Client_UpdatePipeline_extends | apply BlueOcean_Build_extends
        | apply BlueOcean_GetBuild_extends | apply BlueOcean_GetNodes_extends
        | apply BlueOcean_GetPipelineRuns_extends | apply job_DeleteHistory_extends ];
  intros; repeat case_match; reflexivity.

Ltac calls_step :=
  first [ apply keeps_ret; tc_solve
        | apply keeps_panic; tc_solve
        | apply keeps_bind; [tc_solve | | intros ?]
        | apply keeps_retry; [tc_solve | |]
        | calls_prim
        | case_match ].

Ltac calls := repeat calls_step.

Section ControllerCalls.
Variable hp : Helpers.

Lemma updateLabelsAndAnnotations_calls r pr :
  keeps (extends is_metadata_io) (updateLabelsAndAnnotations r pr).
Proof. unfold updateLabelsAndAnnotations. calls. Qed.

Lemma updateStatus_calls r st key :
  keeps (extends is_status_io) (updateStatus r st key).
Proof. unfold updateStatus. calls. Qed.
End ControllerCalls.

(** ** Metadata is written before status *)

Definition no_status_write (c : Call) : bool := negb (is_status_write c).
Definition no_metadata_write (c : Call) : bool := negb (is_metadata_write c).

(** The calls fall into a first part without status writes and a second
    part without metadata writes. *)
Definition phased (w w' : World) : Prop :=
  ∃ tr1 tr2, w_trace w' = w_trace w ++ tr1 ++ tr2
             ∧ Forall (λ c, no_status_write c = true) tr1
             ∧ Forall (λ c, no_metadata_write c = true) tr2.




Lemma phased_before (w w1 w2 : World) :
  phased w w1 → extends no_metadata_write w1 w2 → phased w w2.
Proof.
  intros (tr1 & tr2 & E & F1 & F2) (tr & E' & F). exists tr1, (tr2 ++ tr).
  split; [by rewrite E', E, !app_assoc | split; [done | by apply Forall_app]].
Qed.





Lemma keeps_extends_mono {A : Type} (P Q : Call → bool) (m : M A) :
  (∀ c, P c = true → Q c = true) → keeps (extends P) m → keeps (extends Q) m.
Proof. intros HPQ Hm w. eapply extends_mono; [exact HPQ | apply Hm]. Qed.

Ltac calls_via lem :=
  eapply keeps_extends_mono; [ | apply lem ];
  let c := fresh "c" in intros c; destruct c; cbv; intros; congruence.

Section Ordering.
Variable hp : Helpers.

Lemma deleteJenkinsJobHistory_calls r pr :
  keeps (extends is_deleting_call) (deleteJenkinsJobHistory r pr).
Proof. unfold deleteJenkinsJobHistory. calls. Qed.










End Ordering.

(** ** The branch of a remote run *)

Lemma any_map_index_absent (m : list (string * any)) (key : string) :
  (∀ v, (key, v) ∉ m) → any_map_index m key = AnyNil.
Proof.
  induction m as [|[k v] m IH]; intros Habs; simpl; [done |].
  destruct (String.eqb_spec k key) as [->|Hne].
  - exfalso. apply (Habs v). left.
  - apply IH. intros v' Hin. apply (Habs v'). by right.
Qed.

(** C10. The construction of a bare run record is not total in the branch of
    the remote run: a branch that is neither nil nor a string-keyed map
    makes it panic (a string is such a value), and a map without the key
    "url" is not rejected: on a multi-branch pipeline the record is built
    with the reference name "<nil>". *)
Theorem createBarePipelineRun_branch_unchecked :
  (∀ pipeline run,
     match run_Branch run with AnyNil | AnyMap _ => False | _ => True end →
     createBarePipelineRun pipeline run = Panicked)
  ∧ (∃ pipeline run,
       run_Branch run ≠ AnyNil ∧ createBarePipelineRun pipeline run = Panicked)
  ∧ (∀ pipeline run m,
       run_Branch run = AnyMap m →
       (∀ v, ("url", v) ∉ m) →
       Type_ (pl_Spec pipeline) = MultiBranchPipelineType →
       ∃ pr, createBarePipelineRun pipeline run = Done (Ok pr)
             ∧ SCM_ (pr_Spec pr) = Some (mkSCM "<nil>" "")
             ∧ run_id pr = Some (run_ID run)).
Proof.
  split; [| split].
  - intros pipeline run Hb. unfold createBarePipelineRun.
    by destruct (run_Branch run).
  - exists (mkPipeline (mkTypeMeta "Pipeline" "devops.kubesphere.io/v1alpha3")
              (mkObjectMeta "pipeline-a" "" "demo" "" None None [] [] None)
              (mkPipelineSpec NoScmPipelineType "")),
           (mkJobPipelineRun "7" (AnyString "main") "" "").
    split; [done | reflexivity].
  - intros pipeline run m Hb Habs Hty. unfold createBarePipelineRun.
    rewrite Hb, (any_map_index_absent _ _ Habs). simpl.
    unfold CreateScm. rewrite Hty. simpl.
    eexists. split; [reflexivity |]. split; [reflexivity |].
    unfold run_id. simpl. apply lookup_insert_eq.
Qed.

(** ** The paths of a pass *)

(** The calls of the arms of [Reconcile]. *)
Definition is_store_io (c : Call) : bool := is_metadata_io c || is_status_io c.
Definition is_polling_call (c : Call) : bool :=
  match c with
  | CallGetBuild _ _ | CallGetNodes _ _ | CallEvent _ _ _ _ => true
  | _ => is_store_io c
  end.
Definition is_first_run_call (c : Call) : bool :=
  match c with
  | CallBuild _ _ | CallEvent _ _ _ _ => true
  | _ => is_store_io c
  end.

Lemma mret_run {A : Type} (a : A) (w : World) : (mret a : M A) w = (Done a, w).
Proof. reflexivity. Qed.

Lemma Client_GetRun_run (c : Client) (key : ObjectKey) (w : World) :
  ∃ got, Client_GetRun c key w = (Done got, record_call (CallGetRun key got) w)
         ∧ (∀ pr, got = Ok pr → w_runs w !! key = Some pr).
Proof.
  unfold Client_GetRun. eexists. split; [reflexivity |].
  intros pr. destruct (api_fault c (w_trace w)); [done |].
  destruct (w_runs w !! key); [congruence | done].
Qed.

Lemma Client_GetPipeline_run (c : Client) (key : ObjectKey) (w : World) :
  ∃ got, Client_GetPipeline c key w = (Done got, record_call (CallGetPipeline key got) w)
         ∧ (∀ p, got = Ok p → w_pipelines w !! key = Some p).
Proof.
  unfold Client_GetPipeline. eexists. split; [reflexivity |].
  intros p. destruct (api_fault c (w_trace w)); [done |].
  destruct (w_pipelines w !! key); [congruence | done].
Qed.

(** What a computation has appended to the trace. *)
Lemma extends_new_calls (P : Call → bool) (w w' : World) :
  extends P w w' →
  w_trace w' = w_trace w ++ new_calls w w' ∧ Forall (λ c, P c = true) (new_calls w w').
Proof. intros (tr & E & F). by rewrite (new_calls_app _ _ _ E). Qed.

Lemma new_calls_trans (w w1 w2 : World) (tr1 tr2 : list Call) :
  w_trace w1 = w_trace w ++ tr1 → w_trace w2 = w_trace w1 ++ tr2 →
  new_calls w w2 = tr1 ++ tr2.
Proof. intros E1 E2. apply new_calls_app. by rewrite E2, E1, app_assoc. Qed.

Definition is_building_call (c : Call) : bool :=
  match c with
  | CallGetPipeline _ _ => true
  | _ => is_polling_call c || is_first_run_call c
  end.

Lemma new_calls_record (c : Call) (w : World) : new_calls w (record_call c w) = [c].
Proof. by apply new_calls_app. Qed.

Lemma new_calls_split (P Q : Call → bool) (w w1 w2 : World) :
  extends P w w1 → extends Q w1 w2 →
  new_calls w w2 = new_calls w w1 ++ new_calls w1 w2.
Proof.
  intros (tr1 & E1 & _) (tr2 & E2 & _).
  rewrite (new_calls_app _ _ _ E1), (new_calls_app _ _ _ E2).
  by apply (new_calls_trans w w1).
Qed.

Lemma new_calls_after_record (P : Call → bool) (c : Call) (w w' : World) :
  extends P (record_call c w) w' →
  new_calls w w' = c :: new_calls (record_call c w) w'.
Proof.
  intros H.
  rewrite (new_calls_split (λ _, true) P w (record_call c w) w'); [| | done].
  - by rewrite new_calls_record.
  - by apply extends_record.
Qed.

Lemma extends_kind (P : Call → bool) (w w' : World) (c : Call) :
  extends P w w' → c ∈ new_calls w w' → P c = true.
Proof.
  intros H Hin. apply extends_new_calls in H as [_ F].
  rewrite Forall_forall in F. by apply F.
Qed.

Lemma keeps_then_ret {A B : Type} (R : relation World) `{!PreOrder R}
    (m : M A) (f : A → B) :
  keeps R m → keeps R (a ← m; mret (f a)).
Proof. intros Hm. apply keeps_bind; [done | done | intros a; by apply keeps_ret]. Qed.

(** A call is not among finitely many other calls. *)
Ltac not_among H :=
  repeat (apply elem_of_cons in H as [H|H]; [discriminate H |]);
  by apply elem_of_nil in H.


Section Paths.
Variable hp : Helpers.

Lemma makePipelineRunOrphan_calls r pr :
  keeps (extends is_store_io) (makePipelineRunOrphan r pr).
Proof.
  unfold makePipelineRunOrphan.
  repeat first [ calls_via updateStatus_calls
               | calls_via updateLabelsAndAnnotations_calls | calls_step ].
Qed.

Lemma Reconcile_started_calls r req ns name pr :
  keeps (extends is_polling_call) (Reconcile_started hp r req ns name pr).
Proof.
  unfold Reconcile_started, getPipelineRunResult, getPipelineNodes.
  repeat first [ calls_via updateStatus_calls
               | calls_via updateLabelsAndAnnotations_calls | calls_step ].
Qed.

Lemma Reconcile_firstRun_calls r req ns name pr :
  keeps (extends is_first_run_call) (Reconcile_firstRun hp r req ns name pr).
Proof.
  unfold Reconcile_firstRun, triggerJenkinsJob.
  repeat first [ calls_via updateStatus_calls
               | calls_via updateLabelsAndAnnotations_calls | calls_step ].
Qed.

Lemma Reconcile_deleting_calls r pr :
  keeps (extends is_deleting_call) (Reconcile_deleting r pr).
Proof.
  unfold Reconcile_deleting.
  repeat first [ calls_via deleteJenkinsJobHistory_calls | calls_step ].
Qed.

Lemma orphan_calls r pr :
  keeps (extends is_store_io) (err ← makePipelineRunOrphan r pr; mret (Result_zero, err)).
Proof. apply keeps_then_ret; [tc_solve | apply makePipelineRunOrphan_calls]. Qed.

Lemma Reconcile_building_calls r req pr :
  keeps (extends is_building_call) (Reconcile_building hp r req pr).
Proof.
  unfold Reconcile_building.
  repeat first [ calls_via orphan_calls
               | calls_via Reconcile_started_calls
               | calls_via Reconcile_firstRun_calls
               | calls_step ].
Qed.

(** What a pass does once the record has been read. *)
Definition Reconcile_after_read (r : Reconciler) (req : ObjectKey) (got : result PipelineRun)
  : M (Result * option error) :=
  match got with
  | Fail e => mret (Result_zero, IgnoreNotFound (Some e))
  | Ok pr =>
      if Time_IsZero (DeletionTimestamp (pr_ObjectMeta pr))
      then Reconcile_building hp r req pr
      else Reconcile_deleting r pr
  end.

Lemma Reconcile_after_read_calls r req got :
  keeps (extends (λ _, true)) (Reconcile_after_read r req got).
Proof.
  unfold Reconcile_after_read.
  repeat first [ calls_via Reconcile_building_calls
               | calls_via Reconcile_deleting_calls | calls_step ].
Qed.

(** A pass reads the record and goes on with the arm for a record that is
    being deleted or with the arm for one that is not; its calls are the
    read, then those of the arm. *)
Lemma Reconcile_run r req w :
  ∃ got,
    (∀ pr, got = Ok pr → w_runs w !! req = Some pr)
    ∧ Reconcile hp r req w
      = Reconcile_after_read r req got (record_call (CallGetRun req got) w)
    ∧ new_calls w (Reconcile hp r req w).2
      = CallGetRun req got
        :: new_calls (record_call (CallGetRun req got) w)
             (Reconcile_after_read r req got (record_call (CallGetRun req got) w)).2.
Proof.
  assert (∃ got,
    (∀ pr, got = Ok pr → w_runs w !! req = Some pr)
    ∧ Reconcile hp r req w
      = Reconcile_after_read r req got (record_call (CallGetRun req got) w))
    as (got & Hgot & E).
  { unfold Reconcile. rewrite mbind_run.
    destruct (Client_GetRun_run (r_Client r) req w) as (got & -> & Hgot).
    exists got. split; [done |]. destruct got as [pr|e]; [| done].
    unfold Reconcile_after_read. by destruct (Time_IsZero _). }
  exists got. split; [done |]. split; [done |]. rewrite E.
  eapply new_calls_after_record, Reconcile_after_read_calls.
Qed.
End Paths.

Lemma new_calls_refl (w : World) : new_calls w w = [].
Proof. apply new_calls_app. by rewrite app_nil_r. Qed.

(** ** The referenced pipeline cannot be read *)

Section PipelineNotFound.
Variable hp : Helpers.

Lemma Reconcile_building_pipeline_read_failed r req pr key w e :
  CallGetPipeline key (Fail e) ∈ new_calls w (Reconcile_building hp r req pr w).2 →
  (Reconcile_building hp r req pr w).1
  = Done (Result_zero, if IsNotFound e then None else Some e).
Proof.
  unfold Reconcile_building.
  destruct (negb (Buildable hp pr)).
  { rewrite mret_run. simpl. rewrite new_calls_refl. intros Hin. not_among Hin. }
  assert (CallGetPipeline key (Fail e)
            ∈ new_calls w ((err ← makePipelineRunOrphan r pr; mret (Result_zero, err)) w).2
          → False) as Horphan.
  { intros Hin. by apply (extends_kind _ _ _ _ (orphan_calls r pr w)) in Hin. }
  destruct (PipelineRef (pr_Spec pr)) as [ref|]; [| by intros ?%Horphan].
  destruct (String.eqb (ref_Name ref) ""); [by intros ?%Horphan |].
  clear Horphan. rewrite mbind_run.
  destruct (Client_GetPipeline_run (r_Client r)
              (Namespace (pr_ObjectMeta pr), ref_Name ref) w) as (gotp & -> & _).
  destruct gotp as [pipeline|e1].
  - cbv zeta. intros Hin. exfalso. destruct (HasStarted _).
    + erewrite new_calls_after_record in Hin by apply Reconcile_started_calls.
      apply elem_of_cons in Hin as [Hin|Hin]; [discriminate Hin |].
      by apply (extends_kind _ _ _ _ (Reconcile_started_calls _ _ _ _ _ _ _)) in Hin.
    + erewrite new_calls_after_record in Hin by apply Reconcile_firstRun_calls.
      apply elem_of_cons in Hin as [Hin|Hin]; [discriminate Hin |].
      by apply (extends_kind _ _ _ _ (Reconcile_firstRun_calls _ _ _ _ _ _ _)) in Hin.
  - rewrite mret_run. simpl. rewrite new_calls_record. intros Hin.
    apply list_elem_of_singleton in Hin. by simplify_eq.
Qed.

(** C9, as the code has it.  When the read of the referenced pipeline
    definition fails, the pass ends there with no requeue: a not-found
    answer is swallowed and the pass returns success; any other error is
    returned. *)
Theorem Reconcile_pipeline_read_failed (r : Reconciler) (req key : ObjectKey)
    (w : World) (e : error) :
  CallGetPipeline key (Fail e) ∈ new_calls w (Reconcile hp r req w).2 →
  (Reconcile hp r req w).1
  = Done (Result_zero, if IsNotFound e then None else Some e).
Proof.
  destruct (Reconcile_run hp r req w) as (got & _ & -> & ->).
  intros Hin. apply elem_of_cons in Hin as [Hin|Hin]; [discriminate Hin |].
  revert Hin. unfold Reconcile_after_read. destruct got as [pr|e0].
  - destruct (Time_IsZero _).
    + apply Reconcile_building_pipeline_read_failed.
    + intros Hin.
      by apply (extends_kind _ _ _ _ (Reconcile_deleting_calls r pr _)) in Hin.
  - rewrite mret_run. simpl. rewrite new_calls_refl. intros Hin. not_among Hin.
Qed.
End PipelineNotFound.

(** C9, as stated, fails: the run [run-1] refers to a pipeline that the store
    does not hold; the pass reads the record, gets a not-found answer for
    the pipeline and returns success. *)
Lemma Reconcile_pipeline_not_found_is_success :
  let out := Reconcile demo_helpers demo_reconciler ("demo", "run-1") world_without_pipeline in
  w_pipelines world_without_pipeline !! ("demo", "pipeline-a") = None
  ∧ new_calls world_without_pipeline out.2
    = [CallGetRun ("demo", "run-1") (Ok run_1);
       CallGetPipeline ("demo", "pipeline-a")
         (Fail (NewNotFound "pipelines" ("demo", "pipeline-a")))]
  ∧ out.1 = Done (Result_zero, None).
Proof. vm_compute. done. Qed.

Lemma Reconcile_pipeline_read_failed_witness :
  (Reconcile demo_helpers demo_reconciler ("demo", "run-1") world_without_pipeline).1
  = Done (Result_zero, None).
Proof.
  apply (Reconcile_pipeline_read_failed demo_helpers demo_reconciler ("demo", "run-1")
           ("demo", "pipeline-a") world_without_pipeline
           (NewNotFound "pipelines" ("demo", "pipeline-a"))).
  apply (list_elem_of_lookup_2 _ 1%nat). vm_compute. reflexivity.
Defined.

(** ** A multi-branch run without a source-control reference *)

Definition scmRefNameError : error :=
  errors_New "failed to obtain SCM reference name for multi-branch Pipeline".

Lemma getSCMRefName_missing (prSpec : PipelineRunSpec) :
  IsMultiBranchPipeline prSpec = true →
  (∀ scm, SCM_ prSpec = Some scm → RefName scm = "") →
  getSCMRefName prSpec = Fail scmRefNameError.
Proof.
  intros Hmb Hscm. unfold getSCMRefName. rewrite Hmb.
  destruct (SCM_ prSpec) as [scm|]; [| done]. by rewrite (Hscm scm eq_refl).
Qed.

Section MultiBranch.
Variable hp : Helpers.

Lemma Reconcile_started_without_ref r req ns name pr w :
  HasStarted pr = true →
  getSCMRefName (pr_Spec pr) = Fail scmRefNameError →
  Reconcile_started hp r req ns name pr w
  = (Done (Result_zero, Some scmRefNameError),
     record_call
       (CallEvent (pr_key pr) EventTypeWarning RetrieveFailed
          ("Failed to retrieve running data from Jenkins, and error was "
           +:+ err_msg scmRefNameError)) w).
Proof.
  intros Hst Hscm. unfold Reconcile_started, getPipelineRunResult.
  unfold HasStarted in Hst. destruct (GetPipelineRunID pr) as [runID exists_].
  simpl in Hst. subst exists_. rewrite Hscm. reflexivity.
Qed.

Lemma Reconcile_firstRun_without_ref r req ns name pr w :
  getSCMRefName (pr_Spec pr) = Fail scmRefNameError →
  Reconcile_firstRun hp r req ns name pr w
  = (Done (Result_zero, Some scmRefNameError),
     record_call
       (CallEvent (pr_key pr) EventTypeWarning TriggerFailed
          ("Failed to trigger PipelineRun " +:+ NamespacedName_String req
           +:+ ", and error was " +:+ err_msg scmRefNameError)) w).
Proof.
  intros Hscm. unfold Reconcile_firstRun, triggerJenkinsJob. rewrite Hscm. reflexivity.
Qed.

Lemma Reconcile_building_multibranch_without_ref r req key w pr pipeline :
  Buildable hp pr = true →
  getSCMRefName (pr_Spec pr) = Fail scmRefNameError →
  CallGetPipeline key (Ok pipeline) ∈ new_calls w (Reconcile_building hp r req pr w).2 →
  (Reconcile_building hp r req pr w).1 = Done (Result_zero, Some scmRefNameError)
  ∧ Forall (λ c, is_jenkins_call c = false)
      (new_calls w (Reconcile_building hp r req pr w).2).
Proof.
  intros Hbuild Hfail. unfold Reconcile_building. rewrite Hbuild. simpl.
  assert (CallGetPipeline key (Ok pipeline)
            ∈ new_calls w ((err ← makePipelineRunOrphan r pr; mret (Result_zero, err)) w).2
          → False) as Horphan.
  { intros Hin. by apply (extends_kind _ _ _ _ (orphan_calls r pr w)) in Hin. }
  destruct (PipelineRef (pr_Spec pr)) as [ref|]; [| by intros ?%Horphan].
  destruct (String.eqb (ref_Name ref) ""); [by intros ?%Horphan |].
  clear Horphan. rewrite mbind_run.
  destruct (Client_GetPipeline_run (r_Client r)
              (Namespace (pr_ObjectMeta pr), ref_Name ref) w) as (gotp & -> & _).
  destruct gotp as [pipeline'|e1].
  2: { rewrite mret_run. simpl. rewrite new_calls_record. intros Hin. not_among Hin. }
  intros _. cbv zeta.
  change (HasStarted (setPipelineLabels (Name (pl_ObjectMeta pipeline')) pr))
    with (HasStarted pr).
  destruct (HasStarted pr) eqn:Hst.
  - rewrite Reconcile_started_without_ref by done. simpl. split; [done |].
    erewrite new_calls_app; [| simpl; rewrite <- !app_assoc; reflexivity].
    repeat constructor.
  - rewrite Reconcile_firstRun_without_ref by done. simpl. split; [done |].
    erewrite new_calls_app; [| simpl; rewrite <- !app_assoc; reflexivity].
    repeat constructor.
Qed.

(** C7. A run record of a multi-branch pipeline whose source-control
    reference is absent or has an empty name, that is not being deleted, is
    buildable and whose pipeline is resolved: the pass, whether it is on the
    trigger path or on the polling path, returns the configuration error
    and has made no call to Jenkins. *)
Theorem Reconcile_multibranch_without_ref (r : Reconciler) (req key : ObjectKey)
    (w : World) (pr : PipelineRun) (pipeline : Pipeline) :
  w_runs w !! req = Some pr →
  Time_IsZero (DeletionTimestamp (pr_ObjectMeta pr)) = true →
  Buildable hp pr = true →
  IsMultiBranchPipeline (pr_Spec pr) = true →
  (∀ scm, SCM_ (pr_Spec pr) = Some scm → RefName scm = "") →
  CallGetPipeline key (Ok pipeline) ∈ new_calls w (Reconcile hp r req w).2 →
  (Reconcile hp r req w).1 = Done (Result_zero, Some scmRefNameError)
  ∧ Forall (λ c, is_jenkins_call c = false) (new_calls w (Reconcile hp r req w).2).
Proof.
  intros Hpr Hdel Hbuild Hmb Hscm.
  pose proof (getSCMRefName_missing _ Hmb Hscm) as Hfail.
  destruct (Reconcile_run hp r req w) as (got & Hgot & -> & ->).
  intros Hin. apply elem_of_cons in Hin as [Hin|Hin]; [discriminate Hin |].
  revert Hin. unfold Reconcile_after_read. destruct got as [pr'|e0].
  2: { rewrite mret_run. simpl. rewrite new_calls_refl. intros Hin. not_among Hin. }
  specialize (Hgot pr' eq_refl). assert (pr' = pr) as -> by congruence.
  rewrite Hdel. intros Hin.
  destruct (Reconcile_building_multibranch_without_ref r req key _ pr pipeline
              Hbuild Hfail Hin) as [Hres Hcalls].
  split; [done |]. by constructor.
Qed.
End MultiBranch.

Lemma Reconcile_multibranch_without_ref_witness :
  (Reconcile demo_helpers demo_reconciler ("demo", "run-mb") world_multibranch).1
  = Done (Result_zero, Some scmRefNameError)
  ∧ Forall (λ c, is_jenkins_call c = false)
      (new_calls world_multibranch
         (Reconcile demo_helpers demo_reconciler ("demo", "run-mb") world_multibranch).2).
Proof.
  apply (Reconcile_multibranch_without_ref demo_helpers demo_reconciler ("demo", "run-mb")
           ("demo", "pipeline-mb") world_multibranch run_mb pipeline_mb).
  - reflexivity.
  - reflexivity.
  - reflexivity.
  - reflexivity.
  - intros scm Hscm. discriminate Hscm.
  - apply (list_elem_of_lookup_2 _ 1%nat). vm_compute. reflexivity.
Defined.

(** ** Deletion when Jenkins has no such build *)

Lemma Client_UpdateRun_run (c : Client) (pr : PipelineRun) (w : World) :
  ∃ answer w1,
    Client_UpdateRun c pr w = (Done answer, record_call (CallUpdateRun pr answer) w1)
    ∧ w_trace w1 = w_trace w
    ∧ w_pipelines w1 = w_pipelines w
    ∧ match answer with
      | None => ∃ stored, w_runs w !! pr_key pr = Some stored
                          ∧ w_runs w1 = <[pr_key pr := pr_set_Status (pr_Status stored) pr]>
                                          (w_runs w)
      | Some _ => w_runs w1 = w_runs w
      end.
Proof.
  unfold Client_UpdateRun. destruct (api_fault c (w_trace w)) as [e|].
  { by exists (Some e), w. }
  destruct (w_runs w !! pr_key pr) as [stored|] eqn:E.
  - eexists None, _. split; [reflexivity |]. repeat split. by exists stored.
  - by eexists (Some _), w.
Qed.

Lemma RemoveString_removes (slice : list string) (name : string) :
  name ∉ sliceutil_RemoveString slice (λ item, String.eqb item name).
Proof.
  unfold sliceutil_RemoveString. intros [Hf _]%list_elem_of_filter.
  by rewrite String.eqb_refl in Hf.
Qed.

(** The record with the finalizer of the controller taken away. *)
Definition released (pr : PipelineRun) : PipelineRun :=
  pr_set_Finalizers
    (sliceutil_RemoveString (Finalizers (pr_ObjectMeta pr))
       (λ item, String.eqb item PipelineRunFinalizerName)) pr.

Section Deleting.
Variable hp : Helpers.

Lemma released_update_run r pr w w0 tr0 o w' :
  w_trace w0 = w_trace w ++ tr0 →
  (err ← Client_UpdateRun (r_Client r) (released pr); mret (Result_zero, err)) w0 = (o, w') →
  ∃ answer,
    new_calls w w' = tr0 ++ [CallUpdateRun (released pr) answer]
    ∧ o = Done (Result_zero, answer)
    ∧ (answer = None →
       ∃ stored, w_runs w' !! pr_key pr = Some stored
                 ∧ pr_ObjectMeta stored = pr_ObjectMeta (released pr)).
Proof.
  intros E0. rewrite mbind_run.
  destruct (Client_UpdateRun_run (r_Client r) (released pr) w0)
    as (answer & w1 & -> & Etr & _ & Hruns).
  rewrite mret_run. intros [= <- <-]. exists answer. split; [| split; [done |]].
  - apply new_calls_app. simpl. by rewrite Etr, E0, app_assoc.
  - intros ->. destruct Hruns as (stored & Hstored & Hruns). simpl. rewrite Hruns.
    eexists. split; [apply lookup_insert_eq | done].
Qed.

Lemma Reconcile_deleting_not_found r pr w jobName buildNum e :
  CallDeleteHistory jobName buildNum (Some e) ∈ new_calls w (Reconcile_deleting r pr w).2 →
  strings_Contains (err_msg e) "not found resources" = true →
  ∃ answer,
    new_calls w (Reconcile_deleting r pr w).2
    = [CallDeleteHistory jobName buildNum (Some e); CallUpdateRun (released pr) answer]
    ∧ (Reconcile_deleting r pr w).1 = Done (Result_zero, answer)
    ∧ (answer = None →
       ∃ stored, w_runs (Reconcile_deleting r pr w).2 !! pr_key pr = Some stored
                 ∧ pr_ObjectMeta stored = pr_ObjectMeta (released pr)).
Proof.
  destruct (Reconcile_deleting r pr w) as [o w'] eqn:ER. cbn [fst snd].
  unfold Reconcile_deleting in ER. fold (released pr) in ER. rewrite mbind_run in ER.
  unfold deleteJenkinsJobHistory in ER.
  destruct (getJenkinsBuildNumber pr <? 0).
  { rewrite mret_run in ER. intros Hin. exfalso.
    destruct (released_update_run r pr w w [] o w' ltac:(by rewrite app_nil_r) ER)
      as (answer & E & _).
    rewrite E in Hin. not_among Hin. }
  destruct (PipelineRef (pr_Spec pr)) as [ref|].
  2: { simpl in ER. simplify_eq. rewrite new_calls_refl. intros Hin. not_among Hin. }
  rewrite mbind_run in ER. unfold job_DeleteHistory in ER.
  set (name := "job/" +:+ Namespace (pr_ObjectMeta pr) +:+ "/job/" +:+ ref_Name ref) in *.
  set (num := getJenkinsBuildNumber pr) in *.
  destruct (jenkins_DeleteHistory (r_JenkinsCore r) (w_trace w) name num) as [e'|] eqn:Ean.
  - destruct (strings_Contains (err_msg e') "not found resources") eqn:Hcontains.
    + rewrite mret_run in ER. intros Hin _.
      destruct (released_update_run r pr w
                  (record_call (CallDeleteHistory name num (Some e')) w)
                  [CallDeleteHistory name num (Some e')] o w' eq_refl ER)
        as (answer & E & Hrest).
      rewrite E in Hin.
      apply elem_of_cons in Hin as [Hin|Hin]; [| not_among Hin]. simplify_eq.
      by exists answer.
    + rewrite mret_run in ER. cbn beta iota in ER. rewrite mret_run in ER.
      simplify_eq. rewrite new_calls_record. intros Hin Hc.
      apply list_elem_of_singleton in Hin. injection Hin as _ _ ->. congruence.
  - rewrite mret_run in ER. intros Hin. exfalso.
    destruct (released_update_run r pr w
                (record_call (CallDeleteHistory name num None) w)
                [CallDeleteHistory name num None] o w' eq_refl ER) as (answer & E & _).
    rewrite E in Hin. not_among Hin.
Qed.

(** C8. A pass in which the delete-history call is answered with a not-found
    error goes on as after a success: it takes the finalizer of the
    controller off the record and writes the record back, as its only
    write; what it returns is the answer of that write, with no requeue; and
    once the store has accepted the write, the record in the store is without
    the finalizer and the pass has returned no error. *)
Theorem Reconcile_delete_history_not_found (r : Reconciler) (req : ObjectKey) (w : World)
    (jobName : string) (buildNum : Z) (e : error) :
  CallDeleteHistory jobName buildNum (Some e) ∈ new_calls w (Reconcile hp r req w).2 →
  strings_Contains (err_msg e) "not found resources" = true →
  ∃ pr answer,
    new_calls w (Reconcile hp r req w).2
    = [CallGetRun req (Ok pr); CallDeleteHistory jobName buildNum (Some e);
       CallUpdateRun (released pr) answer]
    ∧ (PipelineRunFinalizerName ∉ Finalizers (pr_ObjectMeta (released pr)))
    ∧ (Reconcile hp r req w).1 = Done (Result_zero, answer)
    ∧ (answer = None →
       (Reconcile hp r req w).1 = Done (Result_zero, None)
       ∧ ∃ stored, w_runs (Reconcile hp r req w).2 !! pr_key pr = Some stored
                   ∧ PipelineRunFinalizerName ∉ Finalizers (pr_ObjectMeta stored)).
Proof.
  destruct (Reconcile_run hp r req w) as (got & _ & -> & ->).
  intros Hin Hc. apply elem_of_cons in Hin as [Hin|Hin]; [discriminate Hin |].
  revert Hin. unfold Reconcile_after_read. destruct got as [pr|e0].
  2: { rewrite mret_run. simpl. rewrite new_calls_refl. intros Hin. not_among Hin. }
  destruct (Time_IsZero _).
  { intros Hin.
    by apply (extends_kind _ _ _ _ (Reconcile_building_calls hp r req pr _)) in Hin. }
  intros Hin.
  destruct (Reconcile_deleting_not_found r pr _ jobName buildNum e Hin Hc)
    as (answer & E & Hres & Hstored).
  exists pr, answer. rewrite E, Hres. split; [done |].
  split; [apply RemoveString_removes |]. split; [done |].
  intros ->. split; [done |].
  destruct (Hstored eq_refl) as (stored & Es & Em). exists stored. split; [done |].
  rewrite Em. apply RemoveString_removes.
Qed.
End Deleting.

Lemma Reconcile_delete_history_not_found_witness :
  ∃ pr answer,
    new_calls world_deleting
      (Reconcile demo_helpers demo_reconciler ("demo", "run-7") world_deleting).2
    = [CallGetRun ("demo", "run-7") (Ok pr);
       CallDeleteHistory "job/demo/job/pipeline-a" 7
         (Some (errors_New "unexpected status code: 404, not found resources"));
       CallUpdateRun (released pr) answer]
    ∧ (PipelineRunFinalizerName ∉ Finalizers (pr_ObjectMeta (released pr)))
    ∧ (Reconcile demo_helpers demo_reconciler ("demo", "run-7") world_deleting).1
      = Done (Result_zero, answer)
    ∧ (answer = None →
       (Reconcile demo_helpers demo_reconciler ("demo", "run-7") world_deleting).1
       = Done (Result_zero, None)
       ∧ ∃ stored,
           w_runs (Reconcile demo_helpers demo_reconciler ("demo", "run-7") world_deleting).2
             !! pr_key pr = Some stored
           ∧ PipelineRunFinalizerName ∉ Finalizers (pr_ObjectMeta stored)).
Proof.
  apply (Reconcile_delete_history_not_found demo_helpers demo_reconciler ("demo", "run-7")
           world_deleting "job/demo/job/pipeline-a" 7
           (errors_New "unexpected status code: 404, not found resources")).
  - apply (list_elem_of_lookup_2 _ 1%nat). vm_compute. reflexivity.
  - vm_compute. reflexivity.
Defined.

(** The deletion scenario, run: the finalizer is gone from the stored record
    and the pass reports no error. *)
Example Reconcile_deleting_scenario :
  let out := Reconcile demo_helpers demo_reconciler ("demo", "run-7") world_deleting in
  out.1 = Done (Result_zero, None)
  ∧ (Finalizers ∘ pr_ObjectMeta) <$> w_runs out.2 !! ("demo", "run-7") = Some [].
Proof. vm_compute. done. Qed.

(** ** What each procedure does to the store *)

(** Neither the run records nor the pipelines have changed. *)
Definition same_store (w w' : World) : Prop :=
  w_runs w' = w_runs w ∧ w_pipelines w' = w_pipelines w.

(** Every record is still there, with the status it had. *)
Definition same_status (w w' : World) : Prop :=
  ∀ k pr, w_runs w !! k = Some pr →
    ∃ pr', w_runs w' !! k = Some pr' ∧ pr_Status pr' = pr_Status pr.

(** A store that was well formed still is. *)
Definition wf_kept (w w' : World) : Prop := store_wf w → store_wf w'.

#[global] Instance same_store_preorder : PreOrder same_store.
Proof.
  split; [by intros w | intros w1 w2 w3 [E1 E1'] [E2 E2']].
  split; congruence.
Qed.

#[global] Instance same_status_preorder : PreOrder same_status.
Proof.
  split.
  - intros w k pr E. by exists pr.
  - intros w1 w2 w3 H1 H2 k pr E.
    destruct (H1 k pr E) as (pr2 & E2 & Es).
    destruct (H2 k pr2 E2) as (pr3 & E3 & Es3).
    exists pr3. split; [done | congruence].
Qed.

#[global] Instance wf_kept_preorder : PreOrder wf_kept.
Proof. split; [intros w H; exact H | intros w1 w2 w3 H1 H2 Hwf; by apply H2, H1]. Qed.

(** The relations that hold between two worlds with the same store. *)
Class FromSameStore (R : relation World) : Prop :=
  from_same_store : ∀ w w', same_store w w' → R w w'.

#[global] Instance same_store_from : FromSameStore same_store.
Proof. by intros w w'. Qed.
#[global] Instance same_runs_from : FromSameStore same_runs.
Proof. by intros w w' [E _]. Qed.
#[global] Instance same_metadata_from : FromSameStore same_metadata.
Proof. intros w w' [E _]. by apply same_runs_metadata. Qed.
#[global] Instance same_run_ids_from : FromSameStore same_run_ids.
Proof. intros w w' [E _]. by apply same_metadata_run_ids, same_runs_metadata. Qed.
#[global] Instance same_status_from : FromSameStore same_status.
Proof. intros w w' [E _] k pr Hk. exists pr. by rewrite E. Qed.
#[global] Instance wf_kept_from : FromSameStore wf_kept.
Proof. intros w w' [E E'] [H1 H2]. split; intros k x; rewrite ?E, ?E'; auto. Qed.

Lemma keeps_readonly {A : Type} (R : relation World) `{!FromSameStore R} (m : M A) :
  keeps same_store m → keeps R m.
Proof. intros H w. apply from_same_store, H. Qed.

Lemma time_Now_same_store : keeps same_store time_Now.
Proof. by intros w. Qed.
Lemma time_Sleep_same_store d : keeps same_store (time_Sleep d).
Proof. by intros w. Qed.
Lemma Eventf_same_store o t rs msg : keeps same_store (Eventf o t rs msg).
Proof. by intros w. Qed.
Lemma Client_GetRun_same_store c key : keeps same_store (Client_GetRun c key).
Proof. by intros w. Qed.
Lemma Client_GetPipeline_same_store c key : keeps same_store (Client_GetPipeline c key).
Proof. by intros w. Qed.
Lemma Client_ListRuns_same_store c ns sel : keeps same_store (Client_ListRuns c ns sel).
Proof. by intros w. Qed.
Lemma BlueOcean_Build_same_store jc o : keeps same_store (BlueOcean_Build jc o).
Proof. by intros w. Qed.
Lemma BlueOcean_GetBuild_same_store jc o : keeps same_store (BlueOcean_GetBuild jc o).
Proof. by intros w. Qed.
Lemma BlueOcean_GetNodes_same_store jc o : keeps same_store (BlueOcean_GetNodes jc o).
Proof. by intros w. Qed.
Lemma BlueOcean_GetPipelineRuns_same_store jc n ns :
  keeps same_store (BlueOcean_GetPipelineRuns jc n ns).
Proof. by intros w. Qed.
Lemma job_DeleteHistory_same_store jc n b : keeps same_store (job_DeleteHistory jc n b).
Proof. by intros w. Qed.

Ltac readonly_prim :=
  first [ apply time_Now_same_store | apply time_Sleep_same_store
        | apply Eventf_same_store | apply Client_GetRun_same_store
        | apply Client_GetPipeline_same_store | apply Client_ListRuns_same_store
        | apply BlueOcean_Build_same_store | apply BlueOcean_GetBuild_same_store
        | apply BlueOcean_GetNodes_same_store | apply BlueOcean_GetPipelineRuns_same_store
        | apply job_DeleteHistory_same_store ].

(** The generic steps through a procedure; [prim] closes the calls that
    write. *)
Ltac keeps_with prim :=
  repeat first [ prim
               | apply keeps_readonly; [tc_solve | readonly_prim]
               | apply keeps_ret; tc_solve
               | apply keeps_panic; tc_solve
               | apply keeps_bind; [tc_solve | | intros ?]
               | apply keeps_retry; [tc_solve | |]
               | case_match ].

Lemma Client_StatusUpdateRun_run (c : Client) (pr : PipelineRun) (w : World) :
  ∃ answer w1,
    Client_StatusUpdateRun c pr w
    = (Done answer, record_call (CallUpdateRunStatus pr answer) w1)
    ∧ w_trace w1 = w_trace w
    ∧ w_pipelines w1 = w_pipelines w
    ∧ match answer with
      | None => ∃ stored, w_runs w !! pr_key pr = Some stored
                          ∧ w_runs w1 = <[pr_key pr := pr_set_Status (pr_Status pr) stored]>
                                          (w_runs w)
      | Some _ => w_runs w1 = w_runs w
      end.
Proof.
  unfold Client_StatusUpdateRun. destruct (api_fault c (w_trace w)) as [e|].
  { by exists (Some e), w. }
  destruct (w_runs w !! pr_key pr) as [stored|] eqn:E.
  - eexists None, _. split; [reflexivity |]. repeat split. by exists stored.
  - by eexists (Some _), w.
Qed.

Lemma Client_UpdateRun_same_status c pr : keeps same_status (Client_UpdateRun c pr).
Proof.
  intros w. destruct (Client_UpdateRun_run c pr w) as (answer & w1 & -> & _ & _ & H).
  intros k x Hk. simpl. destruct answer as [e|].
  - exists x. by rewrite H.
  - destruct H as (stored & Hs & ->). destruct (decide (k = pr_key pr)) as [->|Hne].
    + rewrite lookup_insert_eq. eexists. split; [done |]. simpl. congruence.
    + rewrite lookup_insert_ne by done. by exists x.
Qed.

Lemma Client_UpdateRun_wf c pr : keeps wf_kept (Client_UpdateRun c pr).
Proof.
  intros w. destruct (Client_UpdateRun_run c pr w) as (answer & w1 & -> & _ & Ep & H).
  intros [Hr Hp]. split; simpl; [| by rewrite Ep].
  destruct answer as [e|]; [by rewrite H |].
  destruct H as (stored & Hs & ->). intros k x.
  destruct (decide (k = pr_key pr)) as [->|Hne].
  - rewrite lookup_insert_eq. by intros [= <-].
  - rewrite lookup_insert_ne by done. apply Hr.
Qed.

Lemma Client_StatusUpdateRun_same_metadata c pr :
  keeps same_metadata (Client_StatusUpdateRun c pr).
Proof.
  intros w. destruct (Client_StatusUpdateRun_run c pr w) as (answer & w1 & -> & _ & _ & H).
  intros k. simpl. destruct answer as [e|].
  - by rewrite H.
  - destruct H as (stored & Hs & ->). destruct (decide (k = pr_key pr)) as [->|Hne].
    + by rewrite lookup_insert_eq, Hs.
    + by rewrite lookup_insert_ne.
Qed.

Lemma Client_StatusUpdateRun_wf c pr : keeps wf_kept (Client_StatusUpdateRun c pr).
Proof.
  intros w. destruct (Client_StatusUpdateRun_run c pr w)
    as (answer & w1 & -> & _ & Ep & H).
  intros [Hr Hp]. split; simpl; [| by rewrite Ep].
  destruct answer as [e|]; [by rewrite H |].
  destruct H as (stored & Hs & ->). intros k x.
  destruct (decide (k = pr_key pr)) as [->|Hne].
  - rewrite lookup_insert_eq. intros [= <-]. apply (Hr _ _ Hs).
  - rewrite lookup_insert_ne by done. apply Hr.
Qed.

Lemma updateLabelsAndAnnotations_same_status r pr :
  keeps same_status (updateLabelsAndAnnotations r pr).
Proof.
  unfold updateLabelsAndAnnotations. keeps_with ltac:(apply Client_UpdateRun_same_status).
Qed.

Lemma updateLabelsAndAnnotations_wf r pr : keeps wf_kept (updateLabelsAndAnnotations r pr).
Proof. unfold updateLabelsAndAnnotations. keeps_with ltac:(apply Client_UpdateRun_wf). Qed.

Lemma updateStatus_same_metadata r st key : keeps same_metadata (updateStatus r st key).
Proof.
  unfold updateStatus. keeps_with ltac:(apply Client_StatusUpdateRun_same_metadata).
Qed.

Lemma updateStatus_wf r st key : keeps wf_kept (updateStatus r st key).
Proof. unfold updateStatus. keeps_with ltac:(apply Client_StatusUpdateRun_wf). Qed.

(** The result of a retried function is the result of its last run. *)
Lemma RetryOnConflict_last (R : relation World) `{!PreOrder R} (n : nat) (d : Duration)
    (fn : M (option error)) (w : World) :
  keeps R (time_Sleep d) → keeps R fn →
  ∃ w0, R w w0 ∧ RetryOnConflict (S n) d fn w = fn w0.
Proof.
  intros Hs Hfn. revert w. induction n as [|n IH]; intros w.
  - exists w. split; [reflexivity |]. simpl. rewrite mbind_run.
    destruct (fn w) as [[[e|]|] w1]; try done. by destruct (IsConflict e).
  - change (RetryOnConflict (S (S n)) d fn w)
      with ((err ← fn;
             match err with
             | None => mret None
             | Some e => if IsConflict e
                         then time_Sleep d;; RetryOnConflict (S n) d fn
                         else mret (Some e)
             end) w).
    rewrite mbind_run. pose proof (Hfn w) as Hw.
    destruct (fn w) as [[[e|]|] w1] eqn:E; try (exists w; by rewrite E).
    destruct (IsConflict e); [| exists w; by rewrite E].
    rewrite mbind_run. pose proof (Hs w1) as Hw1.
    set (w2 := (time_Sleep d w1).2) in *.
    change (time_Sleep d w1) with (Done tt, w2). cbn beta iota.
    destruct (IH w2) as (w0 & Hw0 & ->). exists w0. split; [| done].
    simpl in Hw. by do 2 (etrans; [eassumption |]).
Qed.

(** Every record is still there; its status is the one it had, or [st]. *)
Definition status_moved_to (st : PipelineRunStatus) (w w' : World) : Prop :=
  ∀ k pr, w_runs w !! k = Some pr →
    ∃ pr', w_runs w' !! k = Some pr'
           ∧ (pr_Status pr' = pr_Status pr ∨ pr_Status pr' = st).

#[global] Instance status_moved_to_preorder st : PreOrder (status_moved_to st).
Proof.
  split.
  - intros w k pr E. exists pr. by split; [| left].
  - intros w1 w2 w3 H1 H2 k pr E.
    destruct (H1 k pr E) as (pr2 & E2 & Hs2).
    destruct (H2 k pr2 E2) as (pr3 & E3 & Hs3).
    exists pr3. split; [done |]. destruct Hs3 as [-> | ->]; [done | by right].
Qed.

#[global] Instance status_moved_to_from st : FromSameStore (status_moved_to st).
Proof. intros w w' [E _] k pr Hk. exists pr. rewrite E. by split; [| left]. Qed.

Lemma Client_StatusUpdateRun_moves c st pr :
  keeps (status_moved_to st) (Client_StatusUpdateRun c (pr_set_Status st pr)).
Proof.
  intros w.
  destruct (Client_StatusUpdateRun_run c (pr_set_Status st pr) w)
    as (answer & w1 & -> & _ & _ & H).
  intros k x Hk. simpl. destruct answer as [e|].
  - exists x. rewrite H. by split; [| left].
  - destruct H as (stored & Hs & ->).
    destruct (decide (k = pr_key (pr_set_Status st pr))) as [->|Hne].
    + rewrite lookup_insert_eq. eexists. split; [done |]. by right.
    + rewrite lookup_insert_ne by done. exists x. by split; [| left].
Qed.

Lemma updateStatus_moves r st key : keeps (status_moved_to st) (updateStatus r st key).
Proof.
  unfold updateStatus. keeps_with ltac:(apply Client_StatusUpdateRun_moves).
Qed.

(** When [updateStatus] returns no error, the record under the key has the
    desired status. *)
Lemma updateStatus_result r st key w :
  store_wf w →
  (updateStatus r st key w).1 = Done None →
  ∃ stored, w_runs (updateStatus r st key w).2 !! key = Some stored
            ∧ pr_Status stored = st.
Proof.
  intros Hwf. unfold updateStatus, DefaultRetry_Steps.
  edestruct (RetryOnConflict_last wf_kept 4 DefaultRetry_Duration) as (w0 & Hw0 & ->).
  { apply keeps_readonly; [tc_solve | apply time_Sleep_same_store]. }
  { keeps_with ltac:(apply Client_StatusUpdateRun_wf). }
  specialize (Hw0 Hwf). rewrite mbind_run.
  destruct (Client_GetRun_run (r_Client r) key w0) as (got & -> & Hgot).
  destruct got as [prToUpdate|e]; [| done].
  specialize (Hgot _ eq_refl). case_bool_decide as Heq.
  { intros _. exists prToUpdate. by split. }
  destruct (Client_StatusUpdateRun_run (r_Client r) (pr_set_Status st prToUpdate)
              (record_call (CallGetRun key (Ok prToUpdate)) w0))
    as (answer & w1 & -> & _ & _ & H).
  simpl. intros [= ->]. destruct H as (stored & Hs & ->).
  assert (pr_key (pr_set_Status st prToUpdate) = key) as ->.
  { destruct Hw0 as [Hr _]. apply (Hr _ _ Hgot). }
  rewrite lookup_insert_eq. by eexists.
Qed.

(** When [updateLabelsAndAnnotations] returns no error, the record in the
    store has the desired labels and annotations. *)
Lemma updateLabelsAndAnnotations_result r pr w :
  store_wf w →
  (updateLabelsAndAnnotations r pr w).1 = Done None →
  ∃ stored, w_runs (updateLabelsAndAnnotations r pr w).2 !! pr_key pr = Some stored
            ∧ Labels (pr_ObjectMeta stored) = Labels (pr_ObjectMeta pr)
            ∧ Annotations (pr_ObjectMeta stored) = Annotations (pr_ObjectMeta pr).
Proof.
  intros [Hr _]. unfold updateLabelsAndAnnotations. rewrite mbind_run.
  destruct (Client_GetRun_run (r_Client r) (pr_key pr) w) as (got & -> & Hgot).
  destruct got as [prToUpdate|e]; [| done].
  specialize (Hgot _ eq_refl).
  destruct (bool_decide _ && bool_decide _) eqn:Heq.
  { intros _. apply andb_prop in Heq as [H1%bool_decide_eq_true H2%bool_decide_eq_true].
    by exists prToUpdate. }
  match goal with |- context [Client_UpdateRun ?c ?p ?w0] =>
    destruct (Client_UpdateRun_run c p w0) as (answer & w1 & -> & _ & _ & H);
    assert (pr_key p = pr_key pr) as Hkey;
    [| assert (Labels (pr_ObjectMeta p) = Labels (pr_ObjectMeta pr)
               ∧ Annotations (pr_ObjectMeta p) = Annotations (pr_ObjectMeta pr))
         as [Hl Ha] ]
  end.
  { rewrite <- (Hr _ _ Hgot). by destruct (negb _). }
  { by destruct (negb _). }
  simpl. intros [= ->]. destruct H as (stored & Hs & ->).
  rewrite Hkey, lookup_insert_eq. by eexists.
Qed.

(** [updateLabelsAndAnnotations] keeps the external run identifiers when the
    record it is given carries the one of the stored record. *)
Lemma updateLabelsAndAnnotations_run_ids r pr w :
  store_wf w →
  (∀ stored id, w_runs w !! pr_key pr = Some stored →
                run_id stored = Some id → run_id pr = Some id) →
  same_run_ids w (updateLabelsAndAnnotations r pr w).2.
Proof.
  intros [Hr _] Hid. unfold updateLabelsAndAnnotations. rewrite mbind_run.
  destruct (Client_GetRun_run (r_Client r) (pr_key pr) w) as (got & -> & Hgot).
  destruct got as [prToUpdate|e]; [| by apply from_same_store].
  specialize (Hgot _ eq_refl).
  destruct (bool_decide _ && bool_decide _); [by apply from_same_store |].
  match goal with |- context [Client_UpdateRun ?c ?p ?w0] =>
    destruct (Client_UpdateRun_run c p w0) as (answer & w1 & -> & _ & _ & H);
    assert (pr_key p = pr_key pr) as Hkey;
    [| assert (run_id p = run_id pr) as Hrid ]
  end.
  { rewrite <- (Hr _ _ Hgot). by destruct (negb _). }
  { by destruct (negb _). }
  intros k x id Hk Hx. simpl. destruct answer as [e|].
  { exists x. by rewrite H. }
  destruct H as (stored & Hs & ->). rewrite Hkey.
  destruct (decide (k = pr_key pr)) as [->|Hne].
  - rewrite lookup_insert_eq. eexists. split; [done |].
    change (run_id (pr_set_Status (pr_Status stored) ?p)) with (run_id p).
    rewrite Hrid. by apply (Hid x).
  - rewrite lookup_insert_ne by done. by exists x.
Qed.

(** ** The pass that triggers the run *)

Lemma store_wf_record (c : Call) (w : World) : store_wf (record_call c w) ↔ store_wf w.
Proof. done. Qed.

Definition is_write_back_call (c : Call) : bool :=
  match c with
  | CallEvent _ _ _ _ => true
  | _ => is_store_io c
  end.

Section FirstRun.
Variable hp : Helpers.

(** The record that the first run writes back: the one it was given, with
    the identifier of the build. *)
Definition triggered (pr : PipelineRun) (build : job_PipelineRun) : PipelineRun :=
  pr_set_Annotations
    (Some (<[JenkinsPipelineRunIDKey := run_ID build]>
             (map_make_if_nil (Annotations (pr_ObjectMeta pr))))) pr.

(** What [Reconcile_firstRun] does after a successful trigger. *)
Definition afterTrigger (r : Reconciler) (req : ObjectKey) (pr : PipelineRun)
  : M (Result * option error) :=
  err ← updateLabelsAndAnnotations r pr;
  match err with
  | Some e => mret (Result_zero, Some e)
  | None =>
      startTime ← time_Now;
      updateTime ← time_Now;
      let pr :=
        pr_set_Status
          (status_set_UpdateTime (Some updateTime)
             (status_set_StartTime (Some startTime) (pr_Status pr))) pr in
      err ← updateStatus r (pr_Status pr) req;
      match err with
      | Some e => mret (Result_zero, Some e)
      | None =>
          Eventf (pr_key pr) EventTypeNormal Started
            ("Started PipelineRun " +:+ NamespacedName_String req);;
          mret (mkResult false (1 * Second), None)
      end
  end.

Lemma afterTrigger_calls r req pr : keeps (extends is_write_back_call) (afterTrigger r req pr).
Proof.
  unfold afterTrigger.
  repeat first [ calls_via updateStatus_calls
               | calls_via updateLabelsAndAnnotations_calls | calls_step ].
Qed.

(** The first run, by the answer to the trigger. *)
Lemma Reconcile_firstRun_run r req ns name pr w :
  (∃ e, Reconcile_firstRun hp r req ns name pr w
        = (Done (Result_zero, Some e),
           record_call
             (CallEvent (pr_key pr) EventTypeWarning TriggerFailed
                ("Failed to trigger PipelineRun " +:+ NamespacedName_String req
                 +:+ ", and error was " +:+ err_msg e)) w))
  ∨ (∃ o e, Reconcile_firstRun hp r req ns name pr w
            = (Done (Result_zero, Some e),
               record_call
                 (CallEvent (pr_key pr) EventTypeWarning TriggerFailed
                    ("Failed to trigger PipelineRun " +:+ NamespacedName_String req
                     +:+ ", and error was " +:+ err_msg e))
                 (record_call (CallBuild o (Fail e)) w)))
  ∨ (∃ o build, Reconcile_firstRun hp r req ns name pr w
                = afterTrigger r req (triggered pr build)
                    (record_call (CallBuild o (Ok build)) w)).
Proof.
  unfold Reconcile_firstRun, triggerJenkinsJob. rewrite mbind_run.
  destruct (getSCMRefName (pr_Spec pr)) as [branch|e].
  - unfold BlueOcean_Build.
    destruct (jenkins_Build (r_JenkinsCore r) (w_trace w) _) as [build|e] eqn:E.
    + right. right. eexists _, build. reflexivity.
    + right. left. eexists _, e. reflexivity.
  - left. exists e. reflexivity.
Qed.

(** When the write-back ends without error, the record in the store has the
    labels and annotations it was given and the status with the two times. *)
Lemma afterTrigger_result r req pr w res :
  store_wf w → pr_key pr = req →
  (afterTrigger r req pr w).1 = Done (res, None) →
  res = mkResult false (1 * Second)
  ∧ ∃ stored startTime updateTime,
      w_runs (afterTrigger r req pr w).2 !! req = Some stored
      ∧ Labels (pr_ObjectMeta stored) = Labels (pr_ObjectMeta pr)
      ∧ Annotations (pr_ObjectMeta stored) = Annotations (pr_ObjectMeta pr)
      ∧ pr_Status stored
        = status_set_UpdateTime (Some updateTime)
            (status_set_StartTime (Some startTime) (pr_Status pr)).
Proof.
  intros Hwf Hkey.
  destruct (afterTrigger r req pr w) as [out w'] eqn:ER. cbn [fst snd]. intros ->.
  unfold afterTrigger in ER. rewrite mbind_run in ER.
  pose proof (updateLabelsAndAnnotations_result r pr w Hwf) as Hlabels.
  pose proof (updateLabelsAndAnnotations_wf r pr w Hwf) as Hwf1.
  destruct (updateLabelsAndAnnotations r pr w) as [[[e|]|] w1]; [done | | done].
  destruct (Hlabels eq_refl) as (stored1 & Hs1 & Hl1 & Ha1). clear Hlabels.
  cbn [fst snd] in *.
  rewrite mbind_run in ER. unfold time_Now at 1 in ER. cbn beta iota in ER.
  rewrite mbind_run in ER. unfold time_Now at 1 in ER. cbn beta iota in ER.
  rewrite mbind_run in ER.
  match type of ER with
  | context [updateStatus r ?st0 req ?w0] => set (st := st0) in *; set (w2 := w0) in *
  end.
  assert (store_wf w2) as Hwf2 by done.
  pose proof (updateStatus_result r st req w2 Hwf2) as Hstatus.
  pose proof (updateStatus_same_metadata r st req w2) as Hmeta.
  destruct (updateStatus r st req w2) as [[[e|]|] w3]; [done | | done].
  destruct (Hstatus eq_refl) as (stored & Hs & Hst). clear Hstatus.
  cbn [fst snd] in *. rewrite mbind_run in ER. unfold Eventf in ER.
  rewrite mret_run in ER. injection ER as <- <-. split; [done |].
  exists stored, (w_clock w1), (w_clock w1 + 1). split; [done |].
  destruct (same_metadata_lookup _ _ req stored1 Hmeta) as (stored' & Hs' & Hm & _);
    [by rewrite <- Hkey |].
  assert (stored' = stored) as -> by congruence.
  rewrite Hm. done.
Qed.
End FirstRun.

Section Triggering.
Variable hp : Helpers.

Lemma run_id_triggered pr build : run_id (triggered pr build) = Some (run_ID build).
Proof. unfold run_id, triggered. simpl. apply lookup_insert_eq. Qed.

Lemma Reconcile_building_first_run r req pr w o answer res :
  store_wf w → pr_key pr = req →
  CallBuild o answer ∈ new_calls w (Reconcile_building hp r req pr w).2 →
  (Reconcile_building hp r req pr w).1 = Done (res, None) →
  res = mkResult false (1 * Second)
  ∧ ∃ build stored startTime updateTime,
      answer = Ok build
      ∧ w_runs (Reconcile_building hp r req pr w).2 !! req = Some stored
      ∧ run_id stored = Some (run_ID build)
      ∧ pr_Status stored
        = status_set_UpdateTime (Some updateTime)
            (status_set_StartTime (Some startTime) (pr_Status pr)).
Proof.
  intros Hwf Hkey. unfold Reconcile_building.
  destruct (negb (Buildable hp pr)).
  { rewrite mret_run. simpl. rewrite new_calls_refl. intros Hin. not_among Hin. }
  assert (CallBuild o answer
            ∈ new_calls w ((err ← makePipelineRunOrphan r pr; mret (Result_zero, err)) w).2
          → False) as Horphan.
  { intros Hin. by apply (extends_kind _ _ _ _ (orphan_calls r pr w)) in Hin. }
  destruct (PipelineRef (pr_Spec pr)) as [ref|]; [| by intros ?%Horphan].
  destruct (String.eqb (ref_Name ref) ""); [by intros ?%Horphan |].
  clear Horphan. rewrite mbind_run.
  destruct (Client_GetPipeline_run (r_Client r)
              (Namespace (pr_ObjectMeta pr), ref_Name ref) w) as (gotp & -> & _).
  destruct gotp as [pipeline|e1].
  2: { rewrite mret_run. simpl. rewrite new_calls_record. intros Hin. not_among Hin. }
  cbv zeta. destruct (HasStarted _).
  { intros Hin. exfalso.
    erewrite new_calls_after_record in Hin by apply Reconcile_started_calls.
    apply elem_of_cons in Hin as [Hin|Hin]; [discriminate Hin |].
    by apply (extends_kind _ _ _ _ (Reconcile_started_calls _ _ _ _ _ _ _)) in Hin. }
  set (w1 := record_call _ w).
  set (pr1 := setPipelineLabels _ pr).
  destruct (Reconcile_firstRun_run hp r req (Namespace (pl_ObjectMeta pipeline))
              (Name (pl_ObjectMeta pipeline)) pr1 w1)
    as [(e & ->)|[(o' & e & ->)|(o' & build' & ->)]]; [done | done |].
  set (w2 := record_call (CallBuild o' (Ok build')) w1).
  intros Hin Hres.
  destruct (afterTrigger_result r req (triggered pr1 build') w2 res)
    as (-> & stored & t1 & t2 & Hs & _ & Ha & Hst); [done | done | done |].
  split; [done |]. exists build', stored, t1, t2.
  assert (answer = Ok build') as ->.
  { assert (w_trace w2
            = w_trace w ++ [CallGetPipeline (Namespace (pr_ObjectMeta pr), ref_Name ref)
                              (Ok pipeline); CallBuild o' (Ok build')]) as E2.
    { simpl. by rewrite <- app_assoc. }
    rewrite (new_calls_split (λ _, true) is_write_back_call w w2) in Hin;
      [| eexists; split; [exact E2 | by repeat constructor] | apply afterTrigger_calls].
    rewrite (new_calls_app _ _ _ E2) in Hin.
    apply elem_of_app in Hin as [Hin|Hin].
    - apply elem_of_cons in Hin as [Hin|Hin]; [discriminate Hin |].
      apply list_elem_of_singleton in Hin. by injection Hin.
    - by apply (extends_kind _ _ _ _ (afterTrigger_calls r req _ w2)) in Hin. }
  split; [done |]. split; [done |].
  split; [| done]. unfold run_id. rewrite Ha. apply run_id_triggered.
Qed.

(** A pass that has made a trigger call and ends without error. *)
Lemma Reconcile_first_run_stored r req w o answer res :
  store_wf w →
  CallBuild o answer ∈ new_calls w (Reconcile hp r req w).2 →
  (Reconcile hp r req w).1 = Done (res, None) →
  res = mkResult false (1 * Second)
  ∧ ∃ pr build stored startTime updateTime,
      w_runs w !! req = Some pr
      ∧ answer = Ok build
      ∧ w_runs (Reconcile hp r req w).2 !! req = Some stored
      ∧ run_id stored = Some (run_ID build)
      ∧ pr_Status stored
        = status_set_UpdateTime (Some updateTime)
            (status_set_StartTime (Some startTime) (pr_Status pr)).
Proof.
  intros Hwf.
  destruct (Reconcile_run hp r req w) as (got & Hgot & -> & ->).
  intros Hin. apply elem_of_cons in Hin as [Hin|Hin]; [discriminate Hin |].
  revert Hin. unfold Reconcile_after_read. destruct got as [pr|e0].
  2: { rewrite mret_run. simpl. rewrite new_calls_refl. intros Hin. not_among Hin. }
  specialize (Hgot pr eq_refl).
  destruct (Time_IsZero _).
  2: { intros Hin.
       by apply (extends_kind _ _ _ _ (Reconcile_deleting_calls r pr _)) in Hin. }
  intros Hin Hres.
  destruct (Reconcile_building_first_run r req pr _ o answer res
              ltac:(by apply store_wf_record) ltac:(by apply Hwf) Hin Hres)
    as (-> & build & stored & t1 & t2 & -> & Hs & Hid & Hst).
  split; [done |]. by exists pr, build, stored, t1, t2.
Qed.

(** C6, as the code has it.  A pass that triggers the run and ends without
    error has written the identifier of the build that Jenkins returned into
    the annotations of the record and the start and update times into its
    status; every other field of the status, the phase among them, is left
    as it was; the pass asks for a requeue after one second. *)
Theorem Reconcile_first_run_persists (r : Reconciler) (req : ObjectKey) (w : World)
    (pr : PipelineRun) (o : BuildOption) (build : job_PipelineRun) (res : Result) :
  store_wf w →
  w_runs w !! req = Some pr →
  CallBuild o (Ok build) ∈ new_calls w (Reconcile hp r req w).2 →
  (Reconcile hp r req w).1 = Done (res, None) →
  res = mkResult false (1 * Second)
  ∧ ∃ stored startTime updateTime,
      w_runs (Reconcile hp r req w).2 !! req = Some stored
      ∧ run_id stored = Some (run_ID build)
      ∧ pr_Status stored
        = status_set_UpdateTime (Some updateTime)
            (status_set_StartTime (Some startTime) (pr_Status pr))
      ∧ Phase (pr_Status stored) = Phase (pr_Status pr).
Proof.
  intros Hwf Hpr Hin Hres.
  destruct (Reconcile_first_run_stored r req w o (Ok build) res Hwf Hin Hres)
    as (-> & pr' & build' & stored & t1 & t2 & Hpr' & [= <-] & Hs & Hid & Hst).
  assert (pr' = pr) as -> by congruence.
  split; [done |]. exists stored, t1, t2. repeat split; try done. by rewrite Hst.
Qed.
End Triggering.

(** The stores of the scenarios are well formed. *)
Ltac wf_scenario :=
  split; simpl; intros k x Hk;
  first [ by apply lookup_empty_Some in Hk
        | apply lookup_singleton_Some in Hk as [<- <-]; reflexivity ].

Lemma demo_world_wf : store_wf demo_world.
Proof. wf_scenario. Qed.

Lemma world_orphan_wf : store_wf world_orphan.
Proof. wf_scenario. Qed.

Lemma world_sync_wf : store_wf world_sync.
Proof. wf_scenario. Qed.

(** C6, as stated, fails on the phase: in the scenario of the spec the run
    [run-1] of [demo/pipeline-a] is triggered, the build 7 is recorded and the
    two times are set, and the pass asks for a requeue after one second; the
    phase of the stored record is still empty, it is not [Running]. *)
Lemma Reconcile_first_run_leaves_phase :
  let out := Reconcile demo_helpers demo_reconciler ("demo", "run-1") demo_world in
  out.1 = Done (mkResult false (1 * Second), None)
  ∧ new_calls demo_world out.2 !! 2%nat
    = Some (CallBuild (mkBuildOption ["demo"; "pipeline-a"] [] "")
              (Ok (mkJobPipelineRun "7" AnyNil "" "QUEUED")))
  ∧ ∃ stored, w_runs out.2 !! ("demo", "run-1") = Some stored
              ∧ run_id stored = Some "7"
              ∧ StartTime (pr_Status stored) = Some 1000
              ∧ UpdateTime (pr_Status stored) = Some 1001
              ∧ Phase (pr_Status stored) = ""
              ∧ Phase (pr_Status stored) ≠ Running.
Proof.
  vm_compute. split; [done |]. split; [done |]. eexists. split; [reflexivity |]. done.
Qed.

Lemma Reconcile_first_run_persists_witness :
  let out := Reconcile demo_helpers demo_reconciler ("demo", "run-1") demo_world in
  mkResult false (1 * Second) = mkResult false (1 * Second)
  ∧ ∃ stored startTime updateTime,
      w_runs out.2 !! ("demo", "run-1") = Some stored
      ∧ run_id stored = Some (run_ID (mkJobPipelineRun "7" AnyNil "" "QUEUED"))
      ∧ pr_Status stored
        = status_set_UpdateTime (Some updateTime)
            (status_set_StartTime (Some startTime) (pr_Status run_1))
      ∧ Phase (pr_Status stored) = Phase (pr_Status run_1).
Proof.
  apply (Reconcile_first_run_persists demo_helpers demo_reconciler ("demo", "run-1")
           demo_world run_1 (mkBuildOption ["demo"; "pipeline-a"] [] "")
           (mkJobPipelineRun "7" AnyNil "" "QUEUED") (mkResult false (1 * Second))).
  - apply demo_world_wf.
  - reflexivity.
  - apply (list_elem_of_lookup_2 _ 2%nat). vm_compute. reflexivity.
  - vm_compute. reflexivity.
Defined.

(** ** The external run identifier is set once *)

(** The identifier [id] is the one of the record stored under [key], if
    that record has one. *)
Definition carries_stored_id (key : ObjectKey) (id : option string) (w : World) : Prop :=
  ∀ stored id', w_runs w !! key = Some stored → run_id stored = Some id' → id = Some id'.

(** Writing records under [key] with the identifier [id] keeps the
    identifiers of a well-formed store. *)
Definition ids_kept_for (key : ObjectKey) (id : option string) (w w' : World) : Prop :=
  store_wf w → carries_stored_id key id w →
  same_run_ids w w' ∧ store_wf w' ∧ carries_stored_id key id w'.

#[global] Instance ids_kept_for_preorder key id : PreOrder (ids_kept_for key id).
Proof.
  split.
  - intros w Hwf Hc. by split; [reflexivity |].
  - intros w1 w2 w3 H1 H2 Hwf Hc.
    destruct (H1 Hwf Hc) as (Hi1 & Hwf2 & Hc2).
    destruct (H2 Hwf2 Hc2) as (Hi2 & Hwf3 & Hc3).
    split; [by etrans |]. done.
Qed.

Lemma ids_kept_of_same_metadata key id w w' :
  same_metadata w w' → wf_kept w w' → ids_kept_for key id w w'.
Proof.
  intros Hm Hk Hwf Hc. split; [by apply same_metadata_run_ids |]. split; [by apply Hk |].
  intros stored id' Hs Hid.
  destruct (same_metadata_lookup_inv _ _ _ _ Hm Hs) as (old & Ho & Hmeta & _).
  apply (Hc old id' Ho). unfold run_id in *. by rewrite <- Hmeta.
Qed.

#[global] Instance ids_kept_for_from key id : FromSameStore (ids_kept_for key id).
Proof.
  intros w w' Hs. apply ids_kept_of_same_metadata.
  - by apply from_same_store.
  - by apply from_same_store.
Qed.

Lemma Client_UpdateRun_ids_kept c p :
  keeps (ids_kept_for (pr_key p) (run_id p)) (Client_UpdateRun c p).
Proof.
  intros w Hwf Hc.
  pose proof (Client_UpdateRun_wf c p w Hwf) as Hwf'.
  destruct (Client_UpdateRun_run c p w) as (answer & w1 & E & _ & _ & H).
  rewrite E in *. simpl in *. split; [| split; [done |]].
  - intros k x id Hk Hx. simpl. destruct answer as [e|].
    { exists x. by rewrite H. }
    destruct H as (stored & Hs & ->).
    destruct (decide (k = pr_key p)) as [->|Hne].
    + rewrite lookup_insert_eq. eexists. split; [done |].
      change (run_id (pr_set_Status (pr_Status stored) p)) with (run_id p).
      by apply (Hc x).
    + rewrite lookup_insert_ne by done. by exists x.
  - intros stored' id' Hs' Hid'. simpl in Hs'. destruct answer as [e|].
    { rewrite H in Hs'. by apply (Hc stored'). }
    destruct H as (stored & Hs & Hw). rewrite Hw, lookup_insert_eq in Hs'.
    injection Hs' as <-. exact Hid'.
Qed.

Lemma updateLabelsAndAnnotations_ids_kept r pr key id :
  pr_key pr = key → run_id pr = id →
  keeps (ids_kept_for key id) (updateLabelsAndAnnotations r pr).
Proof.
  intros <- <- w. unfold updateLabelsAndAnnotations. rewrite mbind_run.
  destruct (Client_GetRun_run (r_Client r) (pr_key pr) w) as (got & -> & Hgot).
  destruct got as [prToUpdate|e];
    [| by apply (from_same_store (R:=ids_kept_for _ _))].
  specialize (Hgot _ eq_refl).
  destruct (bool_decide _ && bool_decide _);
    [by apply (from_same_store (R:=ids_kept_for _ _)) |].
  intros Hwf Hc.
  match goal with |- context [Client_UpdateRun ?c ?p ?w0] =>
    assert (pr_key p = pr_key pr) as Hkey;
    [| assert (run_id p = run_id pr) as Hrid;
       [| pose proof (Client_UpdateRun_ids_kept c p w0) as Hkeep] ]
  end.
  { destruct Hwf as [Hr _]. rewrite <- (Hr _ _ Hgot). by destruct (negb _). }
  { by destruct (negb _). }
  rewrite Hkey, Hrid in Hkeep. by apply Hkeep.
Qed.

Lemma updateStatus_ids_kept r st key' key id :
  keeps (ids_kept_for key id) (updateStatus r st key').
Proof.
  intros w. apply ids_kept_of_same_metadata.
  - apply updateStatus_same_metadata.
  - apply updateStatus_wf.
Qed.

Lemma run_id_status_annotations (pr : PipelineRun) (runResultJSON prNodesJSON : string) :
  run_id
    (pr_set_Annotations
       (Some (<[JenkinsPipelineRunStagesStatusKey := prNodesJSON]>
                (<[JenkinsPipelineRunStatusKey := runResultJSON]>
                   (map_make_if_nil (Annotations (pr_ObjectMeta pr)))))) pr)
  = run_id pr.
Proof.
  unfold run_id. simpl. rewrite !lookup_insert_ne by done.
  by destruct (Annotations (pr_ObjectMeta pr)).
Qed.

Lemma HasStarted_run_id (pr : PipelineRun) : HasStarted pr = bool_decide (is_Some (run_id pr)).
Proof.
  unfold HasStarted, GetPipelineRunID, run_id. by destruct (map_lookup _ _).
Qed.

Section RunIds.
Variable hp : Helpers.

Ltac ids_prim :=
  first [ apply updateStatus_ids_kept
        | apply updateLabelsAndAnnotations_ids_kept;
          [reflexivity | first [reflexivity | apply run_id_status_annotations]]
        | apply Client_UpdateRun_ids_kept ].

Lemma makePipelineRunOrphan_ids_kept r pr :
  keeps (ids_kept_for (pr_key pr) (run_id pr)) (makePipelineRunOrphan r pr).
Proof. unfold makePipelineRunOrphan. keeps_with ids_prim. Qed.

Lemma Reconcile_started_ids_kept r req ns name pr :
  keeps (ids_kept_for (pr_key pr) (run_id pr)) (Reconcile_started hp r req ns name pr).
Proof.
  unfold Reconcile_started, getPipelineRunResult, getPipelineNodes. keeps_with ids_prim.
Qed.

Lemma Reconcile_deleting_ids_kept r pr :
  keeps (ids_kept_for (pr_key pr) (run_id pr)) (Reconcile_deleting r pr).
Proof.
  unfold Reconcile_deleting, deleteJenkinsJobHistory.
  keeps_with ltac:(apply (Client_UpdateRun_ids_kept _ (released pr))).
Qed.

Lemma afterTrigger_ids_kept r req pr :
  keeps (ids_kept_for (pr_key pr) (run_id pr)) (afterTrigger r req pr).
Proof. unfold afterTrigger. keeps_with ids_prim. Qed.

Lemma Reconcile_firstRun_ids_kept r req ns name pr w :
  store_wf w → carries_stored_id (pr_key pr) None w →
  same_run_ids w (Reconcile_firstRun hp r req ns name pr w).2.
Proof.
  intros Hwf Hc.
  destruct (Reconcile_firstRun_run hp r req ns name pr w)
    as [(e & ->)|[(o' & e & ->)|(o' & build' & ->)]]; [by apply from_same_store.. |].
  set (w1 := record_call _ w).
  destruct (afterTrigger_ids_kept r req (triggered pr build') w1) as (H & _ & _).
  - done.
  - intros stored id' Hs Hid. by specialize (Hc stored id' Hs Hid).
  - etrans; [| exact H]. by apply from_same_store.
Qed.

Lemma Reconcile_building_ids_kept r req pr w :
  store_wf w → w_runs w !! pr_key pr = Some pr →
  same_run_ids w (Reconcile_building hp r req pr w).2.
Proof.
  intros Hwf Hpr.
  assert (carries_stored_id (pr_key pr) (run_id pr) w) as Hc.
  { intros stored id' Hs Hid. congruence. }
  unfold Reconcile_building.
  destruct (negb (Buildable hp pr)); [by apply from_same_store |].
  assert (same_run_ids w
            ((err ← makePipelineRunOrphan r pr; mret (Result_zero, err)) w).2) as Horphan.
  { apply (keeps_then_ret _ _ (λ err, (Result_zero, err))
             (makePipelineRunOrphan_ids_kept r pr)); done. }
  destruct (PipelineRef (pr_Spec pr)) as [ref|]; [| done].
  destruct (String.eqb (ref_Name ref) ""); [done |].
  clear Horphan. rewrite mbind_run.
  destruct (Client_GetPipeline_run (r_Client r)
              (Namespace (pr_ObjectMeta pr), ref_Name ref) w) as (gotp & -> & _).
  destruct gotp as [pipeline|e1]; [| by apply from_same_store].
  cbv zeta. set (w1 := record_call _ w). set (pr1 := setPipelineLabels _ pr).
  assert (same_run_ids w w1) as H1 by by apply from_same_store.
  etrans; [exact H1 |].
  destruct (HasStarted pr1) eqn:Hst.
  - by apply (Reconcile_started_ids_kept r req _ _ pr1).
  - apply Reconcile_firstRun_ids_kept; [done |].
    intros stored id' Hs Hid. rewrite HasStarted_run_id in Hst.
    apply bool_decide_eq_false in Hst. exfalso. apply Hst.
    exists id'. change (run_id pr1) with (run_id pr).
    assert (stored = pr) as -> by (change (pr_key pr1) with (pr_key pr) in Hs;
                                   change (w_runs w1) with (w_runs w) in Hs; congruence).
    done.
Qed.

(** No pass changes an external run identifier that a record has. *)
Lemma Reconcile_same_run_ids r req w :
  store_wf w → same_run_ids w (Reconcile hp r req w).2.
Proof.
  intros Hwf. destruct (Reconcile_run hp r req w) as (got & Hgot & -> & _).
  unfold Reconcile_after_read. destruct got as [pr|e0]; [| by apply from_same_store].
  specialize (Hgot pr eq_refl).
  assert (pr_key pr = req) as Hkey by by apply Hwf.
  set (w1 := record_call _ w).
  assert (same_run_ids w w1) as H1 by by apply from_same_store.
  etrans; [exact H1 |].
  destruct (Time_IsZero _).
  - apply Reconcile_building_ids_kept; [done |]. by rewrite Hkey.
  - apply (Reconcile_deleting_ids_kept r pr); [done |].
    intros stored id' Hs Hid. rewrite Hkey in Hs.
    change (w_runs w1) with (w_runs w) in Hs. congruence.
Qed.
End RunIds.

(** ** A run is triggered at most once *)

Lemma count_builds_app (tr1 tr2 : list Call) :
  count_builds (tr1 ++ tr2) = (count_builds tr1 + count_builds tr2)%nat.
Proof. unfold count_builds. by rewrite List.filter_app, length_app. Qed.

Lemma count_builds_cons (c : Call) (tr : list Call) :
  count_builds (c :: tr)
  = ((if is_trigger_call c then 1 else 0) + count_builds tr)%nat.
Proof. unfold count_builds. simpl. by destruct (is_trigger_call c). Qed.

Lemma count_builds_none (tr : list Call) :
  Forall (λ c, is_trigger_call c = false) tr → count_builds tr = 0%nat.
Proof.
  unfold count_builds. induction 1 as [|c tr Hc _ IH]; [done |].
  simpl. by rewrite Hc.
Qed.

Lemma count_builds_kind (P : Call → bool) (w w' : World) :
  (∀ c, P c = true → is_trigger_call c = false) →
  extends P w w' → count_builds (new_calls w w') = 0%nat.
Proof.
  intros HP H. apply extends_new_calls in H as [_ F]. apply count_builds_none.
  eapply Forall_impl; [exact F | done].
Qed.

Lemma count_builds_pos (tr : list Call) :
  (0 < count_builds tr)%nat → ∃ o answer, CallBuild o answer ∈ tr.
Proof.
  unfold count_builds. induction tr as [|c tr IH]; simpl; [lia |].
  destruct (is_trigger_call c) eqn:Hc.
  - intros _. destruct c; try discriminate Hc. eexists _, _. left.
  - intros (o & a & Hin)%IH. exists o, a. by right.
Qed.

(** The calls written out by a computation that was run step by step. *)
Ltac known_calls :=
  erewrite new_calls_app; [| simpl; rewrite <- ?app_assoc; reflexivity].

Section TriggerOnce.
Variable hp : Helpers.

Lemma Reconcile_building_count_builds r req pr w :
  (count_builds (new_calls w (Reconcile_building hp r req pr w).2) ≤ 1)%nat.
Proof.
  unfold Reconcile_building.
  destruct (negb (Buildable hp pr)).
  { rewrite mret_run. simpl. rewrite new_calls_refl. unfold count_builds. simpl. lia. }
  assert (count_builds
            (new_calls w ((err ← makePipelineRunOrphan r pr; mret (Result_zero, err)) w).2)
          ≤ 1)%nat as Horphan.
  { erewrite count_builds_kind; [lia | | apply orphan_calls]. by intros []. }
  destruct (PipelineRef (pr_Spec pr)) as [ref|]; [| done].
  destruct (String.eqb (ref_Name ref) ""); [done |].
  clear Horphan. rewrite mbind_run.
  destruct (Client_GetPipeline_run (r_Client r)
              (Namespace (pr_ObjectMeta pr), ref_Name ref) w) as (gotp & -> & _).
  destruct gotp as [pipeline|e1].
  2: { rewrite mret_run. simpl. rewrite new_calls_record. unfold count_builds. simpl. lia. }
  cbv zeta. destruct (HasStarted _).
  { erewrite new_calls_after_record by apply Reconcile_started_calls.
    rewrite count_builds_cons.
    erewrite (count_builds_kind is_polling_call);
      [unfold count_builds; simpl; lia | by intros [] | apply Reconcile_started_calls]. }
  set (w1 := record_call _ w). set (pr1 := setPipelineLabels _ pr).
  destruct (Reconcile_firstRun_run hp r req (Namespace (pl_ObjectMeta pipeline))
              (Name (pl_ObjectMeta pipeline)) pr1 w1)
    as [(e & ->)|[(o' & e & ->)|(o' & build' & ->)]].
  - known_calls. unfold count_builds. simpl. lia.
  - known_calls. unfold count_builds. simpl. lia.
  - set (w2 := record_call _ w1).
    rewrite (new_calls_split (λ _, true) is_write_back_call w w2);
      [| eexists [_; _]; split; [simpl; by rewrite <- app_assoc | by repeat constructor]
       | apply afterTrigger_calls].
    rewrite count_builds_app.
    erewrite (count_builds_kind is_write_back_call w2);
      [| by intros [] | apply afterTrigger_calls].
    rewrite (new_calls_app w w2 [_; _]) by (simpl; by rewrite <- app_assoc).
    unfold count_builds. simpl. lia.
Qed.

(** A pass makes at most one trigger call. *)
Lemma Reconcile_count_builds r req w :
  (count_builds (new_calls w (Reconcile hp r req w).2) ≤ 1)%nat.
Proof.
  destruct (Reconcile_run hp r req w) as (got & _ & -> & ->).
  rewrite count_builds_cons. unfold Reconcile_after_read.
  destruct got as [pr|e0].
  - destruct (Time_IsZero _).
    + pose proof (Reconcile_building_count_builds r req pr
                    (record_call (CallGetRun req (Ok pr)) w)).
      simpl. lia.
    + erewrite (count_builds_kind is_deleting_call);
        [simpl; lia | by intros [] | apply Reconcile_deleting_calls].
  - rewrite mret_run. simpl. rewrite new_calls_refl. unfold count_builds. simpl. lia.
Qed.

Lemma Reconcile_building_started r req pr w :
  HasStarted pr = true →
  count_builds (new_calls w (Reconcile_building hp r req pr w).2) = 0%nat.
Proof.
  intros Hst. unfold Reconcile_building.
  destruct (negb (Buildable hp pr)).
  { rewrite mret_run. simpl. by rewrite new_calls_refl. }
  assert (count_builds
            (new_calls w ((err ← makePipelineRunOrphan r pr; mret (Result_zero, err)) w).2)
          = 0)%nat as Horphan.
  { erewrite count_builds_kind; [done | | apply orphan_calls]. by intros []. }
  destruct (PipelineRef (pr_Spec pr)) as [ref|]; [| done].
  destruct (String.eqb (ref_Name ref) ""); [done |].
  clear Horphan. rewrite mbind_run.
  destruct (Client_GetPipeline_run (r_Client r)
              (Namespace (pr_ObjectMeta pr), ref_Name ref) w) as (gotp & -> & _).
  destruct gotp as [pipeline|e1].
  2: { rewrite mret_run. simpl. by rewrite new_calls_record. }
  cbv zeta.
  change (HasStarted (setPipelineLabels (Name (pl_ObjectMeta pipeline)) pr))
    with (HasStarted pr).
  rewrite Hst.
  erewrite new_calls_after_record by apply Reconcile_started_calls.
  rewrite count_builds_cons.
  erewrite (count_builds_kind is_polling_call);
    [done | by intros [] | apply Reconcile_started_calls].
Qed.

(** A pass on a record that carries an external run identifier makes no
    trigger call. *)
Lemma Reconcile_started_no_trigger r req w pr id :
  w_runs w !! req = Some pr → run_id pr = Some id →
  count_builds (new_calls w (Reconcile hp r req w).2) = 0%nat.
Proof.
  intros Hpr Hid.
  destruct (Reconcile_run hp r req w) as (got & Hgot & -> & ->).
  rewrite count_builds_cons. unfold Reconcile_after_read.
  destruct got as [pr'|e0].
  - specialize (Hgot pr' eq_refl). assert (pr' = pr) as -> by congruence.
    destruct (Time_IsZero _).
    + rewrite Reconcile_building_started; [done |].
      rewrite HasStarted_run_id, Hid. by apply bool_decide_eq_true_2.
    + erewrite (count_builds_kind is_deleting_call);
        [done | by intros [] | apply Reconcile_deleting_calls].
  - rewrite mret_run. simpl. by rewrite new_calls_refl.
Qed.

(** C1, as the code has it.  Two passes in immediate succession on a store
    that holds every record under its key: no pass changes an external run
    identifier that a record has; a pass on a record that carries an
    identifier makes no trigger call; and when the first pass ends without
    error, the two passes together make at most one trigger call: if the
    first pass has triggered the run, the record in the store carries the
    identifier and the second pass makes no trigger call. *)
Theorem Reconcile_trigger_once (r : Reconciler) (req : ObjectKey) (w : World) :
  store_wf w →
  let w1 := (Reconcile hp r req w).2 in
  let w2 := (Reconcile hp r req w1).2 in
  same_run_ids w w1
  ∧ (∀ pr id, w_runs w !! req = Some pr → run_id pr = Some id →
              count_builds (new_calls w w1) = 0%nat)
  ∧ (∀ res, (Reconcile hp r req w).1 = Done (res, None) →
       (count_builds (new_calls w w1) + count_builds (new_calls w1 w2) ≤ 1)%nat
       ∧ (count_builds (new_calls w w1) = 1%nat →
          (∃ stored id, w_runs w1 !! req = Some stored ∧ run_id stored = Some id)
          ∧ count_builds (new_calls w1 w2) = 0%nat)).
Proof.
  intros Hwf w1 w2. split; [by apply Reconcile_same_run_ids |].
  split; [intros pr id; apply Reconcile_started_no_trigger |].
  intros res Hres.
  assert (count_builds (new_calls w w1) = 1%nat →
          (∃ stored id, w_runs w1 !! req = Some stored ∧ run_id stored = Some id)
          ∧ count_builds (new_calls w1 w2) = 0%nat) as Hone.
  { intros H1.
    destruct (count_builds_pos (new_calls w w1)) as (o & answer & Hin); [lia |].
    destruct (Reconcile_first_run_stored hp r req w o answer res Hwf Hin Hres)
      as (_ & pr & build & stored & _ & _ & _ & _ & Hs & Hid & _).
    split; [by eauto |].
    by apply (Reconcile_started_no_trigger r req w1 stored (run_ID build)). }
  split; [| done].
  pose proof (Reconcile_count_builds r req w) as Hle1.
  pose proof (Reconcile_count_builds r req w1) as Hle2.
  fold w1 in Hle1. fold w2 in Hle2.
  destruct (decide (count_builds (new_calls w w1) = 1%nat)) as [H1|H1].
  - destruct (Hone H1) as [_ H0]. lia.
  - lia.
Qed.
End TriggerOnce.

(** C1, as stated, fails: the store refuses the write of the annotations
    with a conflict (the request made after four calls), the pass returns
    that error, and the next pass, which finds no identifier on the record,
    triggers the run again: Jenkins has started the builds 7 and 8 for the
    one run record. *)
Lemma Reconcile_twice_triggers_twice :
  let r := mkReconciler (conflict_after 4) demo_jenkins in
  let w1 := (Reconcile demo_helpers r ("demo", "run-1") demo_world).2 in
  let w2 := (Reconcile demo_helpers r ("demo", "run-1") w1).2 in
  run_id run_1 = None
  ∧ w_runs demo_world !! ("demo", "run-1") = Some run_1
  ∧ List.filter is_trigger_call (new_calls demo_world w2)
    = [CallBuild (mkBuildOption ["demo"; "pipeline-a"] [] "")
         (Ok (mkJobPipelineRun "7" AnyNil "" "QUEUED"));
       CallBuild (mkBuildOption ["demo"; "pipeline-a"] [] "")
         (Ok (mkJobPipelineRun "8" AnyNil "" "QUEUED"))]
  ∧ count_builds (new_calls demo_world w2) = 2%nat
  ∧ (run_id <$> w_runs w2 !! ("demo", "run-1")) = Some (Some "8").
Proof. vm_compute. done. Qed.

Lemma Reconcile_trigger_once_witness :
  let w := demo_world in
  let w1 := (Reconcile demo_helpers demo_reconciler ("demo", "run-1") w).2 in
  let w2 := (Reconcile demo_helpers demo_reconciler ("demo", "run-1") w1).2 in
  same_run_ids w w1
  ∧ (∀ pr id, w_runs w !! ("demo", "run-1") = Some pr → run_id pr = Some id →
              count_builds (new_calls w w1) = 0%nat)
  ∧ (∀ res, (Reconcile demo_helpers demo_reconciler ("demo", "run-1") w).1
            = Done (res, None) →
       (count_builds (new_calls w w1) + count_builds (new_calls w1 w2) ≤ 1)%nat
       ∧ (count_builds (new_calls w w1) = 1%nat →
          (∃ stored id, w_runs w1 !! ("demo", "run-1") = Some stored
                        ∧ run_id stored = Some id)
          ∧ count_builds (new_calls w1 w2) = 0%nat)).
Proof.
  exact (Reconcile_trigger_once demo_helpers demo_reconciler ("demo", "run-1") demo_world
           demo_world_wf).
Defined.

(** The scenario of the spec, run twice on a reliable store: the first pass
    triggers the build 7; the second pass fetches the result and the stages
    of the build 7 and makes no trigger call. *)
Example Reconcile_twice_scenario :
  let w1 := (Reconcile demo_helpers demo_reconciler ("demo", "run-1") demo_world).2 in
  let out2 := Reconcile demo_helpers demo_reconciler ("demo", "run-1") w1 in
  count_builds (new_calls demo_world w1) = 1%nat
  ∧ List.filter is_jenkins_call (new_calls w1 out2.2)
    = [CallGetBuild (mkGetBuildOption "7" ["demo"; "pipeline-a"] "")
         (Ok (mkJobPipelineRun "7" AnyNil "UNKNOWN" "RUNNING"));
       CallGetNodes (mkGetNodesOption ["demo"; "pipeline-a"] "" "7")
         (Ok [mkJobNode "1" "build" "UNKNOWN" "RUNNING"])]
  ∧ out2.1 = Done (mkResult false (3 * Second), None)
  ∧ (Phase ∘ pr_Status <$> w_runs out2.2 !! ("demo", "run-1")) = Some Running.
Proof. vm_compute. done. Qed.

(** ** The two entry points of the mutator *)

Definition conflict : error :=
  mkError StatusReasonConflict
    "the object has been modified; please apply your changes to the latest version and try again".

(** [updateLabelsAndAnnotations] reads the record once and writes at most
    once; whatever the write answers, a conflict included, is what it
    returns. *)
Lemma updateLabelsAndAnnotations_single_attempt r pr w :
  (∃ got, new_calls w (updateLabelsAndAnnotations r pr w).2 = [CallGetRun (pr_key pr) got]
          ∧ ((updateLabelsAndAnnotations r pr w).1 = Done None
             ∨ ∃ e, got = Fail e ∧ (updateLabelsAndAnnotations r pr w).1 = Done (Some e)))
  ∨ (∃ got prToUpdate answer,
       new_calls w (updateLabelsAndAnnotations r pr w).2
       = [CallGetRun (pr_key pr) got; CallUpdateRun prToUpdate answer]
       ∧ (updateLabelsAndAnnotations r pr w).1 = Done answer).
Proof.
  unfold updateLabelsAndAnnotations. rewrite mbind_run.
  destruct (Client_GetRun_run (r_Client r) (pr_key pr) w) as (got & -> & _).
  destruct got as [prToUpdate|e].
  - destruct (bool_decide _ && bool_decide _).
    + left. eexists. rewrite mret_run. simpl. rewrite new_calls_record. eauto.
    + right. cbv zeta.
      match goal with |- context [Client_UpdateRun ?c ?p ?w0] =>
        destruct (Client_UpdateRun_run c p w0) as (answer & w1 & -> & Etr & _ & _);
        exists (Ok prToUpdate), p, answer
      end.
      split; [| done]. apply new_calls_app. simpl. rewrite Etr. simpl.
      by rewrite <- app_assoc.
  - left. eexists. rewrite mret_run. simpl. rewrite new_calls_record. eauto.
Qed.

(** Both entry points skip the write when the desired state is there. *)
Lemma updateLabelsAndAnnotations_noop r pr w stored :
  api_fault (r_Client r) (w_trace w) = None →
  w_runs w !! pr_key pr = Some stored →
  Labels (pr_ObjectMeta pr) = Labels (pr_ObjectMeta stored) →
  Annotations (pr_ObjectMeta pr) = Annotations (pr_ObjectMeta stored) →
  updateLabelsAndAnnotations r pr w
  = (Done None, record_call (CallGetRun (pr_key pr) (Ok stored)) w).
Proof.
  intros Hf Hs Hl Ha. unfold updateLabelsAndAnnotations. rewrite mbind_run.
  unfold Client_GetRun. rewrite Hf, Hs. cbn beta iota zeta.
  by rewrite !bool_decide_eq_true_2.
Qed.

Lemma updateStatus_noop r st key w stored :
  api_fault (r_Client r) (w_trace w) = None →
  w_runs w !! key = Some stored →
  pr_Status stored = st →
  updateStatus r st key w = (Done None, record_call (CallGetRun key (Ok stored)) w).
Proof.
  intros Hf Hs Hst. unfold updateStatus, DefaultRetry_Steps. simpl. rewrite !mbind_run.
  unfold Client_GetRun. rewrite Hf, Hs. cbn beta iota zeta.
  by rewrite bool_decide_eq_true_2.
Qed.

(** The number of calls of one kind in a trace. *)
Definition count_calls (P : Call → bool) (tr : list Call) : nat :=
  length (List.filter P tr).

(** The world has grown by at most [n] calls of the kind [P]. *)
Definition adds_at_most (P : Call → bool) (n : nat) (w w' : World) : Prop :=
  ∃ tr, w_trace w' = w_trace w ++ tr ∧ (count_calls P tr ≤ n)%nat.

Lemma adds_at_most_trans P n1 n2 w w1 w2 :
  adds_at_most P n1 w w1 → adds_at_most P n2 w1 w2 → adds_at_most P (n1 + n2) w w2.
Proof.
  intros (tr1 & E1 & H1) (tr2 & E2 & H2). exists (tr1 ++ tr2).
  split; [by rewrite E2, E1, app_assoc |].
  unfold count_calls in *. rewrite List.filter_app, length_app. lia.
Qed.

Lemma adds_at_most_mono P n m w w' :
  (n ≤ m)%nat → adds_at_most P n w w' → adds_at_most P m w w'.
Proof. intros Hle (tr & E & H). exists tr. split; [done | lia]. Qed.

(** [RetryOnConflict] with [k] steps runs the function at most [k] times
    and sleeps at most [k - 1] times. *)
Lemma RetryOnConflict_bounded (P : Call → bool) (k : nat) (d : Duration)
    (fn : M (option error)) :
  P (CallSleep d) = false →
  (∀ w, adds_at_most P 1 w (fn w).2) →
  (∀ w, adds_at_most is_sleep 0 w (fn w).2) →
  ∀ w, adds_at_most P k w (RetryOnConflict k d fn w).2
       ∧ adds_at_most is_sleep (k - 1) w (RetryOnConflict k d fn w).2.
Proof.
  intros Hsleep Hfn Hfn0. induction k as [|k IH]; intros w.
  { split; exists []; by rewrite app_nil_r. }
  destruct (RetryOnConflict (S k) d fn w) as [o w'] eqn:ER. cbn [snd].
  simpl in ER. rewrite mbind_run in ER.
  pose proof (Hfn w) as H1. pose proof (Hfn0 w) as H0.
  assert (∀ w1, adds_at_most P 1 w w1 → adds_at_most is_sleep 0 w w1 →
            adds_at_most P (S k) w w1 ∧ adds_at_most is_sleep (S k - 1) w w1) as Hstop.
  { intros w1 Ha Hb.
    split; [eapply adds_at_most_mono; [| exact Ha]; lia
           | eapply adds_at_most_mono; [| exact Hb]; lia]. }
  destruct (fn w) as [[[e|]|] w1]; cbn [snd] in *.
  2, 3: injection ER as <- <-; by apply Hstop.
  destruct (IsConflict e); [| injection ER as <- <-; by apply Hstop].
  destruct k as [|k]; [injection ER as <- <-; by apply Hstop |].
  rewrite mbind_run in ER. unfold time_Sleep at 1 in ER. cbn beta iota in ER.
  set (w2 := record_call (CallSleep d) _) in ER.
  assert (adds_at_most P 0 w1 w2) as Hs1.
  { exists [CallSleep d]. split; [done |]. unfold count_calls. simpl. by rewrite Hsleep. }
  assert (adds_at_most is_sleep 1 w1 w2) as Hs2.
  { exists [CallSleep d]. by split. }
  destruct (IH w2) as [IH1 IH2]. rewrite ER in IH1, IH2. cbn [snd] in *. split.
  - apply (adds_at_most_trans _ 1 (S k) w w2); [| done].
    by apply (adds_at_most_trans _ 1 0 w w1) in Hs1.
  - replace (S (S k) - 1)%nat with (1 + (S k - 1))%nat by lia.
    apply (adds_at_most_trans _ 1 (S k - 1) w w2); [| done].
    by apply (adds_at_most_trans _ 0 1 w w1) in Hs2.
Qed.

(** [updateStatus] writes at most five times and sleeps at most four
    times. *)
Lemma updateStatus_bounded r st key w :
  (count_calls is_status_write (new_calls w (updateStatus r st key w).2) ≤ 5)%nat
  ∧ (count_calls is_sleep (new_calls w (updateStatus r st key w).2) ≤ 4)%nat.
Proof.
  unfold updateStatus.
  destruct (RetryOnConflict_bounded is_status_write DefaultRetry_Steps DefaultRetry_Duration
              (got ← Client_GetRun (r_Client r) key;
               match got with
               | Fail err => mret (Some err)
               | Ok prToUpdate =>
                   if bool_decide (st = pr_Status prToUpdate)
                   then mret None
                   else Client_StatusUpdateRun (r_Client r) (pr_set_Status st prToUpdate)
               end) eq_refl) with (w := w) as [(tr1 & E1 & H1) (tr2 & E2 & H2)].
  - intros w0. rewrite mbind_run.
    destruct (Client_GetRun_run (r_Client r) key w0) as (got & -> & _).
    destruct got as [prToUpdate|e]; [case_bool_decide |].
    + exists [CallGetRun key (Ok prToUpdate)]. split; [done |]. unfold count_calls. simpl. lia.
    + destruct (Client_StatusUpdateRun_run (r_Client r) (pr_set_Status st prToUpdate)
                  (record_call (CallGetRun key (Ok prToUpdate)) w0))
        as (answer & w1 & -> & Etr & _ & _).
      eexists [_; _]. split; [simpl; rewrite Etr; simpl; by rewrite <- app_assoc |].
      unfold count_calls. simpl. lia.
    + exists [CallGetRun key (Fail e)]. split; [done |]. unfold count_calls. simpl. lia.
  - intros w0. rewrite mbind_run.
    destruct (Client_GetRun_run (r_Client r) key w0) as (got & -> & _).
    destruct got as [prToUpdate|e]; [case_bool_decide |].
    + exists [CallGetRun key (Ok prToUpdate)]. split; [done |]. unfold count_calls. simpl. lia.
    + destruct (Client_StatusUpdateRun_run (r_Client r) (pr_set_Status st prToUpdate)
                  (record_call (CallGetRun key (Ok prToUpdate)) w0))
        as (answer & w1 & -> & Etr & _ & _).
      eexists [_; _]. split; [simpl; rewrite Etr; simpl; by rewrite <- app_assoc |].
      unfold count_calls. simpl. lia.
    + exists [CallGetRun key (Fail e)]. split; [done |]. unfold count_calls. simpl. lia.
  - rewrite (new_calls_app _ _ _ E1) at 1. rewrite (new_calls_app _ _ _ E2). done.
Qed.

(** C4 at the failing input.  The store refuses the first write with a
    conflict.  [updateLabelsAndAnnotations] makes that one attempt, does not
    sleep and returns the conflict; [updateStatus] in the same situation
    sleeps ten milliseconds, reads the record again, writes again and
    returns no error. *)
Lemma updateLabelsAndAnnotations_conflict_not_retried :
  let r := mkReconciler (conflict_after 1) demo_jenkins in
  let desired := setPipelineLabels "pipeline-a" run_1 in
  let out := updateLabelsAndAnnotations r desired demo_world in
  let status := status_set_Phase Running (pr_Status run_1) in
  let out' := updateStatus r status ("demo", "run-1") demo_world in
  out.1 = Done (Some conflict)
  ∧ (∃ prToUpdate,
       new_calls demo_world out.2
       = [CallGetRun ("demo", "run-1") (Ok run_1); CallUpdateRun prToUpdate (Some conflict)])
  ∧ w_runs out.2 = w_runs demo_world
  ∧ out'.1 = Done None
  ∧ (∃ prToUpdate,
       new_calls demo_world out'.2
       = [CallGetRun ("demo", "run-1") (Ok run_1);
          CallUpdateRunStatus prToUpdate (Some conflict);
          CallSleep (10 * Millisecond);
          CallGetRun ("demo", "run-1") (Ok run_1);
          CallUpdateRunStatus prToUpdate None])
  ∧ (pr_Status <$> w_runs out'.2 !! ("demo", "run-1")) = Some status.
Proof.
  vm_compute. split; [done |]. split; [by eexists |]. split; [done |].
  split; [done |]. split; [by eexists |]. done.
Qed.

(** ** A run without a pipeline reference *)

Lemma same_status_moved st w w' : same_status w w' → status_moved_to st w w'.
Proof.
  intros H k pr Hk. destruct (H k pr Hk) as (pr' & Hk' & Hs). exists pr'. by split; [| left].
Qed.

Section Orphan.
Variable hp : Helpers.

Lemma makePipelineRunOrphan_moves r pr :
  keeps (status_moved_to (pr_Status pr)) (makePipelineRunOrphan r pr).
Proof.
  unfold makePipelineRunOrphan.
  keeps_with ltac:(first [ apply updateStatus_moves
                         | eapply keeps_weaken;
                           [apply same_status_moved
                           | apply updateLabelsAndAnnotations_same_status] ]).
Qed.

(** The status that [makePipelineRunOrphan] hands to [updateStatus] is the
    one the record has: the skip condition and the phase [Unknown], set on
    the copy, never reach the store. *)
Lemma Reconcile_orphan_status_unchanged r req w pr :
  w_runs w !! req = Some pr →
  pr_key pr = req →
  Time_IsZero (DeletionTimestamp (pr_ObjectMeta pr)) = true →
  Buildable hp pr = true →
  (∀ ref, PipelineRef (pr_Spec pr) = Some ref → ref_Name ref = "") →
  (∃ stored, w_runs (Reconcile hp r req w).2 !! req = Some stored
             ∧ pr_Status stored = pr_Status pr)
  ∧ Forall (λ c, is_jenkins_call c = false) (new_calls w (Reconcile hp r req w).2).
Proof.
  intros Hpr Hkey Hdel Hbuild Href.
  destruct (Reconcile_run hp r req w) as (got & Hgot & -> & ->).
  unfold Reconcile_after_read. destruct got as [pr'|e0].
  2: { rewrite mret_run. simpl. rewrite new_calls_refl. split; [by eauto |].
       by repeat constructor. }
  specialize (Hgot pr' eq_refl). assert (pr' = pr) as -> by congruence.
  rewrite Hdel. unfold Reconcile_building. rewrite Hbuild. simpl.
  set (w1 := record_call _ w).
  assert ((∃ stored,
             w_runs ((err ← makePipelineRunOrphan r pr; mret (Result_zero, err)) w1).2
               !! req = Some stored ∧ pr_Status stored = pr_Status pr)
          ∧ Forall (λ c, is_jenkins_call c = false)
              (CallGetRun req (Ok pr)
               :: new_calls w1
                    ((err ← makePipelineRunOrphan r pr; mret (Result_zero, err)) w1).2))
    as Horphan.
  { split.
    - destruct (keeps_then_ret _ _ (λ err, (Result_zero, err))
                  (makePipelineRunOrphan_moves r pr) w1 req pr Hpr)
        as (stored & Hs & [Hst|Hst]); by exists stored.
    - constructor; [done |].
      destruct (extends_new_calls _ _ _ (orphan_calls r pr w1)) as [_ F].
      eapply Forall_impl; [exact F |]. by intros [].  }
  destruct (PipelineRef (pr_Spec pr)) as [ref|]; [| done].
  by rewrite (Href ref eq_refl).
Qed.
End Orphan.

(** C5 at the failing input.  The run [run-x] has no pipeline reference.  The
    pass labels it as an orphan and ends without error and without a call to
    Jenkins, and it makes no status write: the status of the stored record
    has no condition, and its phase is still empty, not [Unknown]. *)
Lemma Reconcile_orphan_status_not_persisted :
  let out := Reconcile demo_helpers demo_reconciler ("demo", "run-x") world_orphan in
  out.1 = Done (Result_zero, None)
  ∧ List.filter is_jenkins_call (new_calls world_orphan out.2) = []
  ∧ List.filter is_status_write (new_calls world_orphan out.2) = []
  ∧ ∃ stored,
      w_runs out.2 !! ("demo", "run-x") = Some stored
      ∧ Labels (pr_ObjectMeta stored) = Some {[PipelineRunOrphanKey := "true"]}
      ∧ pr_Status stored = pr_Status run_orphan
      ∧ Conditions (pr_Status stored) = []
      ∧ Phase (pr_Status stored) = ""
      ∧ Phase (pr_Status stored) ≠ Unknown.
Proof.
  vm_compute. split; [done |]. split; [done |]. split; [done |].
  eexists. split; [reflexivity |]. done.
Qed.

(** ** The synchronizer *)

(** The identifier under which a local record sits in [prContainer]. *)
Definition local_id (pr : PipelineRun) : string :=
  map_index (Annotations (pr_ObjectMeta pr)) JenkinsPipelineRunIDKey.



Lemma Client_CreateRun_run (c : Client) (pr : PipelineRun) (w : World) :
  ∃ answer w1,
    Client_CreateRun c pr w = (Done answer, record_call (CallCreateRun pr answer) w1)
    ∧ w_trace w1 = w_trace w
    ∧ w_pipelines w1 = w_pipelines w
    ∧ match answer with
      | Ok named =>
          w_runs w !! pr_key named = None
          ∧ w_runs w1 = <[pr_key named := named]> (w_runs w)
          ∧ Annotations (pr_ObjectMeta named) = Annotations (pr_ObjectMeta pr)
          ∧ Labels (pr_ObjectMeta named) = Labels (pr_ObjectMeta pr)
          ∧ OwnerReferences (pr_ObjectMeta named) = OwnerReferences (pr_ObjectMeta pr)
          ∧ pr_Spec named = pr_Spec pr
      | Fail _ => w_runs w1 = w_runs w
      end.
Proof.
  unfold Client_CreateRun. destruct (api_fault c (w_trace w)) as [e|].
  { by exists (Fail e), w. }
  set (named := if String.eqb (Name (pr_ObjectMeta pr)) "" then _ else pr).
  set (w0 := if String.eqb (Name (pr_ObjectMeta pr)) "" then _ else w).
  assert (w_runs w0 = w_runs w ∧ w_trace w0 = w_trace w ∧ w_pipelines w0 = w_pipelines w)
    as (Er & Et & Ep) by (subst w0; by destruct (String.eqb _ _)).
  assert (Annotations (pr_ObjectMeta named) = Annotations (pr_ObjectMeta pr)
          ∧ Labels (pr_ObjectMeta named) = Labels (pr_ObjectMeta pr)
          ∧ OwnerReferences (pr_ObjectMeta named) = OwnerReferences (pr_ObjectMeta pr)
          ∧ pr_Spec named = pr_Spec pr) as Hnamed
    by (subst named; by destruct (String.eqb _ _)).
  destruct (w_runs w0 !! pr_key named) as [x|] eqn:E.
  - eexists (Fail _), w0. split; [reflexivity | done].
  - eexists (Ok named), _. split; [reflexivity |]. simpl.
    rewrite <- Er. destruct Hnamed as (? & ? & ? & ?). by repeat split.
Qed.

Lemma createBarePipelineRun_ok pipeline run bare :
  createBarePipelineRun pipeline run = Done (Ok bare) →
  run_id bare = Some (run_ID run)
  ∧ OwnerReferences (pr_ObjectMeta bare) = [NewControllerRef pipeline]
  ∧ PipelineRef (pr_Spec bare) = Some (getPipelineRef pipeline)
  ∧ Labels (pr_ObjectMeta bare) = None.
Proof.
  unfold createBarePipelineRun.
  destruct (match run_Branch run with AnyNil => _ | AnyMap m => _ | _ => _ end)
    as [branch|]; [| done].
  destruct (CreateScm (pl_Spec pipeline) branch) as [scm|e]; [| done].
  intros [= <-]. split; [| done]. unfold run_id. simpl. apply lookup_insert_eq.
Qed.

Lemma createMissingRuns_calls r pipeline container runs created :
  keeps (extends is_create) (createMissingRuns r pipeline container runs created).
Proof.
  revert created. induction runs as [|run rest IH]; intros created; simpl; [calls |].
  destruct (container !! run_ID run); [apply IH |].
  apply keeps_bind; [tc_solve | | intros [pr|e]; apply IH].
  unfold createPipelineRun. calls.
Qed.



Definition is_pipeline_io (c : Call) : bool :=
  match c with
  | CallGetPipeline _ _ | CallUpdatePipeline _ _ | CallSleep _ => true
  | _ => false
  end.

Lemma synchronizedSuccessfully_calls r key :
  keeps (extends is_pipeline_io) (synchronizedSuccessfully r key).
Proof. unfold synchronizedSuccessfully. calls. Qed.

Lemma Client_UpdatePipeline_run (c : Client) (p : Pipeline) (w : World) :
  ∃ answer w1,
    Client_UpdatePipeline c p w = (Done answer, record_call (CallUpdatePipeline p answer) w1)
    ∧ w_trace w1 = w_trace w
    ∧ w_runs w1 = w_runs w
    ∧ match answer with
      | None => w_pipelines w1 = <[pl_key p := p]> (w_pipelines w)
      | Some _ => w_pipelines w1 = w_pipelines w
      end.
Proof.
  unfold Client_UpdatePipeline. destruct (api_fault c (w_trace w)) as [e|].
  { by exists (Some e), w. }
  destruct (w_pipelines w !! pl_key p) as [stored|] eqn:E.
  - by eexists None, _.
  - by eexists (Some _), w.
Qed.



(** *** Counting the missing runs *)





(** *** One pass of the synchronizer *)

(** What the synchronizer does once it has the local records and the runs
    of Jenkins. *)
Definition syncAfterReads (r : SyncReconciler) (req : ObjectKey) (pipeline : Pipeline)
    (items : list PipelineRun) (jenkinsRuns : list job_PipelineRun)
  : M (Result * option error) :=
  createdPipelineRuns ← createMissingRuns r pipeline (prContainer_of items) jenkinsRuns [];
  err ← synchronizedSuccessfully r req;
  match err with
  | Some e => mret (Result_zero, Some e)
  | None =>
      Eventf (pl_key pipeline) EventTypeNormal PipelineRunSynced
        ("Successfully synchronized "
         +:+ pretty (length createdPipelineRuns)
         +:+ " PipelineRuns(s). PipelineRuns/JenkinsRuns proportion is "
         +:+ pretty (length items) +:+ "/" +:+ pretty (length jenkinsRuns));;
      mret (Result_zero, None)
  end.

Definition is_sync_tail_call (c : Call) : bool :=
  match c with
  | CallEvent _ _ _ _ => true
  | _ => is_pipeline_io c
  end.






(** In that scenario the pass creates the records of the runs 5 and 6, in
    this order, and then writes the pipeline back without the marker. *)
Example SyncReconciler_scenario :
  let out := SyncReconciler_Reconcile demo_synchronizer ("demo", "pipeline-a") world_sync in
  out.1 = Done (Result_zero, None)
  ∧ (local_id <$> (map_to_list (w_runs out.2)).*2) ≡ₚ ["5"; "6"; "7"]
  ∧ length (filter (λ c, is_create c = true) (new_calls world_sync out.2)) = 2%nat
  ∧ (Annotations ∘ pl_ObjectMeta <$> w_pipelines out.2 !! ("demo", "pipeline-a"))
    = Some (Some ∅).
Proof.
  split; [by vm_compute |]. split; [| split; by vm_compute].
  apply (bool_decide_unpack _). by vm_compute.
Qed.







(** * Further properties of the package *)

(** ** The builders *)

Lemma pretty_N_go_nonempty (x : N) (s : string) : s ≠ "" → pretty_N_go x s ≠ "".
Proof.
  revert s. induction (N.lt_wf_0 x) as [x _ IH]. intros s Hs.
  destruct (decide (x = 0%N)) as [->|Hx]; [by rewrite pretty_N_go_0 |].
  rewrite pretty_N_go_step by lia. apply IH; [| done].
  apply N.div_lt; lia.
Qed.

Lemma pretty_N_nonempty (x : N) : pretty x ≠ "".
Proof.
  unfold pretty, pretty_N. case_decide; [done |].
  destruct (decide (x = 0%N)) as [->|Hx]; [done |].
  rewrite pretty_N_go_step by lia. by apply pretty_N_go_nonempty.
Qed.

Lemma pretty_Z_nonempty (z : Z) : pretty z ≠ "".
Proof.
  destruct z as [|p|p]; [done | apply (pretty_N_nonempty (N.pos p)) | done].
Qed.

Lemma fmt_float_nonempty (z : Z) : fmt_float z ≠ "".
Proof.
  unfold fmt_float. destruct (Z.abs z <? 1000000); [apply pretty_Z_nonempty |].
  destruct (z <? 0); [done |]. simpl.
  destruct (trim_zeros (pretty (Z.abs z))) as [|d [|c rest]] eqn:E; [| done | done].
  intros H. apply (pretty_Z_nonempty (Z.abs z)).
  destruct (pretty (Z.abs z)); [done | discriminate H].
Qed.

(** Of all dynamic values only the empty string prints as the empty
    string. *)
Lemma fmt_Sprint_empty (v : any) : fmt_Sprint v = "" → v = AnyString "".
Proof.
  destruct v as [|[]|z|s|l|m]; simpl; try done.
  - intros H. by apply fmt_float_nonempty in H.
  - by intros ->.
Qed.

(** [parameter.Value == ""]: the comparison of a dynamic value with the
    empty string holds of the string value [""] alone. *)
#[global] Instance any_empty_string_dec (v : any) : Decision (v = AnyString "").
Proof.
  destruct v as [| b | z | s | l | m]; try (right; discriminate).
  destruct (decide (s = "")) as [-> | H]; [by left | right; congruence].
Defined.

Lemma any_is_empty_string_spec (v : any) : any_is_empty_string v = bool_decide (v = AnyString "").
Proof.
  destruct v as [| b | z | s | l | m]; try done. simpl.
  destruct (String.eqb_spec s "") as [-> | H]; symmetry.
  - by apply bool_decide_eq_true_2.
  - apply bool_decide_eq_false_2. congruence.
Qed.

(** X1. [convertParameters] keeps, in their order, exactly the parameters
    that have a name and whose value is not the empty string, each with its
    value as [fmt.Sprint] prints it, and drops the others, wherever they
    stand in the payload; a [nil] payload gives no parameters.  No converted
    parameter has an empty name or an empty value: a value that is not a
    string (a number, a boolean, [nil], a list, a map) never prints as the
    empty string. *)
Theorem convertParameters_keeps_named_values (payload : option RunPayload) :
  convertParameters payload
  = (λ parameter : string * any, mkRunParameter parameter.1 (fmt_Sprint parameter.2))
    <$> filter (λ parameter : string * any, parameter.1 ≠ "" ∧ parameter.2 ≠ AnyString "")
          (from_option payload_Parameters [] payload)
  ∧ Forall (λ p, param_Name p ≠ "" ∧ param_Value p ≠ "") (convertParameters payload).
Proof.
  destruct payload as [[parameters]|]; [| by split; [| constructor]].
  unfold convertParameters. cbn [from_option payload_Parameters].
  induction parameters as [|[name value] rest [IH1 IH2]]; [by split; [| constructor] |].
  rewrite filter_cons. cbn [omap list_omap fst snd].
  rewrite any_is_empty_string_spec.
  destruct (decide (name ≠ "" ∧ value ≠ AnyString "")) as [[Hname Hvalue] | Hdrop].
  - rewrite (proj2 (String.eqb_neq _ _) Hname), bool_decide_eq_false_2 by done.
    cbn [orb fmap list_fmap fst snd]. split; [by f_equal |].
    constructor; [| done]. cbn [param_Name param_Value]. split; [done |].
    by intros H%fmt_Sprint_empty.
  - assert (String.eqb name "" || bool_decide (value = AnyString "") = true) as ->; [| done].
    destruct (String.eqb_spec name "") as [-> | Hname]; [done |].
    apply bool_decide_eq_true_2. destruct (decide (value = AnyString "")); [done |].
    by destruct Hdrop.
Qed.

(** X2. [CreateScm] refuses exactly the multi-branch pipeline without a
    branch.  When it accepts, the record that [CreatePipelineRun] builds with
    its result passes the check of the reconciler: [getSCMRefName] gives the
    branch for a multi-branch pipeline and the empty name otherwise, and the
    record has not started, so that its first pass triggers it.  The record
    refers to the pipeline it was built for: the key under which a pass
    looks up the pipeline of the record, the namespace of the record with
    the name in the reference, is the key of that pipeline. *)
Theorem CreateScm_ref_name_resolves (pipeline : Pipeline) (payload : option RunPayload)
    (branch : string) :
  match CreateScm (pl_Spec pipeline) branch with
  | Fail _ => Type_ (pl_Spec pipeline) = MultiBranchPipelineType ∧ branch = ""
  | Ok scm =>
      let pr := CreatePipelineRun pipeline payload scm in
      ¬ (Type_ (pl_Spec pipeline) = MultiBranchPipelineType ∧ branch = "")
      ∧ getSCMRefName (pr_Spec pr)
        = Ok (if IsMultiBranchPipeline (pr_Spec pr) then branch else "")
      ∧ HasStarted pr = false
      ∧ ∃ ref, PipelineRef (pr_Spec pr) = Some ref
               ∧ ref_Kind ref = tm_Kind (pl_TypeMeta pipeline)
               ∧ (Namespace (pr_ObjectMeta pr), ref_Name ref) = pl_key pipeline
               ∧ ref_Namespace ref = Namespace (pl_ObjectMeta pipeline)
  end.
Proof.
  unfold CreateScm, getSCMRefName, IsMultiBranchPipeline. simpl.
  destruct (String.eqb (Type_ (pl_Spec pipeline)) MultiBranchPipelineType) eqn:Ht.
  - apply String.eqb_eq in Ht. destruct (String.eqb branch "") eqn:Hb.
    + apply String.eqb_eq in Hb. done.
    + apply String.eqb_neq in Hb. simpl. rewrite Ht. simpl.
      rewrite (proj2 (String.eqb_neq _ _) Hb).
      split; [by intros [_ ?] |]. split; [done |]. split; [done |]. by eexists.
  - apply String.eqb_neq in Ht. simpl.
    split; [by intros [? _] |]. split; [done |]. split; [done |]. by eexists.
Qed.

(** ** The passes that end after the first read *)

Section ShortPasses.
Variable hp : Helpers.

(** X3. A pass for a record that is not in the store makes the one read and
    nothing else: the store is as it was, no requeue is asked for, and a
    not-found answer is no error (any other error of the read is
    returned). *)
Theorem Reconcile_record_gone (r : Reconciler) (req : ObjectKey) (w : World) :
  w_runs w !! req = None →
  ∃ e,
    new_calls w (Reconcile hp r req w).2 = [CallGetRun req (Fail e)]
    ∧ (Reconcile hp r req w).1 = Done (Result_zero, if IsNotFound e then None else Some e)
    ∧ same_store w (Reconcile hp r req w).2
    ∧ (api_fault (r_Client r) (w_trace w) = None →
       e = NewNotFound "pipelineruns" req
       ∧ (Reconcile hp r req w).1 = Done (Result_zero, None)).
Proof.
  intros Hnone. unfold Reconcile. rewrite mbind_run. unfold Client_GetRun. rewrite Hnone.
  destruct (api_fault (r_Client r) (w_trace w)) as [e|]; cbn beta iota zeta.
  - exists e. rewrite mret_run. simpl. rewrite new_calls_record. by repeat split.
  - eexists. rewrite mret_run. simpl. rewrite new_calls_record. by repeat split.
Qed.

(** X4. A pass for a record that is not being deleted and that is not
    buildable reads the record and stops: no call to Jenkins, no write, no
    event, no error, no requeue. *)
Theorem Reconcile_not_buildable (r : Reconciler) (req : ObjectKey) (w : World)
    (pr : PipelineRun) :
  new_calls w (Reconcile hp r req w).2 !! 0%nat = Some (CallGetRun req (Ok pr)) →
  Time_IsZero (DeletionTimestamp (pr_ObjectMeta pr)) = true →
  Buildable hp pr = false →
  Reconcile hp r req w = (Done (Result_zero, None), record_call (CallGetRun req (Ok pr)) w).
Proof.
  destruct (Reconcile_run hp r req w) as (got & _ & -> & ->).
  intros [= ->] Hdel Hb. unfold Reconcile_after_read. rewrite Hdel.
  unfold Reconcile_building. by rewrite Hb.
Qed.
End ShortPasses.

(** A record that cannot be built (its completion time is set) and that is
    not being deleted. *)
Definition run_finished : PipelineRun :=
  mkPipelineRun
    (mkObjectMeta "run-5" "" "demo" "uid-run-5"
       (Some {[PipelineNameLabelKey := "pipeline-a"]})
       (Some {[JenkinsPipelineRunIDKey := "5"]}) []
       [PipelineRunFinalizerName] None)
    (mkPipelineRunSpec (Some (mkObjectReference "Pipeline" "pipeline-a" "demo"))
       (Some (pl_Spec pipeline_a)) [] None)
    (mkPipelineRunStatus (Some 500) (Some 700) (Some 700) [] "Succeeded").

Definition world_finished : World :=
  mkWorld {[("demo", "run-5") := run_finished]} {[("demo", "pipeline-a") := pipeline_a]}
    1000 0 [].

Lemma Reconcile_record_gone_witness :
  ∃ e,
    new_calls demo_world (Reconcile demo_helpers demo_reconciler ("demo", "run-9") demo_world).2
    = [CallGetRun ("demo", "run-9") (Fail e)]
    ∧ (Reconcile demo_helpers demo_reconciler ("demo", "run-9") demo_world).1
      = Done (Result_zero, if IsNotFound e then None else Some e)
    ∧ same_store demo_world
        (Reconcile demo_helpers demo_reconciler ("demo", "run-9") demo_world).2
    ∧ (api_fault (r_Client demo_reconciler) (w_trace demo_world) = None →
       e = NewNotFound "pipelineruns" ("demo", "run-9")
       ∧ (Reconcile demo_helpers demo_reconciler ("demo", "run-9") demo_world).1
         = Done (Result_zero, None)).
Proof.
  apply (Reconcile_record_gone demo_helpers demo_reconciler ("demo", "run-9") demo_world).
  vm_compute. reflexivity.
Defined.

Lemma Reconcile_not_buildable_witness :
  Reconcile demo_helpers demo_reconciler ("demo", "run-5") world_finished
  = (Done (Result_zero, None),
     record_call (CallGetRun ("demo", "run-5") (Ok run_finished)) world_finished).
Proof.
  apply (Reconcile_not_buildable demo_helpers demo_reconciler ("demo", "run-5")
           world_finished run_finished).
  - vm_compute. reflexivity.
  - reflexivity.
  - reflexivity.
Defined.

(** ** The passes for a record that is being deleted *)

(** The name under which Jenkins knows the job of a run. *)
Definition jenkinsJobName (pr : PipelineRun) (ref : ObjectReference) : string :=
  "job/" +:+ Namespace (pr_ObjectMeta pr) +:+ "/job/" +:+ ref_Name ref.

(** The error of [deleteJenkinsJobHistory] around an error of Jenkins. *)
Definition deleteHistoryError (jobName : string) (buildNum : Z) (e : error) : error :=
  errors_New ("failed to delete Jenkins job: " +:+ jobName +:+ ", build: "
              +:+ pretty buildNum +:+ ", error: " +:+ err_msg e).

(** A record without the identifier annotation has no build number. *)
Lemma getJenkinsBuildNumber_no_id (pr : PipelineRun) :
  run_id pr = None → getJenkinsBuildNumber pr = -1.
Proof.
  unfold getJenkinsBuildNumber, GetPipelineRunID, run_id. by intros ->.
Qed.

(** What the record in the store is once the write of the released record
    has been accepted. *)
Definition stored_released (pr : PipelineRun) (answer : option error) (w' : World) : Prop :=
  answer = None →
  ∃ stored, w_runs w' !! pr_key pr = Some stored
            ∧ pr_ObjectMeta stored = pr_ObjectMeta (released pr).

(** The ways through the arm of a record that is being deleted. *)
Inductive deleting_path (pr : PipelineRun) (w : World) (o : outcome (Result * option error))
    (w' : World) : Prop :=
| deleting_no_build (answer : option error) :
    getJenkinsBuildNumber pr < 0 →
    new_calls w w' = [CallUpdateRun (released pr) answer] →
    o = Done (Result_zero, answer) →
    stored_released pr answer w' →
    deleting_path pr w o w'
| deleting_no_reference :
    0 ≤ getJenkinsBuildNumber pr →
    PipelineRef (pr_Spec pr) = None →
    o = Panicked → w' = w →
    deleting_path pr w o w'
| deleting_history_deleted (ref : ObjectReference) (deleted answer : option error) :
    0 ≤ getJenkinsBuildNumber pr →
    PipelineRef (pr_Spec pr) = Some ref →
    (∀ e, deleted = Some e → strings_Contains (err_msg e) "not found resources" = true) →
    new_calls w w'
    = [CallDeleteHistory (jenkinsJobName pr ref) (getJenkinsBuildNumber pr) deleted;
       CallUpdateRun (released pr) answer] →
    o = Done (Result_zero, answer) →
    stored_released pr answer w' →
    deleting_path pr w o w'
| deleting_history_kept (ref : ObjectReference) (e : error) :
    0 ≤ getJenkinsBuildNumber pr →
    PipelineRef (pr_Spec pr) = Some ref →
    strings_Contains (err_msg e) "not found resources" = false →
    new_calls w w'
    = [CallDeleteHistory (jenkinsJobName pr ref) (getJenkinsBuildNumber pr) (Some e)] →
    o = Done (Result_zero,
              Some (deleteHistoryError (jenkinsJobName pr ref) (getJenkinsBuildNumber pr) e)) →
    same_store w w' →
    deleting_path pr w o w'.

Lemma Reconcile_deleting_path (r : Reconciler) (pr : PipelineRun) (w : World) :
  deleting_path pr w (Reconcile_deleting r pr w).1 (Reconcile_deleting r pr w).2.
Proof.
  destruct (Reconcile_deleting r pr w) as [o w'] eqn:ER. cbn [fst snd].
  unfold Reconcile_deleting in ER. fold (released pr) in ER. rewrite mbind_run in ER.
  unfold deleteJenkinsJobHistory in ER.
  destruct (getJenkinsBuildNumber pr <? 0) eqn:Hnum.
  { apply Z.ltb_lt in Hnum. rewrite mret_run in ER.
    destruct (released_update_run r pr w w [] o w' ltac:(by rewrite app_nil_r) ER)
      as (answer & E & -> & Hst).
    by eapply deleting_no_build. }
  apply Z.ltb_ge in Hnum.
  destruct (PipelineRef (pr_Spec pr)) as [ref|] eqn:Href.
  2: { simpl in ER. injection ER as <- <-. by apply deleting_no_reference. }
  rewrite mbind_run in ER. unfold job_DeleteHistory in ER.
  fold (jenkinsJobName pr ref) in ER.
  set (name := jenkinsJobName pr ref) in *.
  set (num := getJenkinsBuildNumber pr) in *.
  destruct (jenkins_DeleteHistory (r_JenkinsCore r) (w_trace w) name num) as [e|] eqn:Ean.
  - destruct (strings_Contains (err_msg e) "not found resources") eqn:Hcontains.
    + rewrite mret_run in ER.
      destruct (released_update_run r pr w
                  (record_call (CallDeleteHistory name num (Some e)) w)
                  [CallDeleteHistory name num (Some e)] o w' eq_refl ER)
        as (answer & E & -> & Hst).
      eapply (deleting_history_deleted pr w _ w' ref (Some e) answer); try done.
      by intros ? [= <-].
    + rewrite mret_run in ER. cbn beta iota in ER. rewrite mret_run in ER.
      injection ER as <- <-.
      eapply (deleting_history_kept pr w _ _ ref e); try done.
      apply new_calls_record.
  - rewrite mret_run in ER.
    destruct (released_update_run r pr w
                (record_call (CallDeleteHistory name num None) w)
                [CallDeleteHistory name num None] o w' eq_refl ER)
      as (answer & E & -> & Hst).
    eapply (deleting_history_deleted pr w _ w' ref None answer); try done.
Qed.

Section DeletingPasses.
Variable hp : Helpers.

(** The pass for a record that is being deleted is the read followed by one
    of the ways through the arm. *)
Lemma Reconcile_deleting_pass (r : Reconciler) (req : ObjectKey) (w : World)
    (pr : PipelineRun) :
  new_calls w (Reconcile hp r req w).2 !! 0%nat = Some (CallGetRun req (Ok pr)) →
  Time_IsZero (DeletionTimestamp (pr_ObjectMeta pr)) = false →
  ∃ w1, w_trace w1 = w_trace w ++ [CallGetRun req (Ok pr)]
        ∧ same_store w w1
        ∧ new_calls w (Reconcile hp r req w).2
          = CallGetRun req (Ok pr) :: new_calls w1 (Reconcile hp r req w).2
        ∧ deleting_path pr w1 (Reconcile hp r req w).1 (Reconcile hp r req w).2.
Proof.
  destruct (Reconcile_run hp r req w) as (got & _ & -> & ->).
  intros [= ->] Hdel. unfold Reconcile_after_read. rewrite Hdel.
  exists (record_call (CallGetRun req (Ok pr)) w).
  split; [done |]. split; [done |]. split; [done |]. apply Reconcile_deleting_path.
Qed.

(** X5. A record that is being deleted and has no valid build number (no
    identifier annotation, or one that is not the decimal of a number from 0
    on) is released without a call to Jenkins: the pass takes the finalizer
    off and writes the record back, and returns the answer of that write. *)
Theorem Reconcile_deleting_untriggered (r : Reconciler) (req : ObjectKey) (w : World)
    (pr : PipelineRun) :
  new_calls w (Reconcile hp r req w).2 !! 0%nat = Some (CallGetRun req (Ok pr)) →
  Time_IsZero (DeletionTimestamp (pr_ObjectMeta pr)) = false →
  getJenkinsBuildNumber pr < 0 →
  ∃ answer,
    new_calls w (Reconcile hp r req w).2
    = [CallGetRun req (Ok pr); CallUpdateRun (released pr) answer]
    ∧ (Reconcile hp r req w).1 = Done (Result_zero, answer)
    ∧ (answer = None →
       ∃ stored, w_runs (Reconcile hp r req w).2 !! pr_key pr = Some stored
                 ∧ PipelineRunFinalizerName ∉ Finalizers (pr_ObjectMeta stored)).
Proof.
  intros Hread Hdel Hnum.
  destruct (Reconcile_deleting_pass r req w pr Hread Hdel) as (w1 & _ & _ & -> & Hpath).
  destruct Hpath as [answer _ -> -> Hst | ? | ? ? ? ? | ? ? ?]; try lia.
  exists answer. split; [done |]. split; [done |]. intros Ha.
  destruct (Hst Ha) as (stored & Hs & Hm). exists stored. split; [done |].
  rewrite Hm. apply RemoveString_removes.
Qed.

(** X6. When Jenkins has deleted the history of the build, the pass was for
    a record of the store that is being deleted, and the call was made for
    the job [job/<namespace>/job/<pipeline>] of the record and for the
    number in its identifier annotation; the pass then takes the finalizer
    off, writes the record back and returns the answer of that write. *)
Theorem Reconcile_delete_history_done (r : Reconciler) (req : ObjectKey) (w : World)
    (jobName : string) (buildNum : Z) :
  CallDeleteHistory jobName buildNum None ∈ new_calls w (Reconcile hp r req w).2 →
  ∃ pr ref answer,
    new_calls w (Reconcile hp r req w).2
    = [CallGetRun req (Ok pr); CallDeleteHistory jobName buildNum None;
       CallUpdateRun (released pr) answer]
    ∧ w_runs w !! req = Some pr
    ∧ Time_IsZero (DeletionTimestamp (pr_ObjectMeta pr)) = false
    ∧ PipelineRef (pr_Spec pr) = Some ref
    ∧ jobName = jenkinsJobName pr ref
    ∧ buildNum = getJenkinsBuildNumber pr
    ∧ 0 ≤ buildNum
    ∧ (Reconcile hp r req w).1 = Done (Result_zero, answer)
    ∧ (answer = None →
       ∃ stored, w_runs (Reconcile hp r req w).2 !! pr_key pr = Some stored
                 ∧ PipelineRunFinalizerName ∉ Finalizers (pr_ObjectMeta stored)).
Proof.
  destruct (Reconcile_run hp r req w) as (got & Hgot & -> & ->).
  intros Hin. apply elem_of_cons in Hin as [Hin|Hin]; [discriminate Hin |].
  revert Hin. unfold Reconcile_after_read. destruct got as [pr|e0].
  2: { rewrite mret_run. simpl. rewrite new_calls_refl. intros Hin. not_among Hin. }
  specialize (Hgot pr eq_refl).
  destruct (Time_IsZero _) eqn:Hdel.
  { intros Hin.
    by apply (extends_kind _ _ _ _ (Reconcile_building_calls hp r req pr _)) in Hin. }
  destruct (Reconcile_deleting_path r pr (record_call (CallGetRun req (Ok pr)) w))
    as [answer _ -> _ _ | _ _ _ -> | ref deleted answer Hnum Href _ -> -> Hst
        | ref e _ _ _ -> _ _]; intros Hin.
  - not_among Hin.
  - rewrite new_calls_refl in Hin. not_among Hin.
  - apply elem_of_cons in Hin as [Hin|Hin]; [| not_among Hin].
    injection Hin as -> -> <-. exists pr, ref, answer. repeat split; try done.
    intros Ha. destruct (Hst Ha) as (stored & Hs & Hm). exists stored. split; [done |].
    rewrite Hm. apply RemoveString_removes.
  - not_among Hin.
Qed.

(** X7. When the delete-history call fails with an error that does not say
    "not found resources", the pass writes nothing: the store is as it was,
    the record keeps its finalizer, and the error returned names the job,
    the build number and the error of Jenkins; no requeue is asked for. *)
Theorem Reconcile_delete_history_failed (r : Reconciler) (req : ObjectKey) (w : World)
    (jobName : string) (buildNum : Z) (e : error) :
  CallDeleteHistory jobName buildNum (Some e) ∈ new_calls w (Reconcile hp r req w).2 →
  strings_Contains (err_msg e) "not found resources" = false →
  ∃ pr,
    new_calls w (Reconcile hp r req w).2
    = [CallGetRun req (Ok pr); CallDeleteHistory jobName buildNum (Some e)]
    ∧ (Reconcile hp r req w).1
      = Done (Result_zero, Some (deleteHistoryError jobName buildNum e))
    ∧ same_store w (Reconcile hp r req w).2.
Proof.
  destruct (Reconcile_run hp r req w) as (got & _ & -> & ->).
  intros Hin Hc. apply elem_of_cons in Hin as [Hin|Hin]; [discriminate Hin |].
  revert Hin. unfold Reconcile_after_read. destruct got as [pr|e0].
  2: { rewrite mret_run. simpl. rewrite new_calls_refl. intros Hin. not_among Hin. }
  destruct (Time_IsZero _).
  { intros Hin.
    by apply (extends_kind _ _ _ _ (Reconcile_building_calls hp r req pr _)) in Hin. }
  destruct (Reconcile_deleting_path r pr (record_call (CallGetRun req (Ok pr)) w))
    as [answer _ -> _ _ | _ _ _ -> | ref deleted answer _ _ Hdeleted -> _ _
        | ref e' _ _ _ -> -> Hsame]; intros Hin.
  - not_among Hin.
  - rewrite new_calls_refl in Hin. not_among Hin.
  - apply elem_of_cons in Hin as [Hin|Hin]; [| not_among Hin].
    injection Hin as _ _ <-. rewrite (Hdeleted e eq_refl) in Hc. done.
  - apply list_elem_of_singleton in Hin. injection Hin as -> -> ->.
    exists pr. split; [done |]. split; [done |]. exact Hsame.
Qed.

(** X8. [deleteJenkinsJobHistory] reads the name of the pipeline through the
    pipeline reference without a check: for a record that is being deleted,
    that has a build number and that has no pipeline reference, the pass
    stops in a nil dereference, after the read and before any other call. *)
Theorem Reconcile_deleting_without_reference (r : Reconciler) (req : ObjectKey) (w : World)
    (pr : PipelineRun) :
  new_calls w (Reconcile hp r req w).2 !! 0%nat = Some (CallGetRun req (Ok pr)) →
  Time_IsZero (DeletionTimestamp (pr_ObjectMeta pr)) = false →
  0 ≤ getJenkinsBuildNumber pr →
  PipelineRef (pr_Spec pr) = None →
  (Reconcile hp r req w).1 = Panicked
  ∧ new_calls w (Reconcile hp r req w).2 = [CallGetRun req (Ok pr)]
  ∧ same_store w (Reconcile hp r req w).2.
Proof.
  intros Hread Hdel Hnum Href.
  destruct (Reconcile_deleting_pass r req w pr Hread Hdel) as (w1 & E1 & Hs & -> & Hpath).
  destruct Hpath as [? ? | _ _ -> -> | ? ? ? ? Href' | ? ? ? Href']; try lia;
    try congruence.
  by rewrite new_calls_refl.
Qed.
End DeletingPasses.

(** A Jenkins server that deletes what it is asked to delete, and one that
    answers every request with an internal error. *)
Definition jenkins_deleting : JenkinsCore :=
  mkJenkinsCore (jenkins_Build demo_jenkins) (jenkins_GetBuild demo_jenkins)
    (jenkins_GetNodes demo_jenkins) (λ _ _ _, None) (jenkins_GetPipelineRuns demo_jenkins).

Definition jenkins_error : error := errors_New "unexpected status code: 500".

Definition jenkins_down : JenkinsCore :=
  mkJenkinsCore (λ _ _, Fail jenkins_error) (λ _ _, Fail jenkins_error)
    (λ _ _, Fail jenkins_error) (λ _ _ _, Some jenkins_error) (λ _ _ _, Fail jenkins_error).

(** A record that is deleted before it was triggered, and one that has a
    build behind it but no pipeline reference. *)
Definition run_deleting_untriggered : PipelineRun :=
  mkPipelineRun
    (mkObjectMeta "run-2" "" "demo" "uid-run-2" None None []
       [PipelineRunFinalizerName; "example.com/audit"] (Some 900))
    (mkPipelineRunSpec (Some (mkObjectReference "Pipeline" "pipeline-a" "demo"))
       (Some (pl_Spec pipeline_a)) [] None)
    (mkPipelineRunStatus None None None [] "").

Definition run_deleting_orphan : PipelineRun :=
  mkPipelineRun
    (mkObjectMeta "run-3" "" "demo" "uid-run-3" None
       (Some {[JenkinsPipelineRunIDKey := "3"]}) []
       [PipelineRunFinalizerName] (Some 900))
    (mkPipelineRunSpec None None [] None)
    (mkPipelineRunStatus None None None [] "").

Definition world_deleting_more : World :=
  mkWorld {[("demo", "run-2") := run_deleting_untriggered;
            ("demo", "run-3") := run_deleting_orphan;
            ("demo", "run-7") := run_deleting]}
    {[("demo", "pipeline-a") := pipeline_a]} 1000 0 [].

Lemma Reconcile_deleting_untriggered_witness :
  let out := Reconcile demo_helpers demo_reconciler ("demo", "run-2") world_deleting_more in
  ∃ answer,
    new_calls world_deleting_more out.2
    = [CallGetRun ("demo", "run-2") (Ok run_deleting_untriggered);
       CallUpdateRun (released run_deleting_untriggered) answer]
    ∧ out.1 = Done (Result_zero, answer)
    ∧ (answer = None →
       ∃ stored, w_runs out.2 !! pr_key run_deleting_untriggered = Some stored
                 ∧ PipelineRunFinalizerName ∉ Finalizers (pr_ObjectMeta stored)).
Proof.
  apply (Reconcile_deleting_untriggered demo_helpers demo_reconciler ("demo", "run-2")
           world_deleting_more run_deleting_untriggered).
  - vm_compute. reflexivity.
  - reflexivity.
  - vm_compute. reflexivity.
Defined.

Lemma Reconcile_delete_history_done_witness :
  let r := mkReconciler reliable jenkins_deleting in
  let out := Reconcile demo_helpers r ("demo", "run-7") world_deleting_more in
  ∃ pr ref answer,
    new_calls world_deleting_more out.2
    = [CallGetRun ("demo", "run-7") (Ok pr);
       CallDeleteHistory "job/demo/job/pipeline-a" 7 None;
       CallUpdateRun (released pr) answer]
    ∧ w_runs world_deleting_more !! ("demo", "run-7") = Some pr
    ∧ Time_IsZero (DeletionTimestamp (pr_ObjectMeta pr)) = false
    ∧ PipelineRef (pr_Spec pr) = Some ref
    ∧ "job/demo/job/pipeline-a" = jenkinsJobName pr ref
    ∧ 7 = getJenkinsBuildNumber pr
    ∧ 0 ≤ 7
    ∧ out.1 = Done (Result_zero, answer)
    ∧ (answer = None →
       ∃ stored, w_runs out.2 !! pr_key pr = Some stored
                 ∧ PipelineRunFinalizerName ∉ Finalizers (pr_ObjectMeta stored)).
Proof.
  apply (Reconcile_delete_history_done demo_helpers (mkReconciler reliable jenkins_deleting)
           ("demo", "run-7") world_deleting_more "job/demo/job/pipeline-a" 7).
  apply (list_elem_of_lookup_2 _ 1%nat). vm_compute. reflexivity.
Defined.

Lemma Reconcile_delete_history_failed_witness :
  let r := mkReconciler reliable jenkins_down in
  let out := Reconcile demo_helpers r ("demo", "run-7") world_deleting_more in
  ∃ pr,
    new_calls world_deleting_more out.2
    = [CallGetRun ("demo", "run-7") (Ok pr);
       CallDeleteHistory "job/demo/job/pipeline-a" 7 (Some jenkins_error)]
    ∧ out.1
      = Done (Result_zero,
              Some (deleteHistoryError "job/demo/job/pipeline-a" 7 jenkins_error))
    ∧ same_store world_deleting_more out.2.
Proof.
  apply (Reconcile_delete_history_failed demo_helpers (mkReconciler reliable jenkins_down)
           ("demo", "run-7") world_deleting_more "job/demo/job/pipeline-a" 7 jenkins_error).
  - apply (list_elem_of_lookup_2 _ 1%nat). vm_compute. reflexivity.
  - vm_compute. reflexivity.
Defined.

Lemma Reconcile_deleting_without_reference_witness :
  let out := Reconcile demo_helpers demo_reconciler ("demo", "run-3") world_deleting_more in
  out.1 = Panicked
  ∧ new_calls world_deleting_more out.2 = [CallGetRun ("demo", "run-3") (Ok run_deleting_orphan)]
  ∧ same_store world_deleting_more out.2.
Proof.
  apply (Reconcile_deleting_without_reference demo_helpers demo_reconciler ("demo", "run-3")
           world_deleting_more run_deleting_orphan).
  - vm_compute. reflexivity.
  - reflexivity.
  - vm_compute. discriminate.
  - reflexivity.
Defined.

(** ** The retry loops *)

Definition is_run_read (c : Call) : bool :=
  match c with CallGetRun _ _ => true | _ => false end.
Definition is_pipeline_read (c : Call) : bool :=
  match c with CallGetPipeline _ _ => true | _ => false end.
Definition is_pipeline_write (c : Call) : bool :=
  match c with CallUpdatePipeline _ _ => true | _ => false end.

(** The error with which a call was answered, if it was. *)
Definition call_error (c : Call) : option error :=
  match c with
  | CallGetRun _ (Fail e) | CallGetPipeline _ (Fail e) | CallListRuns _ _ (Fail e)
  | CallCreateRun _ (Fail e) | CallBuild _ (Fail e) | CallGetBuild _ (Fail e)
  | CallGetNodes _ (Fail e) | CallGetPipelineRuns _ _ (Fail e) => Some e
  | CallUpdateRun _ answer | CallUpdateRunStatus _ answer | CallUpdatePipeline _ answer
  | CallDeleteHistory _ _ answer => answer
  | _ => None
  end.

(** The calls [tr] of one attempt that ends with [err]: one call of the
    kind [P], at most one of the kind [W], no sleep; what the attempt
    returns is the answer of its last call. *)
Definition one_try (P W : Call → bool) (tr : list Call) (err : option error) : Prop :=
  count_calls P tr = 1%nat
  ∧ (count_calls W tr ≤ 1)%nat
  ∧ count_calls is_sleep tr = 0%nat
  ∧ ∃ c, last tr = Some c ∧ call_error c = err.

(** One run of a retried function is one attempt, and it returns. *)
Definition one_attempt (P W : Call → bool) (fn : M (option error)) : Prop :=
  ∀ w, ∃ err tr,
    (fn w).1 = Done err
    ∧ w_trace (fn w).2 = w_trace w ++ tr
    ∧ one_try P W tr err.

(** What a retry loop of at most [steps] attempts that sleep [d] in between
    has done: a row of attempts that each failed with a conflict and were
    each followed by one sleep of the duration [d], and then one final
    attempt, whose result is the result of the loop.  There are at most
    [steps] attempts in all, and when the final attempt has failed with a
    conflict, all the steps are used up.  So the loop goes on after a
    conflict only: a success and an error of another kind end it at once. *)
Definition retried (P W : Call → bool) (steps : nat) (d : Duration)
    (out : outcome (option error) * World) (w : World) : Prop :=
  ∃ (err : option error) (failed : list (list Call * error)) (final : list Call),
    out.1 = Done err
    ∧ w_trace out.2
      = w_trace w ++ concat ((λ a, a.1 ++ [CallSleep d]) <$> failed) ++ final
    ∧ Forall (λ a, one_try P W a.1 (Some a.2) ∧ IsConflict a.2 = true) failed
    ∧ one_try P W final err
    ∧ (S (length failed) ≤ steps)%nat
    ∧ (∀ e, err = Some e → IsConflict e = true → S (length failed) = steps).

Lemma count_calls_app (P : Call → bool) (tr1 tr2 : list Call) :
  count_calls P (tr1 ++ tr2) = (count_calls P tr1 + count_calls P tr2)%nat.
Proof. unfold count_calls. by rewrite List.filter_app, length_app. Qed.

Lemma count_calls_none (P : Call → bool) (tr : list Call) :
  count_calls P tr = 0%nat → Forall (λ c, P c = false) tr.
Proof.
  unfold count_calls. induction tr as [|c tr IH]; simpl; [constructor |].
  destruct (P c) eqn:Hc; simpl; [lia |]. intros H. constructor; [done | by apply IH].
Qed.

Lemma RetryOnConflict_retried (P W : Call → bool) (n : nat) (d : Duration)
    (fn : M (option error)) (w : World) :
  one_attempt P W fn →
  retried P W (S n) d (RetryOnConflict (S n) d fn w) w.
Proof.
  intros Hfn. revert w. induction n as [|n IH]; intros w.
  - destruct (Hfn w) as (err & tr & Hres & Etr & Htry).
    destruct (fn w) as [o w1] eqn:Efn. simpl in Hres, Etr. subst o.
    assert (RetryOnConflict 1 d fn w = (Done err, w1)) as ->.
    { simpl. rewrite mbind_run, Efn. destruct err as [e|]; [| done].
      by destruct (IsConflict e). }
    exists err, [], tr. simpl. split; [done |]. split; [done |].
    split; [constructor |]. split; [done |]. split; [lia | done].
  - destruct (Hfn w) as (err & tr & Hres & Etr & Htry).
    destruct (fn w) as [o w1] eqn:Efn. simpl in Hres, Etr. subst o.
    assert (RetryOnConflict (S (S n)) d fn w
            = match err with
              | Some e => if IsConflict e
                          then RetryOnConflict (S n) d fn (time_Sleep d w1).2
                          else (Done (Some e), w1)
              | None => (Done None, w1)
              end) as ->.
    { change (RetryOnConflict (S (S n)) d fn)
        with (err ← fn;
              match err with
              | None => mret None
              | Some e => if IsConflict e
                          then time_Sleep d;; RetryOnConflict (S n) d fn
                          else mret (Some e)
              end).
      rewrite mbind_run, Efn. destruct err as [e|]; [| done].
      by destruct (IsConflict e). }
    destruct err as [e|].
    2: { exists None, [], tr. simpl. split; [done |]. split; [done |].
         split; [constructor |]. split; [done |]. split; [lia | done]. }
    destruct (IsConflict e) eqn:He.
    2: { exists (Some e), [], tr. simpl. split; [done |]. split; [done |].
         split; [constructor |]. split; [done |]. split; [lia |].
         intros e' [= <-]. congruence. }
    destruct (IH (time_Sleep d w1).2)
      as (err' & failed & final & Hres' & Etr' & Hfailed & Hfinal & Hn & Hc').
    exists err', ((tr, e) :: failed), final. split; [done |].
    split. { rewrite Etr'. simpl. rewrite Etr. by rewrite <- !app_assoc. }
    split; [by constructor |]. split; [done |]. simpl. split; [lia |].
    intros e' Herr Hconf. specialize (Hc' e' Herr Hconf). lia.
Qed.

Ltac attempt_done :=
  rewrite ?mret_run; simpl; unfold one_try; repeat split; try done;
  first [ by rewrite <- ?app_assoc | unfold count_calls; simpl; lia | by eexists ].

Lemma updateStatus_attempt (r : Reconciler) (st : PipelineRunStatus) (key : ObjectKey) :
  one_attempt is_run_read is_status_write
    (got ← Client_GetRun (r_Client r) key;
     match got with
     | Fail err => mret (Some err)
     | Ok prToUpdate =>
         if bool_decide (st = pr_Status prToUpdate)
         then mret None
         else Client_StatusUpdateRun (r_Client r) (pr_set_Status st prToUpdate)
     end).
Proof.
  intros w. rewrite mbind_run.
  destruct (Client_GetRun_run (r_Client r) key w) as (got & -> & _).
  destruct got as [prToUpdate|e].
  - case_bool_decide.
    + exists None, [CallGetRun key (Ok prToUpdate)]. attempt_done.
    + destruct (Client_StatusUpdateRun_run (r_Client r) (pr_set_Status st prToUpdate)
                  (record_call (CallGetRun key (Ok prToUpdate)) w))
        as (answer & w1 & -> & Etr & _ & _).
      exists answer, [CallGetRun key (Ok prToUpdate);
                      CallUpdateRunStatus (pr_set_Status st prToUpdate) answer].
      simpl. rewrite Etr. attempt_done.
  - exists (Some e), [CallGetRun key (Fail e)]. attempt_done.
Qed.

Lemma synchronizedSuccessfully_attempt (r : SyncReconciler) (key : ObjectKey) :
  one_attempt is_pipeline_read is_pipeline_write
    (got ← Client_GetPipeline (sr_Client r) key;
     match got with
     | Fail err => mret (Some err)
     | Ok pipelineToUpdate =>
         match map_lookup (Annotations (pl_ObjectMeta pipelineToUpdate))
                 PipelineRequestToSyncRunsAnnoKey with
         | None => mret None
         | Some _ =>
             let annotations :=
               delete PipelineRequestToSyncRunsAnnoKey
                 <$> Annotations (pl_ObjectMeta pipelineToUpdate) in
             Client_UpdatePipeline (sr_Client r)
               (pl_set_Annotations annotations pipelineToUpdate)
         end
     end).
Proof.
  intros w. rewrite mbind_run.
  destruct (Client_GetPipeline_run (sr_Client r) key w) as (got & -> & _).
  destruct got as [p|e].
  - destruct (map_lookup _ _) as [marker|].
    + cbn zeta.
      match goal with |- context [Client_UpdatePipeline ?c ?p' ?w0] =>
        destruct (Client_UpdatePipeline_run c p' w0) as (answer & w1 & -> & Etr & _ & _);
        exists answer, [CallGetPipeline key (Ok p); CallUpdatePipeline p' answer]
      end.
      simpl. rewrite Etr. attempt_done.
    + exists None, [CallGetPipeline key (Ok p)]. attempt_done.
  - exists (Some e), [CallGetPipeline key (Fail e)]. attempt_done.
Qed.

(** X9. The two retry loops of the package, that of [updateStatus] and that
    of [synchronizedSuccessfully], never panic and make at most five
    attempts, each with one read and at most one write.  Every attempt but
    the last has failed with a conflict and is followed by one sleep of ten
    milliseconds (without the jitter of the library); the loop returns what
    its last attempt returns, which is the answer of the last call: a
    success and an error that is not a conflict end the loop at once, and
    a conflict is returned only when the five attempts are used up. *)
Theorem retry_loops_bounded (r : Reconciler) (st : PipelineRunStatus) (key : ObjectKey)
    (sr : SyncReconciler) (w : World) :
  retried is_run_read is_status_write 5 (10 * Millisecond) (updateStatus r st key w) w
  ∧ retried is_pipeline_read is_pipeline_write 5 (10 * Millisecond)
      (synchronizedSuccessfully sr key w) w.
Proof.
  split.
  - apply (RetryOnConflict_retried is_run_read is_status_write 4).
    apply updateStatus_attempt.
  - apply (RetryOnConflict_retried is_pipeline_read is_pipeline_write 4).
    apply synchronizedSuccessfully_attempt.
Qed.

(** A store in which every write of a status comes back with a conflict:
    the retry loop of [updateStatus] gives up after five writes and four
    sleeps and returns the conflict. *)
Definition conflict_on_status : Client :=
  mkClient (λ tr, match last tr with
                  | Some (CallGetRun _ (Ok _)) => Some conflict
                  | _ => None
                  end).

Example updateStatus_gives_up :
  let r := mkReconciler conflict_on_status demo_jenkins in
  let status := status_set_Phase Running (pr_Status run_1) in
  let out := updateStatus r status ("demo", "run-1") demo_world in
  out.1 = Done (Some conflict)
  ∧ count_calls is_status_write (new_calls demo_world out.2) = 5%nat
  ∧ count_calls is_sleep (new_calls demo_world out.2) = 4%nat
  ∧ w_runs out.2 = w_runs demo_world.
Proof. vm_compute. done. Qed.

(** ** What the metadata update writes *)

(** [prToUpdate] as [updateLabelsAndAnnotations] writes it: the stored
    record with the labels and annotations asked for and with the finalizer
    of the controller. *)
Definition withMetadata (pr old : PipelineRun) : PipelineRun :=
  let prToUpdate := pr_set_Labels (Labels (pr_ObjectMeta pr)) old in
  let prToUpdate := pr_set_Annotations (Annotations (pr_ObjectMeta pr)) prToUpdate in
  if negb (sliceutil_HasString (Finalizers (pr_ObjectMeta prToUpdate)) PipelineRunFinalizerName)
  then pr_set_Finalizers (Finalizers (pr_ObjectMeta prToUpdate) ++ [PipelineRunFinalizerName])
         prToUpdate
  else prToUpdate.

Lemma pr_set_Status_same (pr : PipelineRun) : pr_set_Status (pr_Status pr) pr = pr.
Proof. by destruct pr. Qed.

Lemma withMetadata_fields (pr old : PipelineRun) :
  pr_key (withMetadata pr old) = pr_key old
  ∧ pr_Status (withMetadata pr old) = pr_Status old
  ∧ pr_Spec (withMetadata pr old) = pr_Spec old
  ∧ Labels (pr_ObjectMeta (withMetadata pr old)) = Labels (pr_ObjectMeta pr)
  ∧ Annotations (pr_ObjectMeta (withMetadata pr old)) = Annotations (pr_ObjectMeta pr)
  ∧ OwnerReferences (pr_ObjectMeta (withMetadata pr old)) = OwnerReferences (pr_ObjectMeta old)
  ∧ UID (pr_ObjectMeta (withMetadata pr old)) = UID (pr_ObjectMeta old)
  ∧ DeletionTimestamp (pr_ObjectMeta (withMetadata pr old))
    = DeletionTimestamp (pr_ObjectMeta old)
  ∧ PipelineRunFinalizerName ∈ Finalizers (pr_ObjectMeta (withMetadata pr old))
  ∧ (Finalizers (pr_ObjectMeta (withMetadata pr old)) = Finalizers (pr_ObjectMeta old)
     ∨ ((PipelineRunFinalizerName ∉ Finalizers (pr_ObjectMeta old))
        ∧ Finalizers (pr_ObjectMeta (withMetadata pr old))
          = Finalizers (pr_ObjectMeta old) ++ [PipelineRunFinalizerName])).
Proof.
  unfold withMetadata, sliceutil_HasString. simpl. case_bool_decide as Hfin; simpl.
  - repeat split; try done. by left.
  - repeat split; try done; [| by right]. apply elem_of_app. right. by left.
Qed.

(** The run of [updateLabelsAndAnnotations], by what it reads. *)
Lemma updateLabelsAndAnnotations_run (r : Reconciler) (pr : PipelineRun) (w : World) :
  ∃ got,
    (∀ old, got = Ok old → w_runs w !! pr_key pr = Some old)
    ∧ match got with
      | Fail e =>
          updateLabelsAndAnnotations r pr w
          = (Done (Some e), record_call (CallGetRun (pr_key pr) got) w)
      | Ok old =>
          if bool_decide (Labels (pr_ObjectMeta pr) = Labels (pr_ObjectMeta old))
             && bool_decide (Annotations (pr_ObjectMeta pr) = Annotations (pr_ObjectMeta old))
          then updateLabelsAndAnnotations r pr w
               = (Done None, record_call (CallGetRun (pr_key pr) got) w)
          else updateLabelsAndAnnotations r pr w
               = Client_UpdateRun (r_Client r) (withMetadata pr old)
                   (record_call (CallGetRun (pr_key pr) got) w)
      end.
Proof.
  unfold updateLabelsAndAnnotations. rewrite mbind_run.
  destruct (Client_GetRun_run (r_Client r) (pr_key pr) w) as (got & -> & Hgot).
  exists got. split; [done |]. destruct got as [old|e]; [| done].
  by destruct (bool_decide _ && bool_decide _).
Qed.

(** The store after [updateLabelsAndAnnotations] has returned no error. *)
Lemma updateLabelsAndAnnotations_store (r : Reconciler) (pr old : PipelineRun) (w : World) :
  store_wf w →
  w_runs w !! pr_key pr = Some old →
  (updateLabelsAndAnnotations r pr w).1 = Done None →
  w_pipelines (updateLabelsAndAnnotations r pr w).2 = w_pipelines w
  ∧ w_runs (updateLabelsAndAnnotations r pr w).2
    = if bool_decide (Labels (pr_ObjectMeta pr) = Labels (pr_ObjectMeta old))
         && bool_decide (Annotations (pr_ObjectMeta pr) = Annotations (pr_ObjectMeta old))
      then w_runs w
      else <[pr_key pr := withMetadata pr old]> (w_runs w).
Proof.
  intros Hwf Hold.
  destruct (updateLabelsAndAnnotations_run r pr w) as (got & Hgot & Hrun).
  destruct got as [old'|e]; [| by rewrite Hrun].
  assert (old' = old) as -> by (specialize (Hgot _ eq_refl); congruence).
  destruct (bool_decide (Labels (pr_ObjectMeta pr) = Labels (pr_ObjectMeta old))
            && bool_decide (Annotations (pr_ObjectMeta pr) = Annotations (pr_ObjectMeta old))).
  { by rewrite Hrun. }
  destruct (Client_UpdateRun_run (r_Client r) (withMetadata pr old)
              (record_call (CallGetRun (pr_key pr) (Ok old)) w))
    as (answer & w1 & E & _ & Hp & Hans).
  rewrite Hrun, E. clear Hrun E. simpl. intros [= ->].
  destruct Hans as (stored0 & Hs0 & Hw1).
  destruct (withMetadata_fields pr old) as (Hk & Hst & _).
  assert (pr_key old = pr_key pr) as Hkey by by apply Hwf.
  rewrite Hk, Hkey in Hs0, Hw1. simpl in Hs0. assert (stored0 = old) as -> by congruence.
  by rewrite <- Hst, pr_set_Status_same in Hw1.
Qed.

(** X10. What [updateLabelsAndAnnotations] has done to a well-formed store
    when it returns no error.  If the stored record had the labels and the
    annotations asked for, nothing is written: the record stays as it was,
    also when it lacks the finalizer of the controller.  Otherwise the
    stored record has got the labels and annotations asked for and carries
    the finalizer, added at the end if it was not there; its spec, its
    status, its owner references and its deletion timestamp are what they
    were.  No other record and no pipeline is touched. *)
Theorem updateLabelsAndAnnotations_effect (r : Reconciler) (pr old : PipelineRun) (w : World) :
  store_wf w →
  w_runs w !! pr_key pr = Some old →
  (updateLabelsAndAnnotations r pr w).1 = Done None →
  let w' := (updateLabelsAndAnnotations r pr w).2 in
  w_pipelines w' = w_pipelines w
  ∧ (∀ k, k ≠ pr_key pr → w_runs w' !! k = w_runs w !! k)
  ∧ ∃ stored,
      w_runs w' !! pr_key pr = Some stored
      ∧ Labels (pr_ObjectMeta stored) = Labels (pr_ObjectMeta pr)
      ∧ Annotations (pr_ObjectMeta stored) = Annotations (pr_ObjectMeta pr)
      ∧ pr_Spec stored = pr_Spec old
      ∧ pr_Status stored = pr_Status old
      ∧ OwnerReferences (pr_ObjectMeta stored) = OwnerReferences (pr_ObjectMeta old)
      ∧ DeletionTimestamp (pr_ObjectMeta stored) = DeletionTimestamp (pr_ObjectMeta old)
      ∧ (Finalizers (pr_ObjectMeta stored) = Finalizers (pr_ObjectMeta old)
         ∨ ((PipelineRunFinalizerName ∉ Finalizers (pr_ObjectMeta old))
            ∧ Finalizers (pr_ObjectMeta stored)
              = Finalizers (pr_ObjectMeta old) ++ [PipelineRunFinalizerName]))
      ∧ (if bool_decide (Labels (pr_ObjectMeta pr) = Labels (pr_ObjectMeta old)
                         ∧ Annotations (pr_ObjectMeta pr) = Annotations (pr_ObjectMeta old))
         then stored = old
         else PipelineRunFinalizerName ∈ Finalizers (pr_ObjectMeta stored)).
Proof.
  intros Hwf Hold Hres.
  destruct (updateLabelsAndAnnotations_store r pr old w Hwf Hold Hres) as [Hp Hruns].
  cbn zeta. rewrite Hruns. clear Hruns. split; [done |].
  destruct (bool_decide (Labels (pr_ObjectMeta pr) = Labels (pr_ObjectMeta old))
            && bool_decide (Annotations (pr_ObjectMeta pr) = Annotations (pr_ObjectMeta old)))
    eqn:Hskip.
  - apply andb_true_iff in Hskip as [Hl%bool_decide_eq_true Ha%bool_decide_eq_true].
    rewrite bool_decide_eq_true_2 by done.
    split; [done |]. exists old. repeat split; try done. by left.
  - assert (¬ (Labels (pr_ObjectMeta pr) = Labels (pr_ObjectMeta old)
               ∧ Annotations (pr_ObjectMeta pr) = Annotations (pr_ObjectMeta old))) as Hne.
    { intros [Hl Ha]. by rewrite !bool_decide_eq_true_2 in Hskip. }
    rewrite bool_decide_eq_false_2 by done.
    destruct (withMetadata_fields pr old)
      as (Hk & Hst & Hsp & Hla & Han & Hown & _ & Hdel & Hfin & Hfins).
    split. { intros k Hk'. by apply lookup_insert_ne. }
    exists (withMetadata pr old). split; [apply lookup_insert_eq |].
    repeat split; done.
Qed.

Lemma updateLabelsAndAnnotations_effect_witness :
  let pr := triggered (setPipelineLabels "pipeline-a" run_1) (mkJobPipelineRun "7" AnyNil "" "") in
  let w' := (updateLabelsAndAnnotations demo_reconciler pr demo_world).2 in
  w_pipelines w' = w_pipelines demo_world
  ∧ (∀ k, k ≠ pr_key pr → w_runs w' !! k = w_runs demo_world !! k)
  ∧ ∃ stored,
      w_runs w' !! pr_key pr = Some stored
      ∧ Labels (pr_ObjectMeta stored) = Labels (pr_ObjectMeta pr)
      ∧ Annotations (pr_ObjectMeta stored) = Annotations (pr_ObjectMeta pr)
      ∧ pr_Spec stored = pr_Spec run_1
      ∧ pr_Status stored = pr_Status run_1
      ∧ OwnerReferences (pr_ObjectMeta stored) = OwnerReferences (pr_ObjectMeta run_1)
      ∧ DeletionTimestamp (pr_ObjectMeta stored) = DeletionTimestamp (pr_ObjectMeta run_1)
      ∧ (Finalizers (pr_ObjectMeta stored) = Finalizers (pr_ObjectMeta run_1)
         ∨ ((PipelineRunFinalizerName ∉ Finalizers (pr_ObjectMeta run_1))
            ∧ Finalizers (pr_ObjectMeta stored)
              = Finalizers (pr_ObjectMeta run_1) ++ [PipelineRunFinalizerName]))
      ∧ (if bool_decide (Labels (pr_ObjectMeta pr) = Labels (pr_ObjectMeta run_1)
                         ∧ Annotations (pr_ObjectMeta pr) = Annotations (pr_ObjectMeta run_1))
         then stored = run_1
         else PipelineRunFinalizerName ∈ Finalizers (pr_ObjectMeta stored)).
Proof.
  apply (updateLabelsAndAnnotations_effect demo_reconciler
           (triggered (setPipelineLabels "pipeline-a" run_1) (mkJobPipelineRun "7" AnyNil "" ""))
           run_1 demo_world).
  - exact demo_world_wf.
  - reflexivity.
  - vm_compute. reflexivity.
Defined.

(** ** The ways through a pass *)

(** The record with the two snapshots of the run in its annotations. *)
Definition withSnapshots (pr : PipelineRun) (runResultJSON prNodesJSON : string)
  : PipelineRun :=
  pr_set_Annotations
    (Some (<[JenkinsPipelineRunStagesStatusKey := prNodesJSON]>
             (<[JenkinsPipelineRunStatusKey := runResultJSON]>
                (map_make_if_nil (Annotations (pr_ObjectMeta pr)))))) pr.

Definition retrieveFailedEvent (pr : PipelineRun) (what : string) (e : error) : Call :=
  CallEvent (pr_key pr) EventTypeWarning RetrieveFailed
    ("Failed to retrieve " +:+ what +:+ " from Jenkins, and error was " +:+ err_msg e).

Definition triggerFailedEvent (pr : PipelineRun) (req : ObjectKey) (e : error) : Call :=
  CallEvent (pr_key pr) EventTypeWarning TriggerFailed
    ("Failed to trigger PipelineRun " +:+ NamespacedName_String req
     +:+ ", and error was " +:+ err_msg e).

Section Passes.
Variable hp : Helpers.

(** What [Reconcile_started] does once the run data is retrieved and
    serialized. *)
Definition afterRetrieval (r : Reconciler) (req : ObjectKey) (pr : PipelineRun)
    (pipelineBuild : job_PipelineRun) : M (Result * option error) :=
  err ← updateLabelsAndAnnotations r pr;
  match err with
  | Some e => mret (mkResult false Second, Some e)
  | None =>
      now ← time_Now;
      let status := pipelineBuildApplier_apply hp now pipelineBuild (pr_Status pr) in
      err ← updateStatus r status req;
      match err with
      | Some e => mret (mkResult false Second, Some e)
      | None =>
          Eventf (pr_key pr) EventTypeNormal Updated
            ("Updated running data for PipelineRun " +:+ NamespacedName_String req);;
          mret (mkResult false (3 * Second), None)
      end
  end.

Lemma afterRetrieval_calls r req pr build :
  keeps (extends is_write_back_call) (afterRetrieval r req pr build).
Proof.
  unfold afterRetrieval.
  repeat first [ calls_via updateStatus_calls
               | calls_via updateLabelsAndAnnotations_calls | calls_step ].
Qed.

(** The ways through the arm of a run that has started. *)
Inductive started_path (r : Reconciler) (req : ObjectKey) (ns name : string)
    (pr : PipelineRun) (w : World) (out : outcome (Result * option error) * World) : Prop :=
| started_not_asked (e : error) :
    (HasStarted pr = false ∨ getSCMRefName (pr_Spec pr) = Fail e) →
    out = (Done (Result_zero, Some e), record_call (retrieveFailedEvent pr "running data" e) w) →
    started_path r req ns name pr w out
| started_build_failed (id branch : string) (e : error) :
    GetPipelineRunID pr = (id, true) → getSCMRefName (pr_Spec pr) = Ok branch →
    out = (Done (Result_zero, Some e),
           record_call (retrieveFailedEvent pr "running data" e)
             (record_call (CallGetBuild (mkGetBuildOption id [ns; name] branch) (Fail e)) w)) →
    started_path r req ns name pr w out
| started_nodes_failed (id branch : string) (build : job_PipelineRun) (e : error) :
    GetPipelineRunID pr = (id, true) → getSCMRefName (pr_Spec pr) = Ok branch →
    out = (Done (Result_zero, Some e),
           record_call (retrieveFailedEvent pr "nodes detail" e)
             (record_call (CallGetNodes (mkGetNodesOption [ns; name] branch id) (Fail e))
                (record_call (CallGetBuild (mkGetBuildOption id [ns; name] branch) (Ok build))
                   w))) →
    started_path r req ns name pr w out
| started_not_serialized (id branch : string) (build : job_PipelineRun)
    (nodes : list job_Node) (e : error) :
    GetPipelineRunID pr = (id, true) → getSCMRefName (pr_Spec pr) = Ok branch →
    (json_Marshal_run hp build = Fail e
     ∨ (∃ json, json_Marshal_run hp build = Ok json) ∧ json_Marshal_nodes hp nodes = Fail e) →
    out = (Done (Result_zero, Some e),
           record_call (CallGetNodes (mkGetNodesOption [ns; name] branch id) (Ok nodes))
             (record_call (CallGetBuild (mkGetBuildOption id [ns; name] branch) (Ok build))
                w)) →
    started_path r req ns name pr w out
| started_retrieved (id branch : string) (build : job_PipelineRun) (nodes : list job_Node)
    (runResultJSON prNodesJSON : string) :
    GetPipelineRunID pr = (id, true) → getSCMRefName (pr_Spec pr) = Ok branch →
    json_Marshal_run hp build = Ok runResultJSON →
    json_Marshal_nodes hp nodes = Ok prNodesJSON →
    out = afterRetrieval r req (withSnapshots pr runResultJSON prNodesJSON) build
            (record_call (CallGetNodes (mkGetNodesOption [ns; name] branch id) (Ok nodes))
               (record_call (CallGetBuild (mkGetBuildOption id [ns; name] branch) (Ok build))
                  w)) →
    started_path r req ns name pr w out.

Lemma Reconcile_started_path r req ns name pr w :
  started_path r req ns name pr w (Reconcile_started hp r req ns name pr w).
Proof.
  unfold Reconcile_started. rewrite mbind_run.
  unfold getPipelineRunResult, getPipelineNodes.
  destruct (GetPipelineRunID pr) as [id [|]] eqn:Hid; simpl.
  2: { eapply (started_not_asked _ _ _ _ _ _ _
                 (errors_New "unable to get PipelineRun result due to not found run ID"));
         [| reflexivity].
       left. unfold HasStarted. by rewrite Hid. }
  destruct (getSCMRefName (pr_Spec pr)) as [branch|e] eqn:Hscm.
  2: { eapply (started_not_asked _ _ _ _ _ _ _ e); [by right | reflexivity]. }
  unfold BlueOcean_GetBuild.
  destruct (jenkins_GetBuild (r_JenkinsCore r) (w_trace w) _) as [build|e] eqn:Eb.
  2: { by eapply (started_build_failed _ _ _ _ _ _ _ id branch e). }
  cbn beta iota zeta. rewrite mbind_run. unfold BlueOcean_GetNodes.
  match goal with
  | |- context [jenkins_GetNodes ?jc ?tr ?o] => destruct (jenkins_GetNodes jc tr o) as [nodes|e] eqn:En
  end.
  2: { by eapply (started_nodes_failed _ _ _ _ _ _ _ id branch build e). }
  cbn beta iota zeta.
  destruct (json_Marshal_run hp build) as [runResultJSON|e] eqn:Er.
  2: { eapply (started_not_serialized _ _ _ _ _ _ _ id branch build nodes e); try done.
       by left. }
  destruct (json_Marshal_nodes hp nodes) as [prNodesJSON|e] eqn:Enodes.
  2: { eapply (started_not_serialized _ _ _ _ _ _ _ id branch build nodes e); try done.
       right. split; [by eexists | done]. }
  by eapply (started_retrieved _ _ _ _ _ _ _ id branch build nodes runResultJSON prNodesJSON).
Qed.

(** The ways through the arm of the first run. *)
Inductive first_run_path (r : Reconciler) (req : ObjectKey) (ns name : string)
    (pr : PipelineRun) (w : World) (out : outcome (Result * option error) * World) : Prop :=
| first_run_not_asked (e : error) :
    getSCMRefName (pr_Spec pr) = Fail e →
    out = (Done (Result_zero, Some e), record_call (triggerFailedEvent pr req e) w) →
    first_run_path r req ns name pr w out
| first_run_build_failed (branch : string) (e : error) :
    getSCMRefName (pr_Spec pr) = Ok branch →
    out = (Done (Result_zero, Some e),
           record_call (triggerFailedEvent pr req e)
             (record_call
                (CallBuild (mkBuildOption [ns; name]
                              (parameterConverter_convert hp (Parameters (pr_Spec pr))) branch)
                   (Fail e)) w)) →
    first_run_path r req ns name pr w out
| first_run_triggered (branch : string) (build : job_PipelineRun) :
    getSCMRefName (pr_Spec pr) = Ok branch →
    out = afterTrigger r req (triggered pr build)
            (record_call
               (CallBuild (mkBuildOption [ns; name]
                             (parameterConverter_convert hp (Parameters (pr_Spec pr))) branch)
                  (Ok build)) w) →
    first_run_path r req ns name pr w out.

Lemma Reconcile_firstRun_path r req ns name pr w :
  first_run_path r req ns name pr w (Reconcile_firstRun hp r req ns name pr w).
Proof.
  unfold Reconcile_firstRun, triggerJenkinsJob. rewrite mbind_run.
  destruct (getSCMRefName (pr_Spec pr)) as [branch|e] eqn:Hscm.
  2: { by eapply (first_run_not_asked _ _ _ _ _ _ _ e). }
  unfold BlueOcean_Build.
  destruct (jenkins_Build (r_JenkinsCore r) (w_trace w) _) as [build|e] eqn:E.
  - by eapply (first_run_triggered _ _ _ _ _ _ _ branch build).
  - by eapply (first_run_build_failed _ _ _ _ _ _ _ branch e).
Qed.
End Passes.

Lemma HasStarted_setPipelineLabels (name : string) (pr : PipelineRun) :
  HasStarted (setPipelineLabels name pr) = HasStarted pr.
Proof. reflexivity. Qed.

Section WholePass.
Variable hp : Helpers.

(** The ways through a pass of [Reconcile]. *)
Inductive pass_path (r : Reconciler) (req : ObjectKey) (w : World)
    (out : outcome (Result * option error) * World) : Prop :=
| pass_read_failed (e : error) :
    out = (Done (Result_zero, IgnoreNotFound (Some e)),
           record_call (CallGetRun req (Fail e)) w) →
    pass_path r req w out
| pass_deleting (pr : PipelineRun) :
    w_runs w !! req = Some pr →
    Time_IsZero (DeletionTimestamp (pr_ObjectMeta pr)) = false →
    out = Reconcile_deleting r pr (record_call (CallGetRun req (Ok pr)) w) →
    pass_path r req w out
| pass_not_buildable (pr : PipelineRun) :
    w_runs w !! req = Some pr →
    Time_IsZero (DeletionTimestamp (pr_ObjectMeta pr)) = true →
    Buildable hp pr = false →
    out = (Done (Result_zero, None), record_call (CallGetRun req (Ok pr)) w) →
    pass_path r req w out
| pass_orphan (pr : PipelineRun) :
    w_runs w !! req = Some pr →
    Time_IsZero (DeletionTimestamp (pr_ObjectMeta pr)) = true →
    Buildable hp pr = true →
    (∀ ref, PipelineRef (pr_Spec pr) = Some ref → ref_Name ref = "") →
    out = (err ← makePipelineRunOrphan r pr; mret (Result_zero, err))
            (record_call (CallGetRun req (Ok pr)) w) →
    pass_path r req w out
| pass_pipeline_failed (pr : PipelineRun) (ref : ObjectReference) (e : error) :
    w_runs w !! req = Some pr →
    Time_IsZero (DeletionTimestamp (pr_ObjectMeta pr)) = true →
    Buildable hp pr = true →
    PipelineRef (pr_Spec pr) = Some ref → ref_Name ref ≠ "" →
    out = (Done (Result_zero, IgnoreNotFound (Some e)),
           record_call (CallGetPipeline (Namespace (pr_ObjectMeta pr), ref_Name ref) (Fail e))
             (record_call (CallGetRun req (Ok pr)) w)) →
    pass_path r req w out
| pass_started (pr : PipelineRun) (ref : ObjectReference) (pipeline : Pipeline) :
    w_runs w !! req = Some pr →
    Time_IsZero (DeletionTimestamp (pr_ObjectMeta pr)) = true →
    Buildable hp pr = true →
    PipelineRef (pr_Spec pr) = Some ref → ref_Name ref ≠ "" →
    w_pipelines w !! (Namespace (pr_ObjectMeta pr), ref_Name ref) = Some pipeline →
    HasStarted pr = true →
    out = Reconcile_started hp r req (Namespace (pl_ObjectMeta pipeline))
            (Name (pl_ObjectMeta pipeline))
            (setPipelineLabels (Name (pl_ObjectMeta pipeline)) pr)
            (record_call
               (CallGetPipeline (Namespace (pr_ObjectMeta pr), ref_Name ref) (Ok pipeline))
               (record_call (CallGetRun req (Ok pr)) w)) →
    pass_path r req w out
| pass_first_run (pr : PipelineRun) (ref : ObjectReference) (pipeline : Pipeline) :
    w_runs w !! req = Some pr →
    Time_IsZero (DeletionTimestamp (pr_ObjectMeta pr)) = true →
    Buildable hp pr = true →
    PipelineRef (pr_Spec pr) = Some ref → ref_Name ref ≠ "" →
    w_pipelines w !! (Namespace (pr_ObjectMeta pr), ref_Name ref) = Some pipeline →
    HasStarted pr = false →
    out = Reconcile_firstRun hp r req (Namespace (pl_ObjectMeta pipeline))
            (Name (pl_ObjectMeta pipeline))
            (setPipelineLabels (Name (pl_ObjectMeta pipeline)) pr)
            (record_call
               (CallGetPipeline (Namespace (pr_ObjectMeta pr), ref_Name ref) (Ok pipeline))
               (record_call (CallGetRun req (Ok pr)) w)) →
    pass_path r req w out.

Lemma Reconcile_pass (r : Reconciler) (req : ObjectKey) (w : World) :
  pass_path r req w (Reconcile hp r req w).
Proof.
  unfold Reconcile. rewrite mbind_run.
  destruct (Client_GetRun_run (r_Client r) req w) as (got & -> & Hgot).
  destruct got as [pr|e]; [| by eapply pass_read_failed].
  specialize (Hgot pr eq_refl).
  destruct (Time_IsZero (DeletionTimestamp (pr_ObjectMeta pr))) eqn:Hdel; simpl.
  2: { apply (pass_deleting r req w _ pr Hgot Hdel). reflexivity. }
  unfold Reconcile_building.
  destruct (Buildable hp pr) eqn:Hb; simpl.
  2: { apply (pass_not_buildable r req w _ pr Hgot Hdel Hb). reflexivity. }
  destruct (PipelineRef (pr_Spec pr)) as [ref|] eqn:Href.
  2: { apply (pass_orphan r req w _ pr Hgot Hdel Hb); [| reflexivity].
       intros ref Hr. congruence. }
  destruct (String.eqb (ref_Name ref) "") eqn:Hname.
  { apply String.eqb_eq in Hname.
    apply (pass_orphan r req w _ pr Hgot Hdel Hb); [| reflexivity].
    intros ref' Hr. congruence. }
  apply String.eqb_neq in Hname. rewrite mbind_run.
  destruct (Client_GetPipeline_run (r_Client r) (Namespace (pr_ObjectMeta pr), ref_Name ref)
              (record_call (CallGetRun req (Ok pr)) w)) as (gotp & -> & Hgotp).
  destruct gotp as [pipeline|e];
    [| apply (pass_pipeline_failed r req w _ pr ref e Hgot Hdel Hb Href Hname); reflexivity].
  specialize (Hgotp pipeline eq_refl). cbn beta iota zeta.
  rewrite HasStarted_setPipelineLabels.
  destruct (HasStarted pr) eqn:Hst.
  - apply (pass_started r req w _ pr ref pipeline Hgot Hdel Hb Href Hname Hgotp Hst).
    reflexivity.
  - apply (pass_first_run r req w _ pr ref pipeline Hgot Hdel Hb Href Hname Hgotp Hst).
    reflexivity.
Qed.

(** *** The write-back never panics *)

Lemma updateLabelsAndAnnotations_returns r pr w :
  ∃ err, (updateLabelsAndAnnotations r pr w).1 = Done err.
Proof.
  destruct (updateLabelsAndAnnotations_single_attempt r pr w)
    as [(got & _ & [H|(e & _ & H)])|(got & p & answer & _ & H)]; by eexists.
Qed.

Lemma updateStatus_returns r st key w : ∃ err, (updateStatus r st key w).1 = Done err.
Proof.
  destruct (RetryOnConflict_retried is_run_read is_status_write 4 (10 * Millisecond) _ w
              (updateStatus_attempt r st key)) as (err & failed & final & H & _).
  by exists err.
Qed.

Lemma afterTrigger_returns r req pr w :
  ∃ res err, (afterTrigger r req pr w).1 = Done (res, err)
             ∧ res = match err with
                     | None => mkResult false (1 * Second)
                     | Some _ => Result_zero
                     end.
Proof.
  unfold afterTrigger. rewrite mbind_run.
  destruct (updateLabelsAndAnnotations_returns r pr w) as (err & H).
  destruct (updateLabelsAndAnnotations r pr w) as [o w1]. simpl in H. subst o.
  destruct err as [e|]; [by eexists _, (Some e) |].
  rewrite mbind_run. unfold time_Now at 1. cbn beta iota.
  rewrite mbind_run. unfold time_Now at 1. cbn beta iota. rewrite mbind_run.
  match goal with
  | |- context [updateStatus r ?st req ?w0] =>
      destruct (updateStatus_returns r st req w0) as (err & H);
      destruct (updateStatus r st req w0) as [o w2]
  end.
  simpl in H. subst o. destruct err as [e|]; [by eexists _, (Some e) |].
  by eexists _, None.
Qed.

Lemma afterRetrieval_returns r req pr build w :
  ∃ res err, (afterRetrieval hp r req pr build w).1 = Done (res, err)
             ∧ res = match err with
                     | None => mkResult false (3 * Second)
                     | Some _ => mkResult false Second
                     end.
Proof.
  unfold afterRetrieval. rewrite mbind_run.
  destruct (updateLabelsAndAnnotations_returns r pr w) as (err & H).
  destruct (updateLabelsAndAnnotations r pr w) as [o w1]. simpl in H. subst o.
  destruct err as [e|]; [by eexists _, (Some e) |].
  rewrite mbind_run. unfold time_Now at 1. cbn beta iota. rewrite mbind_run.
  match goal with
  | |- context [updateStatus r ?st req ?w0] =>
      destruct (updateStatus_returns r st req w0) as (err & H);
      destruct (updateStatus r st req w0) as [o w2]
  end.
  simpl in H. subst o. destruct err as [e|]; [by eexists _, (Some e) |].
  by eexists _, None.
Qed.
End WholePass.

(** ** Failures of Jenkins and the requeue policy *)

(** The three requests about a run: trigger, result, stages. *)
Definition is_run_request (c : Call) : bool :=
  match c with
  | CallBuild _ _ | CallGetBuild _ _ | CallGetNodes _ _ => true
  | _ => false
  end.
Definition is_poll_call (c : Call) : bool :=
  match c with CallGetBuild _ _ => true | _ => false end.

(** A request about a run that Jenkins answered with the error [e]. *)
Definition failed_run_request (e : error) (c : Call) : Prop :=
  (∃ o, c = CallBuild o (Fail e)) ∨ (∃ o, c = CallGetBuild o (Fail e))
  ∨ (∃ o, c = CallGetNodes o (Fail e)).

(** The warning event that follows a failed request. *)
Definition failureEvent (pr : PipelineRun) (req : ObjectKey) (e : error) (c : Call) : Call :=
  match c with
  | CallBuild _ _ => triggerFailedEvent pr req e
  | CallGetBuild _ _ => retrieveFailedEvent pr "running data" e
  | _ => retrieveFailedEvent pr "nodes detail" e
  end.

Lemma failed_run_request_kind (e : error) (c : Call) :
  failed_run_request e c → is_run_request c = true ∧ call_failed c = true.
Proof. by intros [(o & ->)|[(o & ->)|(o & ->)]]. Qed.

Lemma new_calls_prefix (P : Call → bool) (w w1 w' : World) (tr0 : list Call) :
  w_trace w1 = w_trace w ++ tr0 → extends P w1 w' →
  new_calls w w' = tr0 ++ new_calls w1 w' ∧ Forall (λ c, P c = true) (new_calls w1 w').
Proof.
  intros E0 H. destruct (extends_new_calls _ _ _ H) as [E F]. split; [| done].
  by apply (new_calls_trans w w1 w').
Qed.

Lemma existsb_kind (P Q : Call → bool) (tr : list Call) :
  Forall (λ c, P c = true) tr → (∀ c, P c = true → Q c = false) → existsb Q tr = false.
Proof.
  intros F HPQ. induction F as [|c tr Hc F IH]; simpl; [done |]. by rewrite (HPQ c Hc), IH.
Qed.

Ltac pass_calls :=
  erewrite new_calls_app; [| simpl; rewrite <- ?app_assoc; reflexivity].

Lemma not_run_request (P : Call → bool) (tr : list Call) (c : Call) :
  Forall (λ c, P c = true) tr → (∀ c, P c = true → is_run_request c = false) →
  c ∈ tr → is_run_request c = true → False.
Proof.
  intros F HP Hin Hk. rewrite Forall_forall in F. specialize (HP c (F c Hin)). congruence.
Qed.

Ltac prune_calls Hin Hk Hf :=
  repeat (apply elem_of_cons in Hin as [-> | Hin];
          [first [discriminate Hk | discriminate Hf] |]);
  try (by apply elem_of_nil in Hin).

Ltac prune_tail Hin Hk F :=
  exfalso; apply (not_run_request _ _ _ F) in Hin; [done | by intros [] | exact Hk].

Section Failures.
Variable hp : Helpers.

(** X11. When Jenkins answers the trigger, the retrieval of the result or the
    retrieval of the stages with an error, the pass returns that error and
    asks for no requeue, the store is as it was, and the last thing the pass
    has done is to record a warning event ([TriggerFailed] for the trigger,
    [RetrieveFailed] for the two retrievals). *)
Theorem Reconcile_run_request_failed (r : Reconciler) (req : ObjectKey) (w : World)
    (c : Call) (e : error) :
  c ∈ new_calls w (Reconcile hp r req w).2 →
  failed_run_request e c →
  (Reconcile hp r req w).1 = Done (Result_zero, Some e)
  ∧ same_store w (Reconcile hp r req w).2
  ∧ ∃ pr, w_runs w !! req = Some pr
          ∧ last (new_calls w (Reconcile hp r req w).2) = Some (failureEvent pr req e c).
Proof.
  intros Hin Hc. destruct (failed_run_request_kind e c Hc) as [Hk Hf].
  destruct (Reconcile_pass hp r req w)
    as [e0 E | pr Hpr Hdel E | pr Hpr Hdel Hb E | pr Hpr Hdel Hb Href E
        | pr ref e0 Hpr Hdel Hb Href Hname E
        | pr ref pl Hpr Hdel Hb Href Hname Hpl Hst E
        | pr ref pl Hpr Hdel Hb Href Hname Hpl Hst E];
    rewrite E in Hin |- *; clear E.
  - exfalso. simpl in Hin. rewrite new_calls_record in Hin. prune_calls Hin Hk Hf.
  - destruct (new_calls_prefix _ w (record_call (CallGetRun req (Ok pr)) w) _
                [CallGetRun req (Ok pr)] eq_refl
                (Reconcile_deleting_calls r pr _)) as [E F].
    rewrite E in Hin. apply elem_of_app in Hin as [Hin|Hin]; [exfalso; prune_calls Hin Hk Hf |].
    prune_tail Hin Hk F.
  - exfalso. simpl in Hin. rewrite new_calls_record in Hin. prune_calls Hin Hk Hf.
  - destruct (new_calls_prefix _ w (record_call (CallGetRun req (Ok pr)) w) _
                [CallGetRun req (Ok pr)] eq_refl
                (orphan_calls r pr _)) as [E F].
    rewrite E in Hin. apply elem_of_app in Hin as [Hin|Hin]; [exfalso; prune_calls Hin Hk Hf |].
    prune_tail Hin Hk F.
  - exfalso. revert Hin. cbn [snd]. pass_calls. intros Hin. prune_calls Hin Hk Hf.
  - set (pr1 := setPipelineLabels _ pr) in *.
    destruct (Reconcile_started_path hp r req (Namespace (pl_ObjectMeta pl))
                (Name (pl_ObjectMeta pl)) pr1
                (record_call
                   (CallGetPipeline (Namespace (pr_ObjectMeta pr), ref_Name ref) (Ok pl))
                   (record_call (CallGetRun req (Ok pr)) w)))
      as [e1 _ E | id branch e1 _ _ E | id branch build e1 _ _ E
          | id branch build nodes e1 _ _ _ E | id branch build nodes j1 j2 _ _ _ _ E];
      rewrite E in Hin |- *; clear E.
    + exfalso. revert Hin. cbn [snd]. pass_calls. intros Hin. prune_calls Hin Hk Hf.
    + revert Hin. cbn [fst snd]. pass_calls. intros Hin.
      prune_calls Hin Hk Hf. apply elem_of_cons in Hin as [-> | Hin].
      2: { exfalso. prune_calls Hin Hk Hf. }
      assert (e1 = e) as -> by (destruct Hc as [(? & [=])|[(? & [=])|(? & [=])]]; done).
      split; [done |]. split; [done |]. by exists pr.
    + revert Hin. cbn [fst snd]. pass_calls. intros Hin.
      prune_calls Hin Hk Hf. apply elem_of_cons in Hin as [-> | Hin].
      2: { exfalso. prune_calls Hin Hk Hf. }
      assert (e1 = e) as -> by (destruct Hc as [(? & [=])|[(? & [=])|(? & [=])]]; done).
      split; [done |]. split; [done |]. by exists pr.
    + exfalso. revert Hin. cbn [snd]. pass_calls. intros Hin. prune_calls Hin Hk Hf.
    + match type of Hin with
      | _ ∈ new_calls w (afterRetrieval hp r req ?p ?b ?w3).2 =>
          destruct (new_calls_prefix _ w w3 _
                      [CallGetRun req (Ok pr);
                       CallGetPipeline (Namespace (pr_ObjectMeta pr), ref_Name ref) (Ok pl);
                       CallGetBuild (mkGetBuildOption id
                                       [Namespace (pl_ObjectMeta pl); Name (pl_ObjectMeta pl)]
                                       branch) (Ok build);
                       CallGetNodes (mkGetNodesOption
                                       [Namespace (pl_ObjectMeta pl); Name (pl_ObjectMeta pl)]
                                       branch id) (Ok nodes)]
                      ltac:(simpl; by rewrite <- !app_assoc)
                      (afterRetrieval_calls hp r req p b w3)) as [E F]
      end.
      rewrite E in Hin. apply elem_of_app in Hin as [Hin|Hin]; [exfalso; prune_calls Hin Hk Hf |].
      prune_tail Hin Hk F.
  - set (pr1 := setPipelineLabels _ pr) in *.
    destruct (Reconcile_firstRun_path hp r req (Namespace (pl_ObjectMeta pl))
                (Name (pl_ObjectMeta pl)) pr1
                (record_call
                   (CallGetPipeline (Namespace (pr_ObjectMeta pr), ref_Name ref) (Ok pl))
                   (record_call (CallGetRun req (Ok pr)) w)))
      as [e1 _ E | branch e1 _ E | branch build _ E]; rewrite E in Hin |- *; clear E.
    + exfalso. revert Hin. cbn [snd]. pass_calls. intros Hin. prune_calls Hin Hk Hf.
    + revert Hin. cbn [fst snd]. pass_calls. intros Hin.
      prune_calls Hin Hk Hf. apply elem_of_cons in Hin as [-> | Hin].
      2: { exfalso. prune_calls Hin Hk Hf. }
      assert (e1 = e) as -> by (destruct Hc as [(? & [=])|[(? & [=])|(? & [=])]]; done).
      split; [done |]. split; [done |]. by exists pr.
    + match type of Hin with
      | _ ∈ new_calls w (afterTrigger r req ?p ?w3).2 =>
          destruct (new_calls_prefix _ w w3 _
                      [CallGetRun req (Ok pr);
                       CallGetPipeline (Namespace (pr_ObjectMeta pr), ref_Name ref) (Ok pl);
                       CallBuild (mkBuildOption
                                    [Namespace (pl_ObjectMeta pl); Name (pl_ObjectMeta pl)]
                                    (parameterConverter_convert hp (Parameters (pr_Spec pr1)))
                                    branch) (Ok build)]
                      ltac:(simpl; by rewrite <- !app_assoc)
                      (afterTrigger_calls r req p w3)) as [E F]
      end.
      rewrite E in Hin. apply elem_of_app in Hin as [Hin|Hin]; [exfalso; prune_calls Hin Hk Hf |].
      prune_tail Hin Hk F.
Qed.
End Failures.

Lemma Reconcile_run_request_failed_witness :
  let r := mkReconciler reliable jenkins_down in
  let c := CallBuild (mkBuildOption ["demo"; "pipeline-a"] [] "") (Fail jenkins_error) in
  (Reconcile demo_helpers r ("demo", "run-1") demo_world).1
  = Done (Result_zero, Some jenkins_error)
  ∧ same_store demo_world (Reconcile demo_helpers r ("demo", "run-1") demo_world).2
  ∧ ∃ pr, w_runs demo_world !! ("demo", "run-1") = Some pr
          ∧ last (new_calls demo_world
                    (Reconcile demo_helpers r ("demo", "run-1") demo_world).2)
            = Some (failureEvent pr ("demo", "run-1") jenkins_error c).
Proof.
  apply (Reconcile_run_request_failed demo_helpers (mkReconciler reliable jenkins_down)
           ("demo", "run-1") demo_world
           (CallBuild (mkBuildOption ["demo"; "pipeline-a"] [] "") (Fail jenkins_error))
           jenkins_error).
  - apply (list_elem_of_lookup_2 _ 2%nat). vm_compute. reflexivity.
  - left. eexists. reflexivity.
Defined.

Lemma bind_ret_result {A B : Type} (m : M A) (f : A → B) (w : World) (b : B) :
  ((a ← m; mret (f a)) w).1 = Done b → ∃ a, b = f a.
Proof.
  rewrite mbind_run. destruct (m w) as [[a|] w1]; [| done].
  rewrite mret_run. intros [= <-]. by exists a.
Qed.

Section Requeue.
Variable hp : Helpers.

(** X12. The requeue policy of [Reconcile].  The pass never sets the
    [Requeue] flag.  A pass that ends without error asks to be run again
    after three seconds when it has polled Jenkins, after one second when it
    has triggered the run, and not at all otherwise.  A pass that ends with
    an error asks for no requeue, except that a polling pass that has got
    both answers from Jenkins and then fails asks for one after one
    second. *)
Theorem Reconcile_requeue (r : Reconciler) (req : ObjectKey) (w : World)
    (res : Result) (err : option error) :
  (Reconcile hp r req w).1 = Done (res, err) →
  Requeue res = false
  ∧ match err with
    | None =>
        RequeueAfter res
        = if existsb is_poll_call (new_calls w (Reconcile hp r req w).2) then 3 * Second
          else if existsb is_trigger_call (new_calls w (Reconcile hp r req w).2) then Second
               else 0
    | Some _ =>
        RequeueAfter res = 0
        ∨ (RequeueAfter res = Second
           ∧ ∃ o nodes, CallGetNodes o (Ok nodes) ∈ new_calls w (Reconcile hp r req w).2)
    end.
Proof.
  destruct (Reconcile_pass hp r req w)
    as [e0 E | pr Hpr Hdel E | pr Hpr Hdel Hb E | pr Hpr Hdel Hb Href E
        | pr ref e0 Hpr Hdel Hb Href Hname E
        | pr ref pl Hpr Hdel Hb Href Hname Hpl Hst E
        | pr ref pl Hpr Hdel Hb Href Hname Hpl Hst E];
    rewrite E; clear E.
  - cbn [fst snd]. intros [= <- <-]. rewrite new_calls_record. split; [done |].
    destruct (IsNotFound e0); [done | by left].
  - destruct (new_calls_prefix _ w (record_call (CallGetRun req (Ok pr)) w) _
                [CallGetRun req (Ok pr)] eq_refl (Reconcile_deleting_calls r pr _)) as [E F].
    rewrite E, !existsb_app. simpl.
    rewrite (existsb_kind _ is_poll_call _ F) by by intros [].
    rewrite (existsb_kind _ is_trigger_call _ F) by by intros [].
    destruct (Reconcile_deleting_path r pr (record_call (CallGetRun req (Ok pr)) w))
      as [answer _ _ -> _ | _ _ -> _ | ? ? answer _ _ _ _ -> _ | ? ? _ _ _ _ -> _];
      intros [= <- <-]; split; try done; try (by left).
    all: destruct answer; [by left | done].
  - cbn [fst snd]. intros [= <- <-]. by rewrite new_calls_record.
  - destruct (new_calls_prefix _ w (record_call (CallGetRun req (Ok pr)) w) _
                [CallGetRun req (Ok pr)] eq_refl (orphan_calls r pr _)) as [E F].
    rewrite E, !existsb_app. simpl.
    rewrite (existsb_kind _ is_poll_call _ F) by by intros [].
    rewrite (existsb_kind _ is_trigger_call _ F) by by intros [].
    intros H. apply (bind_ret_result _ (λ err, (Result_zero, err))) in H as (err' & [= -> ->]).
    split; [done |]. destruct err'; [by left | done].
  - cbn [fst snd]. intros [= <- <-]. pass_calls. split; [done |].
    destruct (IsNotFound e0); [done | by left].
  - set (pr1 := setPipelineLabels _ pr) in *.
    destruct (Reconcile_started_path hp r req (Namespace (pl_ObjectMeta pl))
                (Name (pl_ObjectMeta pl)) pr1
                (record_call
                   (CallGetPipeline (Namespace (pr_ObjectMeta pr), ref_Name ref) (Ok pl))
                   (record_call (CallGetRun req (Ok pr)) w)))
      as [e1 _ E | id branch e1 _ _ E | id branch build e1 _ _ E
          | id branch build nodes e1 _ _ _ E | id branch build nodes j1 j2 _ _ _ _ E];
      rewrite E; clear E; try (cbn [fst snd]; intros [= <- <-]; split; [done | by left]).
    match goal with
    | |- (afterRetrieval hp r req ?p ?b ?w3).1 = _ → _ =>
        destruct (new_calls_prefix _ w w3 _
                    [CallGetRun req (Ok pr);
                     CallGetPipeline (Namespace (pr_ObjectMeta pr), ref_Name ref) (Ok pl);
                     CallGetBuild (mkGetBuildOption id
                                     [Namespace (pl_ObjectMeta pl); Name (pl_ObjectMeta pl)]
                                     branch) (Ok build);
                     CallGetNodes (mkGetNodesOption
                                     [Namespace (pl_ObjectMeta pl); Name (pl_ObjectMeta pl)]
                                     branch id) (Ok nodes)]
                    ltac:(simpl; by rewrite <- !app_assoc)
                    (afterRetrieval_calls hp r req p b w3)) as [E F];
        destruct (afterRetrieval_returns hp r req p b w3) as (res' & err' & -> & ->)
    end.
    rewrite E. intros [= <- <-]. destruct err' as [e1|].
    + split; [done |]. right. split; [done |]. eexists _, nodes.
      apply elem_of_app. left. do 3 right. by left.
    + split; [done |]. by rewrite existsb_app.
  - set (pr1 := setPipelineLabels _ pr) in *.
    destruct (Reconcile_firstRun_path hp r req (Namespace (pl_ObjectMeta pl))
                (Name (pl_ObjectMeta pl)) pr1
                (record_call
                   (CallGetPipeline (Namespace (pr_ObjectMeta pr), ref_Name ref) (Ok pl))
                   (record_call (CallGetRun req (Ok pr)) w)))
      as [e1 _ E | branch e1 _ E | branch build _ E]; rewrite E; clear E;
      try (cbn [fst snd]; intros [= <- <-]; split; [done | by left]).
    match goal with
    | |- (afterTrigger r req ?p ?w3).1 = _ → _ =>
        destruct (new_calls_prefix _ w w3 _
                    [CallGetRun req (Ok pr);
                     CallGetPipeline (Namespace (pr_ObjectMeta pr), ref_Name ref) (Ok pl);
                     CallBuild (mkBuildOption
                                  [Namespace (pl_ObjectMeta pl); Name (pl_ObjectMeta pl)]
                                  (parameterConverter_convert hp (Parameters (pr_Spec pr1)))
                                  branch) (Ok build)]
                    ltac:(simpl; by rewrite <- !app_assoc)
                    (afterTrigger_calls r req p w3)) as [E F];
        destruct (afterTrigger_returns r req p w3) as (res' & err' & -> & ->)
    end.
    rewrite E. intros [= <- <-]. destruct err' as [e1|].
    + split; [done |]. by left.
    + split; [done |]. rewrite !existsb_app.
      by rewrite (existsb_kind _ is_poll_call _ F) by by intros [].
Qed.
End Requeue.

Lemma Reconcile_requeue_witness :
  let out := Reconcile demo_helpers demo_reconciler ("demo", "run-7") world_sync in
  Requeue (mkResult false (3 * Second)) = false
  ∧ RequeueAfter (mkResult false (3 * Second))
    = if existsb is_poll_call (new_calls world_sync out.2) then 3 * Second
      else if existsb is_trigger_call (new_calls world_sync out.2) then Second
           else 0.
Proof.
  apply (Reconcile_requeue demo_helpers demo_reconciler ("demo", "run-7") world_sync
           (mkResult false (3 * Second)) None).
  vm_compute. reflexivity.
Defined.

(** ** A pass is confined to its record *)

(** What the reconciler never writes in a run record: the name, the
    namespace and the UID, the owner references, the deletion timestamp and
    the spec. *)
Definition fixed_part (pr : PipelineRun)
  : string * string * string * string * list OwnerReference * option Time * PipelineRunSpec :=
  (Name (pr_ObjectMeta pr), GenerateName (pr_ObjectMeta pr), Namespace (pr_ObjectMeta pr),
   UID (pr_ObjectMeta pr), OwnerReferences (pr_ObjectMeta pr),
   DeletionTimestamp (pr_ObjectMeta pr), pr_Spec pr).

(** From a well-formed store to a well-formed store in which the pipelines
    and every run record but the one under [key] are what they were, and in
    which the record under [key], if there was one, is still there with the
    same fixed part. *)
Definition confined (key : ObjectKey) (w w' : World) : Prop :=
  store_wf w →
  store_wf w'
  ∧ w_pipelines w' = w_pipelines w
  ∧ (∀ k, k ≠ key → w_runs w' !! k = w_runs w !! k)
  ∧ (fixed_part <$> w_runs w' !! key) = (fixed_part <$> w_runs w !! key).

#[global] Instance confined_preorder key : PreOrder (confined key).
Proof.
  split.
  - by intros w Hwf.
  - intros w1 w2 w3 H1 H2 Hwf.
    destruct (H1 Hwf) as (Hwf2 & Hp1 & Ho1 & Hf1).
    destruct (H2 Hwf2) as (Hwf3 & Hp2 & Ho2 & Hf2).
    split; [done |]. split; [congruence |]. split; [| congruence].
    intros k Hk. by rewrite Ho2, Ho1.
Qed.

#[global] Instance confined_from key : FromSameStore (confined key).
Proof.
  intros w w' [Hr Hp] [Hwf1 Hwf2]. rewrite Hr, Hp.
  split; [| done]. split; intros k x; rewrite ?Hr, ?Hp; [apply Hwf1 | apply Hwf2].
Qed.

(** The store with the record under [pr_key old] replaced by one that has
    the same fixed part. *)
Lemma confined_replace (old new : PipelineRun) (w w' : World) :
  w_runs w !! pr_key old = Some old →
  fixed_part new = fixed_part old →
  w_pipelines w' = w_pipelines w →
  w_runs w' = <[pr_key old := new]> (w_runs w) →
  confined (pr_key old) w w'.
Proof.
  intros Hold Hfixed Hp Hr [Hwf1 Hwf2].
  assert (pr_key new = pr_key old) as Hkey.
  { unfold pr_key. by injection Hfixed as -> _ -> _ _ _ _. }
  split.
  { split; [| by rewrite Hp]. rewrite Hr. intros k x.
    destruct (decide (k = pr_key old)) as [->|Hk].
    - rewrite lookup_insert_eq. by intros [= <-].
    - rewrite lookup_insert_ne by done. apply Hwf1. }
  split; [done |]. rewrite Hr. split.
  - intros k Hk. by rewrite lookup_insert_ne.
  - rewrite lookup_insert_eq, Hold. simpl. by rewrite Hfixed.
Qed.

Lemma fixed_part_withMetadata (pr old : PipelineRun) :
  fixed_part (withMetadata pr old) = fixed_part old.
Proof. unfold withMetadata. by destruct (negb _). Qed.

Lemma updateLabelsAndAnnotations_confined r pr key :
  pr_key pr = key → keeps (confined key) (updateLabelsAndAnnotations r pr).
Proof.
  intros <- w.
  destruct (updateLabelsAndAnnotations_run r pr w) as (got & Hgot & Hrun).
  destruct got as [old|e]; [| rewrite Hrun; by apply from_same_store].
  specialize (Hgot old eq_refl).
  destruct (bool_decide _ && bool_decide _); [rewrite Hrun; by apply from_same_store |].
  rewrite Hrun. clear Hrun.
  destruct (Client_UpdateRun_run (r_Client r) (withMetadata pr old)
              (record_call (CallGetRun (pr_key pr) (Ok old)) w))
    as (answer & w1 & -> & _ & Hp & Hans).
  destruct answer as [e|]; [by apply (from_same_store w) |].
  intros Hwf. destruct Hans as (stored0 & Hs0 & Hw1).
  destruct (withMetadata_fields pr old) as (Hk & Hst & _).
  assert (pr_key old = pr_key pr) as Hkey by by apply Hwf.
  rewrite Hk, Hkey in Hs0, Hw1. simpl in Hs0. assert (stored0 = old) as -> by congruence.
  rewrite <- Hst, pr_set_Status_same in Hw1. rewrite <- Hkey in *.
  apply (confined_replace old (withMetadata pr old) w); try done.
  apply fixed_part_withMetadata.
Qed.

Lemma updateStatus_confined r st key : keeps (confined key) (updateStatus r st key).
Proof.
  unfold updateStatus. apply keeps_retry; [tc_solve | |].
  { apply keeps_readonly; [tc_solve | readonly_prim]. }
  intros w. rewrite mbind_run.
  destruct (Client_GetRun_run (r_Client r) key w) as (got & -> & Hgot).
  destruct got as [old|e]; [| by apply (from_same_store w)].
  specialize (Hgot old eq_refl).
  case_bool_decide; [by apply (from_same_store w) |].
  destruct (Client_StatusUpdateRun_run (r_Client r) (pr_set_Status st old)
              (record_call (CallGetRun key (Ok old)) w))
    as (answer & w1 & -> & _ & Hp & Hans).
  destruct answer as [e|]; [by apply (from_same_store w) |].
  intros Hwf. destruct Hans as (stored0 & Hs0 & Hw1).
  assert (pr_key old = key) as Hkey by by apply Hwf.
  change (pr_key (pr_set_Status st old)) with (pr_key old) in Hs0, Hw1.
  rewrite Hkey in Hs0, Hw1. simpl in Hs0. assert (stored0 = old) as -> by congruence.
  rewrite <- Hkey in *.
  apply (confined_replace old (pr_set_Status (pr_Status (pr_set_Status st old)) old) w);
    done.
Qed.

Lemma deleteJenkinsJobHistory_same_store r pr :
  keeps same_store (deleteJenkinsJobHistory r pr).
Proof. unfold deleteJenkinsJobHistory. keeps_with fail. Qed.

Lemma Reconcile_deleting_confined r pr w :
  w_runs w !! pr_key pr = Some pr →
  confined (pr_key pr) w (Reconcile_deleting r pr w).2.
Proof.
  intros Hpr. unfold Reconcile_deleting. fold (released pr). rewrite mbind_run.
  pose proof (deleteJenkinsJobHistory_same_store r pr w) as Hsame.
  destruct (deleteJenkinsJobHistory r pr w) as [[[e|]|] w1]; simpl in Hsame;
    [by apply (from_same_store w) | | by apply (from_same_store w)].
  rewrite mbind_run.
  destruct (Client_UpdateRun_run (r_Client r) (released pr) w1)
    as (answer & w2 & -> & _ & Hp & Hans).
  destruct Hsame as [Hr1 Hp1].
  destruct answer as [e|].
  { apply (from_same_store w). split; simpl; congruence. }
  destruct Hans as (stored0 & Hs0 & Hw2).
  change (pr_key (released pr)) with (pr_key pr) in Hs0, Hw2.
  rewrite Hr1 in Hs0, Hw2. assert (stored0 = pr) as -> by congruence.
  intros Hwf.
  apply (confined_replace pr (pr_set_Status (pr_Status pr) (released pr)) w); try done.
  simpl. congruence.
Qed.

Section Confined.
Variable hp : Helpers.

Ltac confined_prim :=
  first [ apply updateStatus_confined
        | apply updateLabelsAndAnnotations_confined; reflexivity ].

Lemma makePipelineRunOrphan_confined r pr :
  keeps (confined (pr_key pr)) (makePipelineRunOrphan r pr).
Proof. unfold makePipelineRunOrphan. keeps_with confined_prim. Qed.

Lemma Reconcile_started_confined r ns name pr :
  keeps (confined (pr_key pr)) (Reconcile_started hp r (pr_key pr) ns name pr).
Proof.
  unfold Reconcile_started, getPipelineRunResult, getPipelineNodes. keeps_with confined_prim.
Qed.

Lemma Reconcile_firstRun_confined r ns name pr :
  keeps (confined (pr_key pr)) (Reconcile_firstRun hp r (pr_key pr) ns name pr).
Proof. unfold Reconcile_firstRun, triggerJenkinsJob. keeps_with confined_prim. Qed.

(** X13. A pass of [Reconcile] on a well-formed store is confined to the
    record it is asked about.  The store is well formed afterwards, no
    pipeline has changed, every other run record is what it was, no record
    has been created or removed, and the record itself has kept its name,
    namespace and UID, its owner references, its deletion timestamp and its
    spec: a pass writes labels, annotations, finalizers and status only. *)
Theorem Reconcile_confined (r : Reconciler) (req : ObjectKey) (w : World) :
  store_wf w →
  store_wf (Reconcile hp r req w).2
  ∧ w_pipelines (Reconcile hp r req w).2 = w_pipelines w
  ∧ (∀ k, k ≠ req → w_runs (Reconcile hp r req w).2 !! k = w_runs w !! k)
  ∧ (fixed_part <$> w_runs (Reconcile hp r req w).2 !! req) = (fixed_part <$> w_runs w !! req).
Proof.
  intros Hwf.
  enough (confined req w (Reconcile hp r req w).2) as C by exact (C Hwf).
  destruct (Reconcile_pass hp r req w)
    as [e0 E | pr Hpr Hdel E | pr Hpr Hdel Hb E | pr Hpr Hdel Hb Href E
        | pr ref e0 Hpr Hdel Hb Href Hname E
        | pr ref pl Hpr Hdel Hb Href Hname Hpl Hst E
        | pr ref pl Hpr Hdel Hb Href Hname Hpl Hst E];
    rewrite E; clear E; try (by apply from_same_store);
    assert (pr_key pr = req) as <- by (by apply Hwf).
  - etrans; [| by apply Reconcile_deleting_confined]. by apply from_same_store.
  - etrans; [| apply (keeps_then_ret _ _ (λ err, (Result_zero, err))
                        (makePipelineRunOrphan_confined r pr))].
    by apply from_same_store.
  - etrans; [| apply (Reconcile_started_confined r _ _ (setPipelineLabels _ pr))].
    by apply from_same_store.
  - etrans; [| apply (Reconcile_firstRun_confined r _ _ (setPipelineLabels _ pr))].
    by apply from_same_store.
Qed.
End Confined.

Lemma Reconcile_confined_witness :
  let w' := (Reconcile demo_helpers demo_reconciler ("demo", "run-1") demo_world).2 in
  store_wf w'
  ∧ w_pipelines w' = w_pipelines demo_world
  ∧ (∀ k, k ≠ ("demo", "run-1") → w_runs w' !! k = w_runs demo_world !! k)
  ∧ (fixed_part <$> w_runs w' !! ("demo", "run-1"))
    = (fixed_part <$> w_runs demo_world !! ("demo", "run-1")).
Proof.
  exact (Reconcile_confined demo_helpers demo_reconciler ("demo", "run-1") demo_world
           demo_world_wf).
Defined.

(** ** What a polling pass and a trigger pass leave in the store *)

Lemma not_of_kind (P Q : Call → bool) (tr : list Call) (c : Call) :
  Forall (λ c, P c = true) tr → (∀ c, P c = true → Q c = false) →
  c ∈ tr → Q c = true → False.
Proof.
  intros F HP Hin Hk. rewrite Forall_forall in F. specialize (HP c (F c Hin)). congruence.
Qed.

(** [Hin] says that the call [c] is in an explicit list; the elements that
    [c] cannot be, by one of the facts [Hk] and [Hc] about [c], are struck
    out. *)
Ltac strike_out Hin Hk Hc :=
  repeat (apply elem_of_cons in Hin as [-> | Hin];
          [first [discriminate Hk | discriminate Hc] |]);
  try (by apply elem_of_nil in Hin).

Ltac strike_tail Hin Hk F :=
  exfalso;
  match type of Hk with
  | ?Q _ = true => apply (not_of_kind _ Q _ _ F) in Hin; [done | by intros [] | exact Hk]
  end.

Section WriteBack.
Variable hp : Helpers.

(** When the write-back of a polling pass ends without error, the record in
    the store has the labels and annotations it was given and the status
    that the run of Jenkins translates into. *)
Lemma afterRetrieval_result r req pr build w res :
  store_wf w → pr_key pr = req →
  (afterRetrieval hp r req pr build w).1 = Done (res, None) →
  res = mkResult false (3 * Second)
  ∧ ∃ stored now,
      w_runs (afterRetrieval hp r req pr build w).2 !! req = Some stored
      ∧ Labels (pr_ObjectMeta stored) = Labels (pr_ObjectMeta pr)
      ∧ Annotations (pr_ObjectMeta stored) = Annotations (pr_ObjectMeta pr)
      ∧ pr_Status stored = pipelineBuildApplier_apply hp now build (pr_Status pr).
Proof.
  intros Hwf Hkey.
  destruct (afterRetrieval hp r req pr build w) as [out w'] eqn:ER. cbn [fst snd]. intros ->.
  unfold afterRetrieval in ER. rewrite mbind_run in ER.
  pose proof (updateLabelsAndAnnotations_result r pr w Hwf) as Hlabels.
  pose proof (updateLabelsAndAnnotations_wf r pr w Hwf) as Hwf1.
  destruct (updateLabelsAndAnnotations r pr w) as [[[e|]|] w1]; [done | | done].
  destruct (Hlabels eq_refl) as (stored1 & Hs1 & Hl1 & Ha1). clear Hlabels.
  cbn [fst snd] in *.
  rewrite mbind_run in ER. unfold time_Now at 1 in ER. cbn beta iota in ER.
  rewrite mbind_run in ER.
  match type of ER with
  | context [updateStatus r ?st0 req ?w0] => set (st := st0) in *; set (w2 := w0) in *
  end.
  assert (store_wf w2) as Hwf2 by done.
  pose proof (updateStatus_result r st req w2 Hwf2) as Hstatus.
  pose proof (updateStatus_same_metadata r st req w2) as Hmeta.
  destruct (updateStatus r st req w2) as [[[e|]|] w3]; [done | | done].
  destruct (Hstatus eq_refl) as (stored & Hs & Hst). clear Hstatus.
  cbn [fst snd] in *. rewrite mbind_run in ER. unfold Eventf in ER.
  rewrite mret_run in ER. injection ER as <- <-. split; [done |].
  exists stored, (w_clock w1). split; [done |].
  destruct (same_metadata_lookup _ _ req stored1 Hmeta) as (stored' & Hs' & Hm & _);
    [by rewrite <- Hkey |].
  assert (stored' = stored) as -> by congruence.
  rewrite Hm. done.
Qed.

(** When the write-back of a trigger pass ends without error, the metadata
    of the record in the store is that of the record as
    [updateLabelsAndAnnotations] writes it, or that of the stored record if
    there was nothing to write. *)
Lemma afterTrigger_metadata r req pr old w res :
  store_wf w → pr_key pr = req → w_runs w !! req = Some old →
  (afterTrigger r req pr w).1 = Done (res, None) →
  ∃ stored,
    w_runs (afterTrigger r req pr w).2 !! req = Some stored
    ∧ pr_ObjectMeta stored
      = pr_ObjectMeta
          (if bool_decide (Labels (pr_ObjectMeta pr) = Labels (pr_ObjectMeta old))
              && bool_decide (Annotations (pr_ObjectMeta pr) = Annotations (pr_ObjectMeta old))
           then old else withMetadata pr old).
Proof.
  intros Hwf Hkey Hold.
  destruct (afterTrigger r req pr w) as [out w'] eqn:ER. cbn [fst snd]. intros ->.
  unfold afterTrigger in ER. rewrite mbind_run in ER.
  rewrite <- Hkey in Hold.
  pose proof (updateLabelsAndAnnotations_store r pr old w Hwf Hold) as Hstore.
  destruct (updateLabelsAndAnnotations r pr w) as [[[e|]|] w1]; [done | | done].
  destruct (Hstore eq_refl) as [_ Hruns]. clear Hstore. cbn [fst snd] in *.
  rewrite mbind_run in ER. unfold time_Now at 1 in ER. cbn beta iota in ER.
  rewrite mbind_run in ER. unfold time_Now at 1 in ER. cbn beta iota in ER.
  rewrite mbind_run in ER.
  match type of ER with
  | context [updateStatus r ?st0 req ?w0] => set (st := st0) in *; set (w2 := w0) in *
  end.
  pose proof (updateStatus_same_metadata r st req w2) as Hmeta.
  destruct (updateStatus r st req w2) as [[[e|]|] w3]; [done | | done].
  cbn [fst snd] in *. rewrite mbind_run in ER. unfold Eventf in ER.
  rewrite mret_run in ER. injection ER as <- <-.
  assert (∃ stored1, w_runs w2 !! req = Some stored1
                     ∧ stored1 = if bool_decide (Labels (pr_ObjectMeta pr)
                                                 = Labels (pr_ObjectMeta old))
                                    && bool_decide (Annotations (pr_ObjectMeta pr)
                                                    = Annotations (pr_ObjectMeta old))
                                 then old else withMetadata pr old) as (stored1 & Hs1 & E1).
  { subst w2. cbn [w_runs set_clock]. rewrite Hruns, <- Hkey.
    destruct (bool_decide _ && bool_decide _); eexists; split; try reflexivity; try done.
    apply lookup_insert_eq. }
  destruct (same_metadata_lookup _ _ req stored1 Hmeta Hs1) as (stored & Hs & Hm & _).
  exists stored. split; [done |]. by rewrite Hm, E1.
Qed.
End WriteBack.

Lemma GetPipelineRunID_run_id (pr : PipelineRun) (id : string) :
  GetPipelineRunID pr = (id, true) → run_id pr = Some id.
Proof.
  unfold GetPipelineRunID, run_id. destruct (map_lookup _ _); [| done]. by intros [= ->].
Qed.

Lemma HasStarted_false_run_id (pr : PipelineRun) : HasStarted pr = false → run_id pr = None.
Proof.
  unfold HasStarted, GetPipelineRunID, run_id. by destruct (map_lookup _ _).
Qed.

Ltac each_call Hin :=
  repeat (apply elem_of_cons in Hin as [-> | Hin]); try (by apply elem_of_nil in Hin).

Section Requests.
Variable hp : Helpers.

(** The request about a run that a pass makes for the record [pr] of the
    pipeline [pipeline] on the branch [branch]. *)
Definition expected_request (pr : PipelineRun) (pipeline : Pipeline) (branch : string)
    (c : Call) : Prop :=
  let coordinates := [Namespace (pl_ObjectMeta pipeline); Name (pl_ObjectMeta pipeline)] in
  match c with
  | CallBuild o _ =>
      run_id pr = None
      ∧ o = mkBuildOption coordinates
              (parameterConverter_convert hp (Parameters (pr_Spec pr))) branch
  | CallGetBuild o _ =>
      ∃ id, run_id pr = Some id ∧ o = mkGetBuildOption id coordinates branch
  | CallGetNodes o _ =>
      ∃ id, run_id pr = Some id ∧ o = mkGetNodesOption coordinates branch id
  | _ => False
  end.

(** X14. Whenever a pass triggers a run or asks Jenkins for the result or the
    stages of a run, the record is in the store, is not being deleted and is
    buildable, its pipeline reference resolves to a pipeline of the store,
    and [getSCMRefName] has given a branch; the request names the namespace
    and the name of that pipeline and that branch, a trigger is made only
    for a record without identifier and carries the converted parameters of
    the spec, and a retrieval asks for the identifier of the record. *)
Theorem Reconcile_run_requests (r : Reconciler) (req : ObjectKey) (w : World) (c : Call) :
  c ∈ new_calls w (Reconcile hp r req w).2 →
  is_run_request c = true →
  ∃ pr ref pipeline branch,
    w_runs w !! req = Some pr
    ∧ Time_IsZero (DeletionTimestamp (pr_ObjectMeta pr)) = true
    ∧ Buildable hp pr = true
    ∧ PipelineRef (pr_Spec pr) = Some ref
    ∧ w_pipelines w !! (Namespace (pr_ObjectMeta pr), ref_Name ref) = Some pipeline
    ∧ getSCMRefName (pr_Spec pr) = Ok branch
    ∧ expected_request pr pipeline branch c.
Proof.
  intros Hin Hk.
  destruct (Reconcile_pass hp r req w)
    as [e0 E | pr Hpr Hdel E | pr Hpr Hdel Hb E | pr Hpr Hdel Hb Href E
        | pr ref e0 Hpr Hdel Hb Href Hname E
        | pr ref pl Hpr Hdel Hb Href Hname Hpl Hst E
        | pr ref pl Hpr Hdel Hb Href Hname Hpl Hst E];
    rewrite E in Hin; clear E.
  - exfalso. simpl in Hin. rewrite new_calls_record in Hin. each_call Hin. discriminate Hk.
  - destruct (new_calls_prefix _ w (record_call (CallGetRun req (Ok pr)) w) _
                [CallGetRun req (Ok pr)] eq_refl (Reconcile_deleting_calls r pr _)) as [E F].
    rewrite E in Hin. apply elem_of_app in Hin as [Hin|Hin]; [| strike_tail Hin Hk F].
    each_call Hin. discriminate Hk.
  - exfalso. simpl in Hin. rewrite new_calls_record in Hin. each_call Hin. discriminate Hk.
  - destruct (new_calls_prefix _ w (record_call (CallGetRun req (Ok pr)) w) _
                [CallGetRun req (Ok pr)] eq_refl (orphan_calls r pr _)) as [E F].
    rewrite E in Hin. apply elem_of_app in Hin as [Hin|Hin]; [| strike_tail Hin Hk F].
    each_call Hin. discriminate Hk.
  - exfalso. revert Hin. cbn [snd]. pass_calls. intros Hin. each_call Hin; discriminate Hk.
  - set (pr1 := setPipelineLabels _ pr) in *.
    destruct (Reconcile_started_path hp r req (Namespace (pl_ObjectMeta pl))
                (Name (pl_ObjectMeta pl)) pr1
                (record_call
                   (CallGetPipeline (Namespace (pr_ObjectMeta pr), ref_Name ref) (Ok pl))
                   (record_call (CallGetRun req (Ok pr)) w)))
      as [e1 _ E | id branch e1 Hid Hscm E | id branch build e1 Hid Hscm E
          | id branch build nodes e1 Hid Hscm _ E
          | id branch build nodes j1 j2 Hid Hscm _ _ E];
      rewrite E in Hin; clear E.
    1: { exfalso. revert Hin. cbn [snd]. pass_calls. intros Hin.
         each_call Hin; discriminate Hk. }
    all: apply GetPipelineRunID_run_id in Hid.
    all: exists pr, ref, pl, branch; do 6 (split; [done |]).
    1-3: revert Hin; cbn [snd]; pass_calls; intros Hin; each_call Hin;
         try discriminate Hk; by exists id.
    match type of Hin with
    | _ ∈ new_calls w (afterRetrieval hp r req ?p ?b ?w3).2 =>
        destruct (new_calls_prefix _ w w3 _
                    [CallGetRun req (Ok pr);
                     CallGetPipeline (Namespace (pr_ObjectMeta pr), ref_Name ref) (Ok pl);
                     CallGetBuild (mkGetBuildOption id
                                     [Namespace (pl_ObjectMeta pl); Name (pl_ObjectMeta pl)]
                                     branch) (Ok build);
                     CallGetNodes (mkGetNodesOption
                                     [Namespace (pl_ObjectMeta pl); Name (pl_ObjectMeta pl)]
                                     branch id) (Ok nodes)]
                    ltac:(simpl; by rewrite <- !app_assoc)
                    (afterRetrieval_calls hp r req p b w3)) as [E F]
    end.
    rewrite E in Hin. apply elem_of_app in Hin as [Hin|Hin]; [| strike_tail Hin Hk F].
    each_call Hin; try discriminate Hk; by exists id.
  - set (pr1 := setPipelineLabels _ pr) in *.
    apply HasStarted_false_run_id in Hst.
    destruct (Reconcile_firstRun_path hp r req (Namespace (pl_ObjectMeta pl))
                (Name (pl_ObjectMeta pl)) pr1
                (record_call
                   (CallGetPipeline (Namespace (pr_ObjectMeta pr), ref_Name ref) (Ok pl))
                   (record_call (CallGetRun req (Ok pr)) w)))
      as [e1 _ E | branch e1 Hscm E | branch build Hscm E]; rewrite E in Hin; clear E.
    1: { exfalso. revert Hin. cbn [snd]. pass_calls. intros Hin.
         each_call Hin; discriminate Hk. }
    all: exists pr, ref, pl, branch; do 6 (split; [done |]).
    1: revert Hin; cbn [snd]; pass_calls; intros Hin; each_call Hin;
       try discriminate Hk; done.
    match type of Hin with
    | _ ∈ new_calls w (afterTrigger r req ?p ?w3).2 =>
        destruct (new_calls_prefix _ w w3 _
                    [CallGetRun req (Ok pr);
                     CallGetPipeline (Namespace (pr_ObjectMeta pr), ref_Name ref) (Ok pl);
                     CallBuild (mkBuildOption
                                  [Namespace (pl_ObjectMeta pl); Name (pl_ObjectMeta pl)]
                                  (parameterConverter_convert hp (Parameters (pr_Spec pr1)))
                                  branch) (Ok build)]
                    ltac:(simpl; by rewrite <- !app_assoc)
                    (afterTrigger_calls r req p w3)) as [E F]
    end.
    rewrite E in Hin. apply elem_of_app in Hin as [Hin|Hin]; [| strike_tail Hin Hk F].
    each_call Hin; try discriminate Hk; done.
Qed.
End Requests.

Lemma Reconcile_run_requests_witness :
  let c := CallGetNodes (mkGetNodesOption ["demo"; "pipeline-a"] "" "7")
             (Ok [mkJobNode "1" "build" "UNKNOWN" "RUNNING"]) in
  ∃ pr ref pipeline branch,
    w_runs world_sync !! ("demo", "run-7") = Some pr
    ∧ Time_IsZero (DeletionTimestamp (pr_ObjectMeta pr)) = true
    ∧ Buildable demo_helpers pr = true
    ∧ PipelineRef (pr_Spec pr) = Some ref
    ∧ w_pipelines world_sync !! (Namespace (pr_ObjectMeta pr), ref_Name ref) = Some pipeline
    ∧ getSCMRefName (pr_Spec pr) = Ok branch
    ∧ expected_request demo_helpers pr pipeline branch c.
Proof.
  apply (Reconcile_run_requests demo_helpers demo_reconciler ("demo", "run-7") world_sync).
  - apply (list_elem_of_lookup_2 _ 3%nat). vm_compute. reflexivity.
  - reflexivity.
Defined.

Lemma map_lookup_make_if_nil (m : option (gmap string string)) (k : string) :
  map_make_if_nil m !! k = map_lookup m k.
Proof. by destruct m. Qed.

Section Persisted.
Variable hp : Helpers.

(** X15. A polling pass that ends without error has written the two
    snapshots into the annotations of the record, the serialized result of
    the run and the serialized stages, and has left every other annotation
    as it was; the status of the stored record is the translation of the
    run that Jenkins returned, applied to the status the record had; the
    pass asks for a requeue after three seconds. *)
Theorem Reconcile_poll_persists (r : Reconciler) (req : ObjectKey) (w : World)
    (pr : PipelineRun) (o : GetBuildOption) (build : job_PipelineRun) (res : Result) :
  store_wf w →
  w_runs w !! req = Some pr →
  CallGetBuild o (Ok build) ∈ new_calls w (Reconcile hp r req w).2 →
  (Reconcile hp r req w).1 = Done (res, None) →
  res = mkResult false (3 * Second)
  ∧ ∃ o' nodes runResultJSON prNodesJSON stored now,
      CallGetNodes o' (Ok nodes) ∈ new_calls w (Reconcile hp r req w).2
      ∧ json_Marshal_run hp build = Ok runResultJSON
      ∧ json_Marshal_nodes hp nodes = Ok prNodesJSON
      ∧ w_runs (Reconcile hp r req w).2 !! req = Some stored
      ∧ map_lookup (Annotations (pr_ObjectMeta stored)) JenkinsPipelineRunStatusKey
        = Some runResultJSON
      ∧ map_lookup (Annotations (pr_ObjectMeta stored)) JenkinsPipelineRunStagesStatusKey
        = Some prNodesJSON
      ∧ (∀ k, k ≠ JenkinsPipelineRunStatusKey → k ≠ JenkinsPipelineRunStagesStatusKey →
              map_lookup (Annotations (pr_ObjectMeta stored)) k
              = map_lookup (Annotations (pr_ObjectMeta pr)) k)
      ∧ pr_Status stored = pipelineBuildApplier_apply hp now build (pr_Status pr).
Proof.
  intros Hwf Hpr0 Hin Hres.
  assert (pr_key pr = req) as Hkey by by apply Hwf.
  remember (CallGetBuild o (Ok build)) as c eqn:Hc.
  assert (is_poll_call c = true) as Hk by by subst c.
  destruct (Reconcile_pass hp r req w)
    as [e0 E | pr' Hpr Hdel E | pr' Hpr Hdel Hb E | pr' Hpr Hdel Hb Href E
        | pr' ref e0 Hpr Hdel Hb Href Hname E
        | pr' ref pl Hpr Hdel Hb Href Hname Hpl Hst E
        | pr' ref pl Hpr Hdel Hb Href Hname Hpl Hst E];
    rewrite E in Hin, Hres |- *; clear E;
    try (assert (pr' = pr) as -> by congruence).
  - exfalso. simpl in Hin. rewrite new_calls_record in Hin. each_call Hin. discriminate Hk.
  - destruct (new_calls_prefix _ w (record_call (CallGetRun req (Ok pr)) w) _
                [CallGetRun req (Ok pr)] eq_refl (Reconcile_deleting_calls r pr _)) as [E F].
    rewrite E in Hin. apply elem_of_app in Hin as [Hin|Hin]; [| strike_tail Hin Hk F].
    each_call Hin. discriminate Hk.
  - exfalso. simpl in Hin. rewrite new_calls_record in Hin. each_call Hin. discriminate Hk.
  - destruct (new_calls_prefix _ w (record_call (CallGetRun req (Ok pr)) w) _
                [CallGetRun req (Ok pr)] eq_refl (orphan_calls r pr _)) as [E F].
    rewrite E in Hin. apply elem_of_app in Hin as [Hin|Hin]; [| strike_tail Hin Hk F].
    each_call Hin. discriminate Hk.
  - exfalso. revert Hin. cbn [snd]. pass_calls. intros Hin. each_call Hin; discriminate Hk.
  - set (pr1 := setPipelineLabels _ pr) in *.
    destruct (Reconcile_started_path hp r req (Namespace (pl_ObjectMeta pl))
                (Name (pl_ObjectMeta pl)) pr1
                (record_call
                   (CallGetPipeline (Namespace (pr_ObjectMeta pr), ref_Name ref) (Ok pl))
                   (record_call (CallGetRun req (Ok pr)) w)))
      as [e1 _ E | id branch e1 Hid Hscm E | id branch build1 e1 Hid Hscm E
          | id branch build1 nodes e1 Hid Hscm _ E
          | id branch build1 nodes j1 j2 Hid Hscm Hj1 Hj2 E];
      rewrite E in Hin, Hres |- *; clear E; try discriminate Hres.
    match type of Hin with
    | _ ∈ new_calls w (afterRetrieval hp r req ?p ?b ?w3).2 =>
        destruct (new_calls_prefix _ w w3 _
                    [CallGetRun req (Ok pr);
                     CallGetPipeline (Namespace (pr_ObjectMeta pr), ref_Name ref) (Ok pl);
                     CallGetBuild (mkGetBuildOption id
                                     [Namespace (pl_ObjectMeta pl); Name (pl_ObjectMeta pl)]
                                     branch) (Ok build1);
                     CallGetNodes (mkGetNodesOption
                                     [Namespace (pl_ObjectMeta pl); Name (pl_ObjectMeta pl)]
                                     branch id) (Ok nodes)]
                    ltac:(simpl; by rewrite <- !app_assoc)
                    (afterRetrieval_calls hp r req p b w3)) as [E F];
        destruct (afterRetrieval_result hp r req p b w3 res) as (-> & stored & now & Hs & _ & Ha & Hstat);
          [done | exact Hkey | done |]
    end.
    rewrite E in Hin |- *. clear E.
    apply elem_of_app in Hin as [Hin|Hin]; [| strike_tail Hin Hk F].
    each_call Hin; try discriminate Hk. injection Hc as <- <-.
    split; [done |]. eexists _, nodes, j1, j2, stored, now.
    split. { apply elem_of_app. left. do 3 right. by left. }
    do 3 (split; [done |]). unfold map_lookup. rewrite Ha. simpl.
    split. { by rewrite lookup_insert_ne, lookup_insert_eq. }
    split. { by rewrite lookup_insert_eq. }
    split; [| done]. intros k Hk1 Hk2.
    rewrite !lookup_insert_ne by done. apply map_lookup_make_if_nil.
  - set (pr1 := setPipelineLabels _ pr) in *.
    destruct (new_calls_prefix _ w
                (record_call
                   (CallGetPipeline (Namespace (pr_ObjectMeta pr), ref_Name ref) (Ok pl))
                   (record_call (CallGetRun req (Ok pr)) w)) _
                [CallGetRun req (Ok pr);
                 CallGetPipeline (Namespace (pr_ObjectMeta pr), ref_Name ref) (Ok pl)]
                ltac:(simpl; by rewrite <- !app_assoc)
                (Reconcile_firstRun_calls hp r req (Namespace (pl_ObjectMeta pl))
                   (Name (pl_ObjectMeta pl)) pr1 _)) as [E F].
    rewrite E in Hin. apply elem_of_app in Hin as [Hin|Hin]; [| strike_tail Hin Hk F].
    each_call Hin; discriminate Hk.
Qed.
End Persisted.

Lemma Reconcile_poll_persists_witness :
  let out := Reconcile demo_helpers demo_reconciler ("demo", "run-7") world_sync in
  let build := mkJobPipelineRun "7" AnyNil "UNKNOWN" "RUNNING" in
  mkResult false (3 * Second) = mkResult false (3 * Second)
  ∧ ∃ o' nodes runResultJSON prNodesJSON stored now,
      CallGetNodes o' (Ok nodes) ∈ new_calls world_sync out.2
      ∧ json_Marshal_run demo_helpers build = Ok runResultJSON
      ∧ json_Marshal_nodes demo_helpers nodes = Ok prNodesJSON
      ∧ w_runs out.2 !! ("demo", "run-7") = Some stored
      ∧ map_lookup (Annotations (pr_ObjectMeta stored)) JenkinsPipelineRunStatusKey
        = Some runResultJSON
      ∧ map_lookup (Annotations (pr_ObjectMeta stored)) JenkinsPipelineRunStagesStatusKey
        = Some prNodesJSON
      ∧ (∀ k, k ≠ JenkinsPipelineRunStatusKey → k ≠ JenkinsPipelineRunStagesStatusKey →
              map_lookup (Annotations (pr_ObjectMeta stored)) k
              = map_lookup (Annotations (pr_ObjectMeta run_7)) k)
      ∧ pr_Status stored
        = pipelineBuildApplier_apply demo_helpers now build (pr_Status run_7).
Proof.
  apply (Reconcile_poll_persists demo_helpers demo_reconciler ("demo", "run-7") world_sync
           run_7 (mkGetBuildOption "7" ["demo"; "pipeline-a"] "")
           (mkJobPipelineRun "7" AnyNil "UNKNOWN" "RUNNING") (mkResult false (3 * Second))).
  - exact world_sync_wf.
  - reflexivity.
  - apply (list_elem_of_lookup_2 _ 2%nat). vm_compute. reflexivity.
  - vm_compute. reflexivity.
Defined.

Lemma setPipelineLabels_name (name : string) (pr : PipelineRun) :
  map_lookup (Labels (pr_ObjectMeta (setPipelineLabels name pr))) PipelineNameLabelKey
  = Some name.
Proof.
  unfold setPipelineLabels. simpl. destruct (getSCMRefName (pr_Spec pr)) as [refName|e].
  - destruct (negb (String.eqb refName "")).
    + by rewrite lookup_insert_ne, lookup_insert_eq.
    + by rewrite lookup_insert_eq.
  - by rewrite lookup_insert_eq.
Qed.

Section TriggerMetadata.
Variable hp : Helpers.

(** X16. A pass that has triggered the run and ends without error leaves the
    record in the store with the finalizer of the controller, beside the
    finalizers it had, and with the labels that [Reconcile] sets: the name of
    the pipeline under the pipeline-name label.  Of the annotations only the
    run identifier has changed. *)
Theorem Reconcile_first_run_metadata (r : Reconciler) (req : ObjectKey) (w : World)
    (pr : PipelineRun) (o : BuildOption) (build : job_PipelineRun) (res : Result) :
  store_wf w →
  w_runs w !! req = Some pr →
  CallBuild o (Ok build) ∈ new_calls w (Reconcile hp r req w).2 →
  (Reconcile hp r req w).1 = Done (res, None) →
  ∃ ref pipeline stored,
    PipelineRef (pr_Spec pr) = Some ref
    ∧ w_pipelines w !! (Namespace (pr_ObjectMeta pr), ref_Name ref) = Some pipeline
    ∧ w_runs (Reconcile hp r req w).2 !! req = Some stored
    ∧ Labels (pr_ObjectMeta stored)
      = Labels (pr_ObjectMeta (setPipelineLabels (Name (pl_ObjectMeta pipeline)) pr))
    ∧ map_lookup (Labels (pr_ObjectMeta stored)) PipelineNameLabelKey
      = Some (Name (pl_ObjectMeta pipeline))
    ∧ PipelineRunFinalizerName ∈ Finalizers (pr_ObjectMeta stored)
    ∧ (∀ f, f ∈ Finalizers (pr_ObjectMeta pr) → f ∈ Finalizers (pr_ObjectMeta stored))
    ∧ (∀ k, k ≠ JenkinsPipelineRunIDKey →
            map_lookup (Annotations (pr_ObjectMeta stored)) k
            = map_lookup (Annotations (pr_ObjectMeta pr)) k).
Proof.
  intros Hwf Hpr0 Hin Hres.
  assert (pr_key pr = req) as Hkey by by apply Hwf.
  remember (CallBuild o (Ok build)) as c eqn:Hc.
  assert (is_trigger_call c = true) as Hk by by subst c.
  destruct (Reconcile_pass hp r req w)
    as [e0 E | pr' Hpr Hdel E | pr' Hpr Hdel Hb E | pr' Hpr Hdel Hb Href E
        | pr' ref e0 Hpr Hdel Hb Href Hname E
        | pr' ref pl Hpr Hdel Hb Href Hname Hpl Hst E
        | pr' ref pl Hpr Hdel Hb Href Hname Hpl Hst E];
    rewrite E in Hin, Hres |- *; clear E;
    try (assert (pr' = pr) as -> by congruence).
  - exfalso. simpl in Hin. rewrite new_calls_record in Hin. each_call Hin. discriminate Hk.
  - destruct (new_calls_prefix _ w (record_call (CallGetRun req (Ok pr)) w) _
                [CallGetRun req (Ok pr)] eq_refl (Reconcile_deleting_calls r pr _)) as [E F].
    rewrite E in Hin. apply elem_of_app in Hin as [Hin|Hin]; [| strike_tail Hin Hk F].
    each_call Hin. discriminate Hk.
  - exfalso. simpl in Hin. rewrite new_calls_record in Hin. each_call Hin. discriminate Hk.
  - destruct (new_calls_prefix _ w (record_call (CallGetRun req (Ok pr)) w) _
                [CallGetRun req (Ok pr)] eq_refl (orphan_calls r pr _)) as [E F].
    rewrite E in Hin. apply elem_of_app in Hin as [Hin|Hin]; [| strike_tail Hin Hk F].
    each_call Hin. discriminate Hk.
  - exfalso. revert Hin. cbn [snd]. pass_calls. intros Hin. each_call Hin; discriminate Hk.
  - set (pr1 := setPipelineLabels _ pr) in *.
    destruct (new_calls_prefix _ w
                (record_call
                   (CallGetPipeline (Namespace (pr_ObjectMeta pr), ref_Name ref) (Ok pl))
                   (record_call (CallGetRun req (Ok pr)) w)) _
                [CallGetRun req (Ok pr);
                 CallGetPipeline (Namespace (pr_ObjectMeta pr), ref_Name ref) (Ok pl)]
                ltac:(simpl; by rewrite <- !app_assoc)
                (Reconcile_started_calls hp r req (Namespace (pl_ObjectMeta pl))
                   (Name (pl_ObjectMeta pl)) pr1 _)) as [E F].
    rewrite E in Hin. apply elem_of_app in Hin as [Hin|Hin]; [| strike_tail Hin Hk F].
    each_call Hin; discriminate Hk.
  - set (pr1 := setPipelineLabels _ pr) in *.
    destruct (Reconcile_firstRun_path hp r req (Namespace (pl_ObjectMeta pl))
                (Name (pl_ObjectMeta pl)) pr1
                (record_call
                   (CallGetPipeline (Namespace (pr_ObjectMeta pr), ref_Name ref) (Ok pl))
                   (record_call (CallGetRun req (Ok pr)) w)))
      as [e1 _ E | branch e1 Hscm E | branch build1 Hscm E];
      rewrite E in Hin, Hres |- *; clear E; try discriminate Hres.
    match type of Hres with
    | (afterTrigger r req ?p ?w3).1 = _ =>
        destruct (afterTrigger_metadata r req p pr w3 res) as (stored & Hs & Hm);
          [done | exact Hkey | exact Hpr | done |]
    end.
    clear Hin Hc Hk.
    assert (bool_decide (Annotations (pr_ObjectMeta (triggered pr1 build1))
                         = Annotations (pr_ObjectMeta pr)) = false) as Hdiff.
    { apply bool_decide_eq_false. intros Heq.
      pose proof (run_id_triggered pr1 build1) as Hid. unfold run_id in Hid.
      rewrite Heq in Hid. apply HasStarted_false_run_id in Hst. unfold run_id in Hst.
      congruence. }
    rewrite Hdiff, andb_false_r in Hm.
    destruct (withMetadata_fields (triggered pr1 build1) pr)
      as (_ & _ & _ & Hla & Han & _ & _ & _ & Hfin & Hfins).
    exists ref, pl, stored. rewrite Hm. do 3 (split; [done |]).
    split; [by rewrite Hla |].
    split; [rewrite Hla; apply (setPipelineLabels_name _ pr) |].
    split; [done |]. split.
    + intros f Hf. destruct Hfins as [-> | [_ ->]]; [done |]. apply elem_of_app. by left.
    + intros k Hk. rewrite Han. unfold map_lookup. simpl.
      rewrite lookup_insert_ne by done. apply map_lookup_make_if_nil.
Qed.
End TriggerMetadata.

Lemma Reconcile_first_run_metadata_witness :
  let out := Reconcile demo_helpers demo_reconciler ("demo", "run-1") demo_world in
  ∃ ref pipeline stored,
    PipelineRef (pr_Spec run_1) = Some ref
    ∧ w_pipelines demo_world !! (Namespace (pr_ObjectMeta run_1), ref_Name ref) = Some pipeline
    ∧ w_runs out.2 !! ("demo", "run-1") = Some stored
    ∧ Labels (pr_ObjectMeta stored)
      = Labels (pr_ObjectMeta (setPipelineLabels (Name (pl_ObjectMeta pipeline)) run_1))
    ∧ map_lookup (Labels (pr_ObjectMeta stored)) PipelineNameLabelKey
      = Some (Name (pl_ObjectMeta pipeline))
    ∧ PipelineRunFinalizerName ∈ Finalizers (pr_ObjectMeta stored)
    ∧ (∀ f, f ∈ Finalizers (pr_ObjectMeta run_1) → f ∈ Finalizers (pr_ObjectMeta stored))
    ∧ (∀ k, k ≠ JenkinsPipelineRunIDKey →
            map_lookup (Annotations (pr_ObjectMeta stored)) k
            = map_lookup (Annotations (pr_ObjectMeta run_1)) k).
Proof.
  apply (Reconcile_first_run_metadata demo_helpers demo_reconciler ("demo", "run-1")
           demo_world run_1 (mkBuildOption ["demo"; "pipeline-a"] [] "")
           (mkJobPipelineRun "7" AnyNil "" "QUEUED") (mkResult false (1 * Second))).
  - exact demo_world_wf.
  - reflexivity.
  - apply (list_elem_of_lookup_2 _ 2%nat). vm_compute. reflexivity.
  - vm_compute. reflexivity.
Defined.

(** ** The event filter of the synchronizer *)

(** The events of the watch layer ([event.CreateEvent] and the like) with
    the metadata of the objects they carry. *)
Record CreateEvent : Type := mkCreateEvent {
  ce_Meta : ObjectMeta
}.
Record UpdateEvent : Type := mkUpdateEvent {
  ue_MetaOld : ObjectMeta;
  ue_MetaNew : ObjectMeta
}.
Record DeleteEvent : Type := mkDeleteEvent {
  de_Meta : ObjectMeta;
  de_DeleteStateUnknown : bool
}.
Record GenericEvent : Type := mkGenericEvent {
  ge_Meta : ObjectMeta
}.

(** [predicate.Funcs]: one function for each kind of event. *)
Record predicate_Funcs : Type := mkFuncs {
  CreateFunc : CreateEvent → bool;
  UpdateFunc : UpdateEvent → bool;
  DeleteFunc : DeleteEvent → bool;
  GenericFunc : GenericEvent → bool
}.

(** [requestSyncPredicate]: the events of a pipeline that asks for a
    synchronization of its runs. *)
Definition requestSyncPredicate : predicate_Funcs :=
  mkFuncs
    (λ e, match map_lookup (Annotations (ce_Meta e)) PipelineRequestToSyncRunsAnnoKey with
          | Some _ => true
          | None => false
          end)
    (λ e, match map_lookup (Annotations (ue_MetaNew e)) PipelineRequestToSyncRunsAnnoKey with
          | Some _ => true
          | None => false
          end)
    (λ e, false)
    (λ e, false).

(** The pipeline as [synchronizedSuccessfully] writes it: without the
    marker annotation. *)
Definition unmarked (p : Pipeline) : Pipeline :=
  pl_set_Annotations
    (delete PipelineRequestToSyncRunsAnnoKey <$> Annotations (pl_ObjectMeta p)) p.

Definition sync_requested (p : Pipeline) : option string :=
  map_lookup (Annotations (pl_ObjectMeta p)) PipelineRequestToSyncRunsAnnoKey.

Lemma sync_requested_unmarked (p : Pipeline) : sync_requested (unmarked p) = None.
Proof.
  unfold sync_requested, unmarked. simpl.
  destruct (Annotations (pl_ObjectMeta p)) as [m|]; [| done]. apply lookup_delete_eq.
Qed.

Lemma unmarked_not_requested (p : Pipeline) : sync_requested p = None → unmarked p = p.
Proof.
  unfold sync_requested, unmarked, pl_set_Annotations, meta_set_Annotations.
  destruct p as [tm [name gen ns uid labels annotations owners finalizers deleted] spec].
  simpl. intros H. f_equal. f_equal.
  destruct annotations as [m|]; [| done]. simpl in *. f_equal. by apply delete_id.
Qed.

(** A retry loop by the runs of its function: failed runs keep an invariant
    of the world, and the loop ends in what its last run ends in. *)
Lemma RetryOnConflict_ends (I : World → Prop) (Q : option error → World → Prop)
    (n : nat) (d : Duration) (fn : M (option error)) :
  (∀ w, I w → I (time_Sleep d w).2) →
  (∀ w, I w → match fn w with
              | (Done (Some e), w') => I w' ∧ Q (Some e) w'
              | (Done None, w') => Q None w'
              | (Panicked, _) => True
              end) →
  ∀ w, I w → match RetryOnConflict (S n) d fn w with
             | (Done err, w') => Q err w'
             | (Panicked, _) => True
             end.
Proof.
  intros Hsleep Hfn. induction n as [|n IH]; intros w Hw.
  - simpl. rewrite mbind_run. specialize (Hfn w Hw).
    destruct (fn w) as [[[e|]|] w1]; [| done | done].
    destruct Hfn as [_ HQ]. by destruct (IsConflict e).
  - change (RetryOnConflict (S (S n)) d fn)
      with (err ← fn;
            match err with
            | None => mret None
            | Some e => if IsConflict e
                        then time_Sleep d;; RetryOnConflict (S n) d fn
                        else mret (Some e)
            end).
    rewrite mbind_run. specialize (Hfn w Hw).
    destruct (fn w) as [[[e|]|] w1]; [| done | done].
    destruct Hfn as [HI HQ]. destruct (IsConflict e); [| done].
    rewrite mbind_run. apply (IH (time_Sleep d w1).2). by apply Hsleep.
Qed.

(** What [synchronizedSuccessfully] does to a well-formed store: the run
    records stay, and of the pipelines only the one under [key] can change,
    into the same pipeline without the marker; when no error is returned,
    the pipeline under [key] is there and is without the marker. *)
Definition request_cleared (key : ObjectKey) (w : World) (err : option error) (w' : World)
  : Prop :=
  w_runs w' = w_runs w
  ∧ (w_pipelines w' = w_pipelines w
     ∨ ∃ p, w_pipelines w !! key = Some p ∧ is_Some (sync_requested p)
            ∧ w_pipelines w' = <[key := unmarked p]> (w_pipelines w))
  ∧ (err = None → ∃ p, w_pipelines w !! key = Some p
                       ∧ w_pipelines w' !! key = Some (unmarked p)).

Lemma synchronizedSuccessfully_store (r : SyncReconciler) (key : ObjectKey) (w : World) :
  store_wf w →
  match synchronizedSuccessfully r key w with
  | (Done err, w') => request_cleared key w err w'
  | (Panicked, _) => True
  end.
Proof.
  intros Hwf. unfold synchronizedSuccessfully.
  apply (RetryOnConflict_ends
           (λ w1, w_runs w1 = w_runs w ∧ w_pipelines w1 = w_pipelines w)
           (request_cleared key w) 4); [by intros w1 [??] | | done].
  intros w1 [Hr Hp]. rewrite mbind_run.
  destruct (Client_GetPipeline_run (sr_Client r) key w1) as (got & -> & Hgot).
  destruct got as [p|e].
  2: { rewrite mret_run. simpl. split; [done |]. split; [done |]. split; [by left | done]. }
  specialize (Hgot p eq_refl). rewrite Hp in Hgot. fold (sync_requested p).
  destruct (sync_requested p) as [marker|] eqn:Hmarker.
  2: { rewrite mret_run. simpl. split; [done |]. split; [by left |]. intros _.
       exists p. split; [done |]. rewrite unmarked_not_requested by done.
       cbn [w_pipelines record_call]. by rewrite Hp. }
  cbn zeta. fold (unmarked p).
  destruct (Client_UpdatePipeline_run (sr_Client r) (unmarked p)
              (record_call (CallGetPipeline key (Ok p)) w1))
    as (answer & w2 & -> & _ & Hr2 & Hans).
  assert (pl_key (unmarked p) = key) as Hkey.
  { change (pl_key p = key). by apply Hwf. }
  destruct answer as [e|]; unfold request_cleared; simpl in *.
  - split; [split; congruence |]. split; [congruence |]. split; [left; congruence | done].
  - rewrite Hkey, Hp in Hans. split; [congruence |]. split.
    + right. exists p. by rewrite Hmarker.
    + intros _. exists p. split; [done |]. rewrite Hans. apply lookup_insert_eq.
Qed.

(** X17. When [synchronizedSuccessfully] returns no error on a well-formed
    store, the pipeline under the key is in the store without the marker
    annotation and is otherwise what it was; the run records and the other
    pipelines are untouched; and the events of the watch layer for the
    pipeline as it is now, a creation or an update to it, do not pass
    [requestSyncPredicate]: the write of the synchronizer does not call the
    synchronizer again. *)
Theorem synchronizedSuccessfully_clears_request (r : SyncReconciler) (key : ObjectKey)
    (w : World) :
  store_wf w →
  (synchronizedSuccessfully r key w).1 = Done None →
  ∃ p,
    w_pipelines w !! key = Some p
    ∧ w_pipelines (synchronizedSuccessfully r key w).2 !! key = Some (unmarked p)
    ∧ sync_requested (unmarked p) = None
    ∧ (∀ k, k ≠ PipelineRequestToSyncRunsAnnoKey →
            map_lookup (Annotations (pl_ObjectMeta (unmarked p))) k
            = map_lookup (Annotations (pl_ObjectMeta p)) k)
    ∧ pl_Spec (unmarked p) = pl_Spec p
    ∧ w_runs (synchronizedSuccessfully r key w).2 = w_runs w
    ∧ (∀ k, k ≠ key →
            w_pipelines (synchronizedSuccessfully r key w).2 !! k = w_pipelines w !! k)
    ∧ CreateFunc requestSyncPredicate (mkCreateEvent (pl_ObjectMeta (unmarked p))) = false
    ∧ (∀ old, UpdateFunc requestSyncPredicate
                (mkUpdateEvent old (pl_ObjectMeta (unmarked p))) = false).
Proof.
  intros Hwf. pose proof (synchronizedSuccessfully_store r key w Hwf) as Hstore.
  destruct (synchronizedSuccessfully r key w) as [[err|] w'] eqn:E; [| done].
  cbn [fst snd]. intros [= ->]. destruct Hstore as (Hr & Hp & Hcleared).
  destruct (Hcleared eq_refl) as (p & Hold & Hnew). exists p.
  pose proof (sync_requested_unmarked p) as Hnone.
  split; [done |]. split; [done |]. split; [done |]. split.
  { intros k Hk. unfold unmarked. simpl.
    destruct (Annotations (pl_ObjectMeta p)) as [m|]; [| done]. simpl.
    by apply lookup_delete_ne. }
  split; [done |]. split; [done |]. split.
  { intros k Hk. destruct Hp as [-> | (p' & _ & _ & ->)]; [done |].
    by apply lookup_insert_ne. }
  unfold sync_requested in Hnone.
  split; [| intros old];
    cbn [CreateFunc UpdateFunc requestSyncPredicate ce_Meta ue_MetaNew]; by rewrite Hnone.
Qed.

Lemma synchronizedSuccessfully_clears_request_witness :
  let out := synchronizedSuccessfully demo_synchronizer ("demo", "pipeline-a") world_sync in
  ∃ p,
    w_pipelines world_sync !! ("demo", "pipeline-a") = Some p
    ∧ w_pipelines out.2 !! ("demo", "pipeline-a") = Some (unmarked p)
    ∧ sync_requested (unmarked p) = None
    ∧ (∀ k, k ≠ PipelineRequestToSyncRunsAnnoKey →
            map_lookup (Annotations (pl_ObjectMeta (unmarked p))) k
            = map_lookup (Annotations (pl_ObjectMeta p)) k)
    ∧ pl_Spec (unmarked p) = pl_Spec p
    ∧ w_runs out.2 = w_runs world_sync
    ∧ (∀ k, k ≠ ("demo", "pipeline-a") → w_pipelines out.2 !! k = w_pipelines world_sync !! k)
    ∧ CreateFunc requestSyncPredicate (mkCreateEvent (pl_ObjectMeta (unmarked p))) = false
    ∧ (∀ old, UpdateFunc requestSyncPredicate
                (mkUpdateEvent old (pl_ObjectMeta (unmarked p))) = false).
Proof.
  apply (synchronizedSuccessfully_clears_request demo_synchronizer ("demo", "pipeline-a")
           world_sync).
  - exact world_sync_wf.
  - vm_compute. reflexivity.
Defined.

(** ** The passes of the synchronizer *)

Definition listRunsCall (pipeline : Pipeline) (answer : result (list PipelineRun)) : Call :=
  CallListRuns (Namespace (pl_ObjectMeta pipeline))
    {[PipelineNameLabelKey := Name (pl_ObjectMeta pipeline)]} answer.

Definition pipelineRunsCall (pipeline : Pipeline) (answer : result (list job_PipelineRun))
  : Call :=
  CallGetPipelineRuns (Name (pl_ObjectMeta pipeline)) (Namespace (pl_ObjectMeta pipeline))
    answer.

Definition syncFailedEvent (pipeline : Pipeline) : Call :=
  CallEvent (pl_key pipeline) EventTypeWarning FailedPipelineRunSync "".

(** The ways through a pass of the synchronizer. *)
Inductive sync_path (r : SyncReconciler) (req : ObjectKey) (w : World)
    (out : outcome (Result * option error) * World) : Prop :=
| sync_pipeline_failed (e : error) :
    out = (Done (Result_zero, IgnoreNotFound (Some e)),
           record_call (CallGetPipeline req (Fail e)) w) →
    sync_path r req w out
| sync_list_failed (pipeline : Pipeline) (e : error) :
    w_pipelines w !! req = Some pipeline →
    out = (Done (Result_zero, Some e),
           record_call (listRunsCall pipeline (Fail e))
             (record_call (CallGetPipeline req (Ok pipeline)) w)) →
    sync_path r req w out
| sync_runs_failed (pipeline : Pipeline) (items : list PipelineRun) (e : error) :
    w_pipelines w !! req = Some pipeline →
    out = (Done (Result_zero, Some e),
           record_call (syncFailedEvent pipeline)
             (record_call (pipelineRunsCall pipeline (Fail e))
                (record_call (listRunsCall pipeline (Ok items))
                   (record_call (CallGetPipeline req (Ok pipeline)) w)))) →
    sync_path r req w out
| sync_listed (pipeline : Pipeline) (items : list PipelineRun)
    (jenkinsRuns : list job_PipelineRun) :
    w_pipelines w !! req = Some pipeline →
    out = syncAfterReads r req pipeline items jenkinsRuns
            (record_call (pipelineRunsCall pipeline (Ok jenkinsRuns))
               (record_call (listRunsCall pipeline (Ok items))
                  (record_call (CallGetPipeline req (Ok pipeline)) w))) →
    sync_path r req w out.

Lemma SyncReconciler_pass (r : SyncReconciler) (req : ObjectKey) (w : World) :
  sync_path r req w (SyncReconciler_Reconcile r req w).
Proof.
  unfold SyncReconciler_Reconcile. rewrite mbind_run.
  destruct (Client_GetPipeline_run (sr_Client r) req w) as (got & -> & Hgot).
  destruct got as [pipeline|e]; [| by apply (sync_pipeline_failed r req w _ e)].
  specialize (Hgot pipeline eq_refl).
  rewrite mbind_run. unfold Client_ListRuns at 1. cbn beta iota zeta.
  match goal with
  | |- context [CallListRuns _ _ ?a] => destruct a as [items|e] eqn:Hl
  end.
  2: { by apply (sync_list_failed r req w _ pipeline e). }
  rewrite mbind_run. unfold BlueOcean_GetPipelineRuns at 1. cbn beta iota zeta.
  match goal with
  | |- context [CallGetPipelineRuns _ _ ?a] => destruct a as [jenkinsRuns|e] eqn:Hr
  end.
  2: { by apply (sync_runs_failed r req w _ pipeline items e). }
  by apply (sync_listed r req w _ pipeline items jenkinsRuns).
Qed.

Definition is_sync_call (c : Call) : bool :=
  match c with
  | CallGetPipeline _ _ | CallListRuns _ _ _ | CallGetPipelineRuns _ _ _
  | CallCreateRun _ _ | CallUpdatePipeline _ _ | CallSleep _ | CallEvent _ _ _ _ => true
  | _ => false
  end.

Lemma SyncReconciler_calls r req : keeps (extends is_sync_call) (SyncReconciler_Reconcile r req).
Proof.
  unfold SyncReconciler_Reconcile.
  repeat first [ calls_via createMissingRuns_calls
               | calls_via synchronizedSuccessfully_calls | calls_step ].
Qed.

(** *** What the synchronizer does to the store *)

(** From a well-formed store to a well-formed one with the same pipelines,
    in which every run record is still there as it was and every new record
    carries an external run identifier. *)
Definition backfilled (w w' : World) : Prop :=
  store_wf w →
  store_wf w'
  ∧ w_pipelines w' = w_pipelines w
  ∧ w_runs w ⊆ w_runs w'
  ∧ ∀ k pr, w_runs w' !! k = Some pr → w_runs w !! k = None → is_Some (run_id pr).

#[global] Instance backfilled_preorder : PreOrder backfilled.
Proof.
  split.
  - intros w Hwf. split; [done |]. split; [done |]. split; [done |].
    intros k pr H1 H2. congruence.
  - intros w1 w2 w3 H12 H23 Hwf.
    destruct (H12 Hwf) as (Hwf2 & Hp2 & Hs2 & Hn2).
    destruct (H23 Hwf2) as (Hwf3 & Hp3 & Hs3 & Hn3).
    split; [done |]. split; [congruence |]. split; [by etrans |].
    intros k pr H3 H1. destruct (w_runs w2 !! k) as [pr2|] eqn:E2.
    + assert (pr2 = pr) as ->.
      { pose proof (lookup_weaken _ _ _ _ E2 Hs3). congruence. }
      by apply (Hn2 k).
    + by apply (Hn3 k).
Qed.

#[global] Instance backfilled_from : FromSameStore backfilled.
Proof.
  intros w w' [Hr Hp] [Hwf1 Hwf2]. rewrite Hr, Hp.
  split; [split; intros k x; rewrite ?Hr, ?Hp; [apply Hwf1 | apply Hwf2] |].
  split; [done |]. split; [done |]. intros k pr H1 H2. congruence.
Qed.

Lemma createPipelineRun_backfilled r pipeline run :
  keeps backfilled (createPipelineRun r pipeline run).
Proof.
  intros w. unfold createPipelineRun.
  destruct (createBarePipelineRun pipeline run) as [[bare|e]|] eqn:Hb;
    [| by apply (from_same_store w).. ].
  destruct (createBarePipelineRun_ok _ _ _ Hb) as (Hid & _).
  destruct (Client_CreateRun_run (sr_Client r) bare w) as (answer & w1 & -> & _ & Hp & Hans).
  destruct answer as [named|e]; [| by apply (from_same_store w)].
  destruct Hans as (Hfree & Hw1 & Ha & _). intros [Hwf1 Hwf2]. unfold store_wf.
  cbn [snd w_pipelines w_runs record_call].
  split.
  { split; [| intros k x; rewrite Hp; apply Hwf2].
    intros k x. rewrite Hw1. destruct (decide (k = pr_key named)) as [->|Hk].
    - rewrite lookup_insert_eq. by intros [= <-].
    - rewrite lookup_insert_ne by done. apply Hwf1. }
  split; [done |]. rewrite Hw1. split; [by apply insert_subseteq |].
  intros k pr. destruct (decide (k = pr_key named)) as [->|Hk].
  - rewrite lookup_insert_eq. intros [= <-] _. exists (run_ID run).
    unfold run_id in *. by rewrite Ha.
  - rewrite lookup_insert_ne by done. congruence.
Qed.

Lemma createMissingRuns_backfilled r pipeline container runs created :
  keeps backfilled (createMissingRuns r pipeline container runs created).
Proof.
  revert created. induction runs as [|run rest IH]; intros created; simpl.
  { apply keeps_ret. tc_solve. }
  destruct (container !! run_ID run); [apply IH |].
  apply keeps_bind; [tc_solve | apply createPipelineRun_backfilled | intros [pr|e]; apply IH].
Qed.

Lemma synchronizedSuccessfully_returns r key w :
  ∃ err, (synchronizedSuccessfully r key w).1 = Done err.
Proof.
  destruct (RetryOnConflict_retried is_pipeline_read is_pipeline_write 4 (10 * Millisecond)
              _ w (synchronizedSuccessfully_attempt r key))
    as (err & failed & final & H & _).
  by exists err.
Qed.

(** The store after the synchronizer has read the pipeline, the local
    records and the runs of Jenkins. *)
Definition synchronized (req : ObjectKey) (w w' : World) : Prop :=
  store_wf w'
  ∧ w_runs w ⊆ w_runs w'
  ∧ (∀ k pr, w_runs w' !! k = Some pr → w_runs w !! k = None → is_Some (run_id pr))
  ∧ (∀ k, k ≠ req → w_pipelines w' !! k = w_pipelines w !! k)
  ∧ (w_pipelines w' !! req = w_pipelines w !! req
     ∨ w_pipelines w' !! req = unmarked <$> w_pipelines w !! req).

Lemma synchronized_same (req : ObjectKey) (w w' : World) :
  store_wf w → same_store w w' → synchronized req w w'.
Proof.
  intros Hwf Hs. destruct (from_same_store (R := backfilled) w w' Hs Hwf) as (? & Hp & ? & ?).
  split; [done |]. split; [done |]. split; [done |]. rewrite Hp. split; [done | by left].
Qed.

Lemma request_cleared_wf key w err w' :
  store_wf w → request_cleared key w err w' →
  store_wf w'
  ∧ (∀ k, k ≠ key → w_pipelines w' !! k = w_pipelines w !! k)
  ∧ (w_pipelines w' !! key = w_pipelines w !! key
     ∨ w_pipelines w' !! key = unmarked <$> w_pipelines w !! key).
Proof.
  intros [Hwf1 Hwf2] (Hr & Hp & _).
  destruct Hp as [Hp | (p & Hold & _ & Hp)]; rewrite ?Hp.
  - split; [split; intros k x; rewrite ?Hr, ?Hp; [apply Hwf1 | apply Hwf2] |].
    split; [done | by left].
  - split.
    { split; [intros k x; rewrite Hr; apply Hwf1 |]. intros k x. rewrite Hp.
      destruct (decide (k = key)) as [->|Hk].
      - rewrite lookup_insert_eq. intros [= <-]. change (pl_key p = key). by apply Hwf2.
      - rewrite lookup_insert_ne by done. apply Hwf2. }
    split; [intros k Hk; by apply lookup_insert_ne |].
    right. by rewrite lookup_insert_eq, Hold.
Qed.

Lemma syncAfterReads_synchronized r req pipeline items jenkinsRuns w :
  store_wf w →
  synchronized req w (syncAfterReads r req pipeline items jenkinsRuns w).2.
Proof.
  intros Hwf. unfold syncAfterReads. rewrite mbind_run.
  destruct (createMissingRuns_backfilled r pipeline (prContainer_of items) jenkinsRuns [] w Hwf)
    as (Hwf1 & Hp1 & Hs1 & Hn1).
  destruct (createMissingRuns r pipeline (prContainer_of items) jenkinsRuns [] w)
    as [[created|] w1]; cbn [fst snd] in *.
  2: { split; [done |]. split; [done |]. split; [done |]. rewrite Hp1.
       split; [done | by left]. }
  rewrite mbind_run.
  pose proof (synchronizedSuccessfully_store r req w1 Hwf1) as Hstore.
  destruct (synchronizedSuccessfully_returns r req w1) as (err & Hres).
  destruct (synchronizedSuccessfully r req w1) as [o w2]. simpl in Hres. subst o.
  destruct (request_cleared_wf req w1 err w2 Hwf1 Hstore) as (Hwf2 & Ho2 & Hk2).
  destruct Hstore as (Hr2 & _ & _).
  assert (synchronized req w w2) as Hsync.
  { split; [done |]. rewrite Hr2. split; [done |]. split; [done |].
    rewrite <- Hp1. split; [done |]. done. }
  destruct err as [e|]; [done |].
  rewrite mbind_run. unfold Eventf. by rewrite mret_run.
Qed.

Lemma SyncReconciler_synchronized (r : SyncReconciler) (req : ObjectKey) (w : World) :
  store_wf w → synchronized req w (SyncReconciler_Reconcile r req w).2.
Proof.
  intros Hwf.
  destruct (SyncReconciler_pass r req w)
    as [e E | pipeline e Hp E | pipeline items e Hp E | pipeline items jenkinsRuns Hp E];
    rewrite E; clear E; try (by apply synchronized_same).
  match goal with
  | |- synchronized req w (syncAfterReads _ _ _ _ _ ?w3).2 =>
      destruct (syncAfterReads_synchronized r req pipeline items jenkinsRuns w3)
        as (? & ? & ? & ? & ?); [done |]
  end.
  unfold synchronized. cbn [w_runs w_pipelines record_call] in *. done.
Qed.

(** X18. A pass of the synchronizer on a well-formed store only adds: every
    run record that was in the store is still there as it was, every record
    that is new carries an external run identifier, the pipelines other than
    the one asked about are untouched and that one is either untouched or
    the same without the marker; the store is well formed afterwards.  The
    pass never triggers, polls or deletes a run of Jenkins and never updates
    a run record: its calls are reads of the pipeline, the two listings,
    creations, the write of the pipeline, sleeps and events. *)
Theorem SyncReconciler_only_adds (r : SyncReconciler) (req : ObjectKey) (w : World) :
  store_wf w →
  store_wf (SyncReconciler_Reconcile r req w).2
  ∧ w_runs w ⊆ w_runs (SyncReconciler_Reconcile r req w).2
  ∧ (∀ k pr, w_runs (SyncReconciler_Reconcile r req w).2 !! k = Some pr →
             w_runs w !! k = None → is_Some (run_id pr))
  ∧ (∀ k, k ≠ req →
          w_pipelines (SyncReconciler_Reconcile r req w).2 !! k = w_pipelines w !! k)
  ∧ (w_pipelines (SyncReconciler_Reconcile r req w).2 !! req = w_pipelines w !! req
     ∨ w_pipelines (SyncReconciler_Reconcile r req w).2 !! req
       = unmarked <$> w_pipelines w !! req)
  ∧ Forall (λ c, is_sync_call c = true) (new_calls w (SyncReconciler_Reconcile r req w).2).
Proof.
  intros Hwf.
  destruct (extends_new_calls _ _ _ (SyncReconciler_calls r req w)) as [_ Hcalls].
  by destruct (SyncReconciler_synchronized r req w Hwf) as (? & ? & ? & ? & ?).
Qed.

Lemma SyncReconciler_only_adds_witness :
  let w' := (SyncReconciler_Reconcile demo_synchronizer ("demo", "pipeline-a") world_sync).2 in
  store_wf w'
  ∧ w_runs world_sync ⊆ w_runs w'
  ∧ (∀ k pr, w_runs w' !! k = Some pr → w_runs world_sync !! k = None → is_Some (run_id pr))
  ∧ (∀ k, k ≠ ("demo", "pipeline-a") → w_pipelines w' !! k = w_pipelines world_sync !! k)
  ∧ (w_pipelines w' !! ("demo", "pipeline-a") = w_pipelines world_sync !! ("demo", "pipeline-a")
     ∨ w_pipelines w' !! ("demo", "pipeline-a")
       = unmarked <$> w_pipelines world_sync !! ("demo", "pipeline-a"))
  ∧ Forall (λ c, is_sync_call c = true) (new_calls world_sync w').
Proof.
  exact (SyncReconciler_only_adds demo_synchronizer ("demo", "pipeline-a") world_sync
           world_sync_wf).
Defined.

(** *** How a pass of the synchronizer ends *)

Lemma last_new_call (P : Call → bool) (w w' : World) (c : Call) :
  extends P w w' → last (new_calls w (record_call c w')) = Some c.
Proof.
  intros (tr & E & _). rewrite (new_calls_app w _ (tr ++ [c])); [apply last_snoc |].
  simpl. by rewrite E, app_assoc.
Qed.

Lemma sync_reads_extend (req : ObjectKey) (pipeline : Pipeline) (items : list PipelineRun)
    (jenkinsRuns : list job_PipelineRun) (w : World) :
  extends (λ _, true) w
    (record_call (pipelineRunsCall pipeline (Ok jenkinsRuns))
       (record_call (listRunsCall pipeline (Ok items))
          (record_call (CallGetPipeline req (Ok pipeline)) w))).
Proof.
  eexists [_; _; _]. simpl. rewrite <- !app_assoc. split; [done |]. by repeat constructor.
Qed.

Lemma syncAfterReads_success r req pipeline items jenkinsRuns w0 w res :
  store_wf w → extends (λ _, true) w0 w →
  (syncAfterReads r req pipeline items jenkinsRuns w).1 = Done (res, None) →
  res = Result_zero
  ∧ ∃ p message,
      w_pipelines w !! req = Some p
      ∧ w_pipelines (syncAfterReads r req pipeline items jenkinsRuns w).2 !! req
        = Some (unmarked p)
      ∧ last (new_calls w0 (syncAfterReads r req pipeline items jenkinsRuns w).2)
        = Some (CallEvent (pl_key pipeline) EventTypeNormal PipelineRunSynced message).
Proof.
  intros Hwf Hext. unfold syncAfterReads. rewrite mbind_run.
  destruct (createMissingRuns_backfilled r pipeline (prContainer_of items) jenkinsRuns [] w Hwf)
    as (Hwf1 & Hp1 & _).
  pose proof (createMissingRuns_calls r pipeline (prContainer_of items) jenkinsRuns [] w) as Hc1.
  destruct (createMissingRuns r pipeline (prContainer_of items) jenkinsRuns [] w)
    as [[created|] w1]; cbn [fst snd] in *; [| done].
  rewrite mbind_run.
  pose proof (synchronizedSuccessfully_store r req w1 Hwf1) as Hstore.
  pose proof (synchronizedSuccessfully_calls r req w1) as Hc2.
  destruct (synchronizedSuccessfully_returns r req w1) as (err & Hres).
  destruct (synchronizedSuccessfully r req w1) as [o w2]. cbn [fst snd] in *. subst o.
  destruct err as [e|]; [done |].
  rewrite mbind_run. unfold Eventf. rewrite mret_run. cbn [fst snd].
  intros [= <-]. split; [done |].
  destruct Hstore as (_ & _ & Hnone). destruct (Hnone eq_refl) as (p & Hold & Hnew).
  exists p. eexists. rewrite <- Hp1. split; [done |]. split; [done |].
  apply (last_new_call (λ _, true)).
  etrans; [exact Hext |]. etrans; [| eapply extends_mono; [| exact Hc2]; done].
  eapply extends_mono; [| exact Hc1]. done.
Qed.

(** X19. A pass of the synchronizer on a well-formed store that returns no
    error asks for no requeue, and either the pipeline was not found (an
    error the pass swallows, after that one read), or the pipeline is in the
    store afterwards without the marker that asked for the pass and the last
    thing the pass has done is to record a [Synced] event on it.  This is so
    whether or not the creation of a missing record failed on the way. *)
Theorem SyncReconciler_success (r : SyncReconciler) (req : ObjectKey) (w : World)
    (res : Result) :
  store_wf w →
  (SyncReconciler_Reconcile r req w).1 = Done (res, None) →
  res = Result_zero
  ∧ ((∃ e, IsNotFound e = true
           ∧ (SyncReconciler_Reconcile r req w).2
             = record_call (CallGetPipeline req (Fail e)) w)
     ∨ ∃ p message,
         w_pipelines w !! req = Some p
         ∧ w_pipelines (SyncReconciler_Reconcile r req w).2 !! req = Some (unmarked p)
         ∧ sync_requested (unmarked p) = None
         ∧ last (new_calls w (SyncReconciler_Reconcile r req w).2)
           = Some (CallEvent req EventTypeNormal PipelineRunSynced message)).
Proof.
  intros Hwf.
  destruct (SyncReconciler_pass r req w)
    as [e E | pipeline e Hp E | pipeline items e Hp E | pipeline items jenkinsRuns Hp E];
    rewrite E; clear E; cbn [fst snd]; try done.
  - unfold IgnoreNotFound. destruct (IsNotFound e) eqn:Hnf; [| done].
    intros [= <-]. split; [done |]. left. by exists e.
  - intros Hres.
    match type of Hres with
    | (syncAfterReads _ _ _ _ _ ?w3).1 = _ =>
        destruct (syncAfterReads_success r req pipeline items jenkinsRuns w w3 res)
          as (-> & p & message & Hold & Hnew & Hlast);
          [done | apply sync_reads_extend | exact Hres |]
    end.
    split; [done |]. right. exists p, message.
    cbn [w_pipelines record_call] in Hold. assert (p = pipeline) as -> by congruence.
    split; [done |]. split; [done |]. split; [apply sync_requested_unmarked |].
    assert (pl_key pipeline = req) as <- by (by apply Hwf). exact Hlast.
Qed.

Lemma SyncReconciler_success_witness :
  let out := SyncReconciler_Reconcile demo_synchronizer ("demo", "pipeline-a") world_sync in
  Result_zero = Result_zero
  ∧ ((∃ e, IsNotFound e = true
           ∧ out.2 = record_call (CallGetPipeline ("demo", "pipeline-a") (Fail e)) world_sync)
     ∨ ∃ p message,
         w_pipelines world_sync !! ("demo", "pipeline-a") = Some p
         ∧ w_pipelines out.2 !! ("demo", "pipeline-a") = Some (unmarked p)
         ∧ sync_requested (unmarked p) = None
         ∧ last (new_calls world_sync out.2)
           = Some (CallEvent ("demo", "pipeline-a") EventTypeNormal PipelineRunSynced message)).
Proof.
  apply (SyncReconciler_success demo_synchronizer ("demo", "pipeline-a") world_sync Result_zero
           world_sync_wf).
  vm_compute. reflexivity.
Defined.

(** *** A listing that fails *)

Definition is_listing (c : Call) : bool :=
  match c with
  | CallListRuns _ _ _ | CallGetPipelineRuns _ _ _ => true
  | _ => false
  end.

Lemma syncAfterReads_kind r req pipeline items jenkinsRuns :
  keeps (extends (λ c, is_create c || is_sync_tail_call c))
    (syncAfterReads r req pipeline items jenkinsRuns).
Proof.
  unfold syncAfterReads.
  repeat first [ calls_via createMissingRuns_calls
               | calls_via synchronizedSuccessfully_calls | calls_step ].
Qed.

(** X20. When the listing of the local records or the listing of the runs of
    Jenkins is answered with an error, the pass of the synchronizer returns
    that error and asks for no requeue, and the store is as it was: nothing
    is created and the marker stays on the pipeline.  After a failed listing
    of the local records the pass does nothing more; after a failed listing
    of the runs of Jenkins the last thing it does is to record a
    [FailedPipelineRunSync] warning event on the pipeline. *)
Theorem SyncReconciler_listing_failed (r : SyncReconciler) (req : ObjectKey) (w : World)
    (c : Call) :
  c ∈ new_calls w (SyncReconciler_Reconcile r req w).2 →
  is_listing c = true → call_failed c = true →
  same_store w (SyncReconciler_Reconcile r req w).2
  ∧ ∃ pipeline e,
      w_pipelines w !! req = Some pipeline
      ∧ (SyncReconciler_Reconcile r req w).1 = Done (Result_zero, Some e)
      ∧ ((c = listRunsCall pipeline (Fail e)
          ∧ last (new_calls w (SyncReconciler_Reconcile r req w).2) = Some c)
         ∨ (c = pipelineRunsCall pipeline (Fail e)
            ∧ last (new_calls w (SyncReconciler_Reconcile r req w).2)
              = Some (syncFailedEvent pipeline))).
Proof.
  intros Hin Hk Hf.
  destruct (SyncReconciler_pass r req w)
    as [e E | pipeline e Hp E | pipeline items e Hp E | pipeline items jenkinsRuns Hp E];
    rewrite E in Hin |- *; clear E; cbn [fst snd] in *.
  - rewrite new_calls_record in Hin. strike_out Hin Hk Hf.
  - rewrite (new_calls_app w _ [CallGetPipeline req (Ok pipeline);
                                 listRunsCall pipeline (Fail e)]) in Hin |- *
      by (simpl; by rewrite <- app_assoc).
    split; [done |]. exists pipeline, e. split; [done |]. split; [done |]. left.
    apply elem_of_cons in Hin as [-> | Hin]; [discriminate Hk |].
    apply elem_of_cons in Hin as [-> | Hin]; [done | by apply elem_of_nil in Hin].
  - rewrite (new_calls_app w _ [CallGetPipeline req (Ok pipeline);
                                 listRunsCall pipeline (Ok items);
                                 pipelineRunsCall pipeline (Fail e);
                                 syncFailedEvent pipeline]) in Hin |- *
      by (simpl; by rewrite <- !app_assoc).
    split; [done |]. exists pipeline, e. split; [done |]. split; [done |]. right.
    apply elem_of_cons in Hin as [-> | Hin]; [discriminate Hk |].
    apply elem_of_cons in Hin as [-> | Hin]; [discriminate Hf |].
    apply elem_of_cons in Hin as [-> | Hin]; [done |].
    apply elem_of_cons in Hin as [-> | Hin]; [discriminate Hk | by apply elem_of_nil in Hin].
  - exfalso.
    match type of Hin with
    | _ ∈ new_calls w (syncAfterReads _ _ _ _ _ ?w3).2 =>
        destruct (new_calls_prefix _ w w3 _
                    [CallGetPipeline req (Ok pipeline); listRunsCall pipeline (Ok items);
                     pipelineRunsCall pipeline (Ok jenkinsRuns)]
                    ltac:(simpl; by rewrite <- !app_assoc)
                    (syncAfterReads_kind r req pipeline items jenkinsRuns w3)) as [E F]
    end.
    rewrite E in Hin. apply elem_of_app in Hin as [Hin | Hin].
    + strike_out Hin Hk Hf.
    + strike_tail Hin Hk F.
Qed.

(** The pipeline runs of Jenkins cannot be listed. *)
Definition jenkins_unlisted : JenkinsCore :=
  mkJenkinsCore (jenkins_Build demo_jenkins) (jenkins_GetBuild demo_jenkins)
    (jenkins_GetNodes demo_jenkins) (jenkins_DeleteHistory demo_jenkins)
    (λ _ _ _, Fail jenkins_error).

Lemma SyncReconciler_listing_failed_witness :
  let r := mkSyncReconciler reliable jenkins_unlisted in
  let out := SyncReconciler_Reconcile r ("demo", "pipeline-a") world_sync in
  let c := pipelineRunsCall pipeline_a (Fail jenkins_error) in
  same_store world_sync out.2
  ∧ ∃ pipeline e,
      w_pipelines world_sync !! ("demo", "pipeline-a") = Some pipeline
      ∧ out.1 = Done (Result_zero, Some e)
      ∧ ((c = listRunsCall pipeline (Fail e) ∧ last (new_calls world_sync out.2) = Some c)
         ∨ (c = pipelineRunsCall pipeline (Fail e)
            ∧ last (new_calls world_sync out.2) = Some (syncFailedEvent pipeline))).
Proof.
  apply (SyncReconciler_listing_failed (mkSyncReconciler reliable jenkins_unlisted)
           ("demo", "pipeline-a") world_sync
           (pipelineRunsCall pipeline_a (Fail jenkins_error))).
  - apply (list_elem_of_lookup_2 _ 2%nat). vm_compute. reflexivity.
  - reflexivity.
  - reflexivity.
Defined.

(** *** The two reconcilers together *)

Section Together.
Variable hp : Helpers.

(** X21. A run record that a pass of the synchronizer has added to a
    well-formed store counts as started, and the pass of the run reconciler
    on it right afterwards does not trigger a run of Jenkins: a run that is
    backfilled from Jenkins is not built a second time. *)
Theorem SyncReconciler_created_not_triggered (sr : SyncReconciler) (rr : Reconciler)
    (req k : ObjectKey) (w : World) (pr : PipelineRun) :
  store_wf w →
  w_runs (SyncReconciler_Reconcile sr req w).2 !! k = Some pr →
  w_runs w !! k = None →
  HasStarted pr = true
  ∧ count_builds
      (new_calls (SyncReconciler_Reconcile sr req w).2
         (Reconcile hp rr k (SyncReconciler_Reconcile sr req w).2).2) = 0%nat.
Proof.
  intros Hwf Hnew Hold.
  destruct (SyncReconciler_synchronized sr req w Hwf) as (_ & _ & Hid & _).
  destruct (Hid k pr Hnew Hold) as [id Hpr].
  split.
  - rewrite HasStarted_run_id. apply bool_decide_eq_true_2. by exists id.
  - by apply (Reconcile_started_no_trigger hp rr k _ pr id).
Qed.

End Together.

Lemma SyncReconciler_created_not_triggered_witness :
  let w' := (SyncReconciler_Reconcile demo_synchronizer ("demo", "pipeline-a") world_sync).2 in
  ∃ pr,
    w_runs w' !! ("demo", "pipeline-a-0") = Some pr
    ∧ HasStarted pr = true
    ∧ count_builds
        (new_calls w' (Reconcile demo_helpers demo_reconciler ("demo", "pipeline-a-0") w').2)
      = 0%nat.
Proof.
  eexists. split; [vm_compute; reflexivity |].
  apply (SyncReconciler_created_not_triggered demo_helpers demo_synchronizer demo_reconciler
           ("demo", "pipeline-a") ("demo", "pipeline-a-0") world_sync).
  - exact world_sync_wf.
  - vm_compute. reflexivity.
  - vm_compute. reflexivity.
Defined.

(** ** The build number behind a record *)

Lemma digit_value_pretty_N_char (d : N) :
  (d < 10)%N → digit_value (pretty_N_char d) = Some (Z.of_N d).
Proof.
  intros H. do 10 (destruct d as [|d] using N.peano_ind; [done |]). lia.
Qed.

Lemma parse_digits_pretty_N_go (x : N) (s : string) :
  parse_digits 0 (pretty_N_go x s) = parse_digits (Z.of_N x) s.
Proof.
  revert s. induction (N.lt_wf_0 x) as [x _ IH]. intros s.
  destruct (decide (x = 0%N)) as [->|Hx]; [by rewrite pretty_N_go_0 |].
  rewrite pretty_N_go_step by lia. rewrite IH by (apply N.div_lt; lia).
  cbn [parse_digits]. rewrite digit_value_pretty_N_char by (apply N.mod_lt; lia).
  f_equal. pose proof (N.div_mod x 10 ltac:(lia)) as E.
  apply (f_equal Z.of_N) in E. rewrite N2Z.inj_add, N2Z.inj_mul in E.
  change (Z.of_N 10) with 10 in E. lia.
Qed.

(** A string that begins with a digit is read without a sign. *)
Lemma strconv_Atoi_unsigned (c : ascii) (rest : string) (d n : Z) :
  digit_value c = Some d → parse_digits 0 (String c rest) = Some n →
  0 ≤ n ≤ 2 ^ 63 - 1 → strconv_Atoi (String c rest) = Ok n.
Proof.
  intros Hd Hn Hrange.
  assert (c ≠ "-"%char ∧ c ≠ "+"%char) as [Hm Hp] by (split; intros ->; discriminate Hd).
  unfold strconv_Atoi.
  assert ((match String c rest with
           | String "-"%char r => (true, r)
           | String "+"%char r => (false, r)
           | _ => (false, String c rest)
           end) = (false, String c rest)) as ->.
  { destruct c as [[] [] [] [] [] [] [] []]; done. }
  rewrite Hn.
  destruct (Z.leb_spec (- 2 ^ 63) n); [| lia].
  destruct (Z.leb_spec n (2 ^ 63 - 1)); [done | lia].
Qed.

Lemma strconv_Atoi_pretty_N (x : N) :
  (Z.of_N x ≤ 2 ^ 63 - 1) → strconv_Atoi (pretty x) = Ok (Z.of_N x).
Proof.
  intros Hrange. unfold pretty, pretty_N. destruct (decide (x = 0%N)) as [->|Hx]; [done |].
  pose proof (parse_digits_pretty_N_go x "") as Hp. cbn [parse_digits] in Hp.
  destruct (pretty_N_go x "") as [|c rest] eqn:E.
  { pose proof (pretty_N_nonempty x) as Hne. unfold pretty, pretty_N in Hne.
    rewrite decide_False in Hne by done. by rewrite E in Hne. }
  pose proof Hp as Hc. cbn [parse_digits] in Hc.
  destruct (digit_value c) as [d|] eqn:Hd; [| done].
  apply (strconv_Atoi_unsigned c rest d); [done | done | lia].
Qed.

Lemma strconv_Atoi_pretty (n : Z) :
  - 2 ^ 63 ≤ n ≤ 2 ^ 63 - 1 → strconv_Atoi (pretty n) = Ok n.
Proof.
  intros Hrange. destruct n as [|p|p].
  - done.
  - apply (strconv_Atoi_pretty_N (N.pos p)). simpl. lia.
  - change (pretty (Z.neg p)) with (String "-"%char (pretty (N.pos p))).
    unfold strconv_Atoi. unfold pretty, pretty_N. rewrite decide_False by done.
    pose proof (parse_digits_pretty_N_go (N.pos p) "") as Hp. cbn [parse_digits] in Hp.
    pose proof (pretty_N_nonempty (N.pos p)) as Hne. unfold pretty, pretty_N in Hne.
    rewrite decide_False in Hne by done.
    destruct (pretty_N_go (N.pos p) "") as [|c rest]; [done |].
    rewrite Hp. change (Z.of_N (N.pos p)) with (Z.pos p).
    destruct (Z.leb_spec (- 2 ^ 63) (- Z.pos p)); [| lia].
    destruct (Z.leb_spec (- Z.pos p) (2 ^ 63 - 1)); [done | lia].
Qed.

(** X22. The build number of a record is read from its identifier annotation
    as a decimal numeral: a record whose annotation is the numeral of [n],
    for any [n] that fits a 64-bit integer, has the build number [n], so
    that a record with a negative numeral is treated, like one without a
    valid number, as a record with no build to delete. *)
Theorem getJenkinsBuildNumber_decimal (pr : PipelineRun) (n : Z) :
  - 2 ^ 63 ≤ n ≤ 2 ^ 63 - 1 →
  run_id pr = Some (pretty n) →
  getJenkinsBuildNumber pr = n.
Proof.
  intros Hrange Hid. unfold getJenkinsBuildNumber, GetPipelineRunID.
  unfold run_id in Hid. rewrite Hid. cbn [negb]. by rewrite strconv_Atoi_pretty.
Qed.

Lemma getJenkinsBuildNumber_decimal_witness : getJenkinsBuildNumber run_7 = 7.
Proof.
  apply (getJenkinsBuildNumber_decimal run_7 7); [lia | reflexivity].
Defined.
